(* Shallow embedding of the face verification core of the id repository:
   src/app/services/face_verification_service.py (embedding variant,
   face_recognition backend), src/app/services/face_verification_service_fallback.py
   (heuristic variant, OpenCV only) and the /verify route of
   src/app/routes/verification_routes.py.

   Python floats are modelled as real numbers; Python dicts returned by the
   services are association lists of string keys in insertion order.  The
   external libraries (cv2.imread, the Haar cascade, face_recognition's
   detector and encoder) are modelled by what they return on a file: see
   [Decoded] and [ImageFile]. *)

From Stdlib Require Import Reals Lra Lia ZArith String Ascii DecimalString List Bool.
Import ListNotations.
Open Scope R_scope.
Open Scope string_scope.

(* ------------------------------------------------------------------ *)
(** * Numeric helpers *)

(** Boolean views of the float comparisons used by the code. *)
Definition Rle_bool (a b : R) : bool := if Rle_dec a b then true else false.
Definition Rlt_bool (a b : R) : bool := if Rlt_dec a b then true else false.
Definition Rge_bool (a b : R) : bool := if Rge_dec a b then true else false.

Definition Rfloor (y : R) : Z := (up y - 1)%Z.

(** numpy's [rint]: round half to even. *)
Definition rint (y : R) : Z :=
  let f := Rfloor y in
  let d := y - IZR f in
  if Rlt_dec d (1/2) then f
  else if Rlt_dec (1/2) d then (f + 1)%Z
  else if Z.even f then f else (f + 1)%Z.

(** [round(x, n)] on a float: [rint(x * 10^n) / 10^n]. *)
Definition py_round (x : R) (n : nat) : R := IZR (rint (x * 10 ^ n)) / 10 ^ n.

Fixpoint sum_upto (n : nat) (f : nat -> R) : R :=
  match n with
  | O => 0
  | S k => sum_upto k f + f k
  end.

Definition sum_list (xs : list R) : R := fold_right Rplus 0 xs.

(** [np.mean] and [np.std] (population) of a flat array. *)
Definition np_mean (xs : list R) : R := sum_list xs / INR (length xs).
Definition np_std (xs : list R) : R :=
  let m := np_mean xs in sqrt (np_mean (map (fun x => (x - m) ^ 2) xs)).

(* ------------------------------------------------------------------ *)
(** * Python values and dicts *)

Set Warnings "-register-all".

Inductive Value :=
| VNone
| VBool (b : bool)
| VNpBool (b : bool)  (* a numpy.bool_ scalar *)
| VNum (r : R)
| VStr (s : string)
| VText (template : string) (args : list Value)  (* an f-string and its arguments *)
| VList (l : list Value)
| VDict (d : list (string * Value)).

Definition Dict := list (string * Value).

(** [d[k]] / [d.get(k)]: [None] when the key is missing (a KeyError for [d[k]]). *)
Fixpoint dict_get (k : string) (d : Dict) : option Value :=
  match d with
  | [] => None
  | (k', v) :: r => if String.eqb k k' then Some v else dict_get k r
  end.

(** [d[k] = v]: replaces in place, or appends a new key. *)
Fixpoint dict_set (k : string) (v : Value) (d : Dict) : Dict :=
  match d with
  | [] => [(k, v)]
  | (k', v') :: r => if String.eqb k k' then (k', v) :: r else (k', v') :: dict_set k v r
  end.

(** [d.get(k, default)] *)
Definition dict_get_default (k : string) (dflt : Value) (d : Dict) : Value :=
  match dict_get k d with Some v => v | None => dflt end.

(** [student_details or {}] *)
Definition or_empty (sd : option Dict) : Dict :=
  match sd with Some d => d | None => [] end.

(* ------------------------------------------------------------------ *)
(** * Images on disk *)

(** A face box [(x, y, w, h)] as returned by [detectMultiScale]; the cascade
    only reports boxes of positive size (minSize 30x30). *)
Record Box := mkBox { box_x : N; box_y : N; box_w : positive; box_h : positive }.

Definition box_value (b : Box) : Value :=
  VList [VNum (IZR (Z.of_N (box_x b))); VNum (IZR (Z.of_N (box_y b)));
         VNum (IZR (Zpos (box_w b))); VNum (IZR (Zpos (box_h b)))].

(** A dlib face location [(top, right, bottom, left)]. *)
Definition Location := (Z * Z * Z * Z)%type.

Definition location_value (l : Location) : Value :=
  match l with (t, r, b, lf) => VList [VNum (IZR t); VNum (IZR r); VNum (IZR b); VNum (IZR lf)] end.

(** A face encoding of face_recognition: a vector of [enc_dim] reals. *)
Definition enc_dim : nat := 128.
Definition Encoding := nat -> R.

(** [face_recognition.face_distance([known], e)[0]] = [np.linalg.norm(known - e)]. *)
Definition face_distance (known e : Encoding) : R :=
  sqrt (sum_upto enc_dim (fun i => (known i - e i) ^ 2)).

(** What the libraries return on a decodable image file: the grayscale
    pixel rows ([cv2.cvtColor(cv2.imread(p), COLOR_BGR2GRAY)]), the boxes of
    the Haar cascade on it, and the locations of face_recognition's detector
    each with the encoding [face_encodings] computes there. *)
Record Decoded := mkDecoded {
  gray : list (list Z);
  cascade_faces : list Box;
  hog_faces : list (Location * Encoding)
}.

(** A path names no file, or a file that decodes ([Some]) or not ([None]). *)
Inductive ImageFile := NoFile | File (contents : option Decoded).

(** The file system, as seen by the services. *)
Definition FS := string -> ImageFile.

(** [os.path.exists(p)] *)
Definition path_exists (fs : FS) (p : string) : bool :=
  match fs p with NoFile => false | File _ => true end.

(** [cv2.imread(p)] (and face_recognition's [load_image_file]) *)
Definition imread (fs : FS) (p : string) : option Decoded :=
  match fs p with NoFile => None | File c => c end.

(** [image.shape[:2]] as [(height, width)] *)
Definition img_height (g : list (list Z)) : nat := length g.
Definition img_width (g : list (list Z)) : nat := length (hd [] g).

(* ------------------------------------------------------------------ *)
(** * Results *)

(** A stage either fails with [error_code] and [message], or succeeds. *)
Inductive result (A : Type) :=
| Err (code : string) (msg : Value)
| Ok (a : A).
Arguments Err {A} _ _.
Arguments Ok {A} _.

(** FACE_RECOGNITION_AVAILABLE: the embedding backend is installed, or the
    service delegates to FaceVerificationServiceFallback. *)
Inductive Variant := Embedding | Heuristic.

(* ------------------------------------------------------------------ *)
(** * Face detection and representation extraction *)

(** FaceVerificationService.detect_faces_dlib (backend available) *)
Definition detect_faces_dlib (fs : FS) (p : string) : result (list (Location * Encoding)) :=
  match imread fs p with
  | None => Err "DLIB_DETECTION_ERROR" (VText "Face detection failed: {e}" [])
  | Some d => Ok (hog_faces d)
  end.

(** FaceVerificationServiceFallback.detect_faces_opencv.  When the cascade
    finds no face, [detectMultiScale] returns an empty tuple, on which
    [faces.tolist()] raises AttributeError: the [except] answers
    OPENCV_DETECTION_ERROR.  Otherwise it returns an ndarray of boxes. *)
Definition detect_faces_opencv (fs : FS) (p : string) : result (list Box) :=
  match imread fs p with
  | None => Err "IMAGE_READ_ERROR" (VStr "Could not read image file")
  | Some d =>
      match cascade_faces d with
      | [] => Err "OPENCV_DETECTION_ERROR" (VText "Face detection failed: {str(e)}" [])
      | faces => Ok faces
      end
  end.

Definition multiple_faces_msg (n : nat) : Value :=
  VText "Multiple faces detected ({face_count}). Please use image with single face" [VNum (INR n)].

(** FaceVerificationService.extract_face_encoding, backend branch *)
Definition extract_face_encoding_dlib (fs : FS) (p : string) : result (Location * Encoding) :=
  if negb (path_exists fs p) then Err "FILE_NOT_FOUND" (VStr "Image file not found") else
  match detect_faces_dlib fs p with
  | Err c m => Err c m
  | Ok faces =>
      let face_count := length faces in
      if Nat.eqb face_count 0 then Err "NO_FACE_DETECTED" (VStr "No face detected in image")
      else if Nat.ltb 1 face_count then Err "MULTIPLE_FACES_DETECTED" (multiple_faces_msg face_count)
      else match faces with
           | f :: _ => Ok f
           | [] => Err "ENCODING_EXTRACTION_ERROR" (VText "Face encoding extraction failed: {e}" [])
           end
  end.

(** The heuristic feature bundle of extract_face_features. *)
Record Features := mkFeatures {
  histogram : list R;
  mean_intensity : R;
  std_intensity : R;
  face_area : Z;
  aspect_ratio : R;
  face_coords : Box
}.

(** [gray[y:y+h, x:x+w]] *)
Definition crop (g : list (list Z)) (b : Box) : list (list Z) :=
  let x := N.to_nat (box_x b) in
  let y := N.to_nat (box_y b) in
  let w := Pos.to_nat (box_w b) in
  let h := Pos.to_nat (box_h b) in
  map (fun row => firstn w (skipn x row)) (firstn h (skipn y g)).

Definition pixels (region : list (list Z)) : list R := map IZR (concat region).

(** [cv2.calcHist([region], [0], None, [256], [0, 256]).flatten()] *)
Definition calc_hist (region : list (list Z)) : list R :=
  map (fun v => INR (count_occ Z.eq_dec (concat region) (Z.of_nat v))) (seq 0 256).

(** The feature bundle of the face at [b] in the grayscale image [g]:
    [histogram] keeps the first 50 bins, [face_area] is [int(w * h)],
    [aspect_ratio] is [float(w / h)]. *)
Definition face_features (g : list (list Z)) (b : Box) : Features :=
  let region := crop g b in
  mkFeatures
    (firstn 50 (calc_hist region))
    (np_mean (pixels region))
    (np_std (pixels region))
    (Zpos (box_w b * box_h b))
    (IZR (Zpos (box_w b)) / IZR (Zpos (box_h b)))
    b.

(** FaceVerificationServiceFallback.extract_face_features *)
Definition extract_face_features (fs : FS) (p : string) : result Features :=
  if negb (path_exists fs p) then Err "FILE_NOT_FOUND" (VStr "Image file not found") else
  match detect_faces_opencv fs p with
  | Err c m => Err c m
  | Ok faces =>
      let face_count := length faces in
      if Nat.eqb face_count 0 then Err "NO_FACE_DETECTED" (VStr "No face detected in image")
      else if Nat.ltb 1 face_count then Err "MULTIPLE_FACES_DETECTED" (multiple_faces_msg face_count)
      else match imread fs p, faces with
           | Some d, b :: _ => Ok (face_features (gray d) b)
           | _, _ => Err "FEATURE_EXTRACTION_ERROR" (VText "Face feature extraction failed: {e}" [])
           end
  end.

(** The representation a variant extracts from one image. *)
Inductive FaceRep :=
| RepEmbedding (loc : Location) (enc : Encoding)
| RepHeuristic (f : Features).

(** FaceVerificationService.extract_face_encoding, both branches *)
Definition extract_face_encoding (v : Variant) (fs : FS) (p : string) : result FaceRep :=
  match v with
  | Embedding =>
      match extract_face_encoding_dlib fs p with
      | Err c m => Err c m
      | Ok (l, e) => Ok (RepEmbedding l e)
      end
  | Heuristic =>
      match extract_face_features fs p with
      | Err c m => Err c m
      | Ok f => Ok (RepHeuristic f)
      end
  end.

(** The code extraction fails with when the locator finds no face. *)
Definition no_face_code (v : Variant) : string :=
  match v with Embedding => "NO_FACE_DETECTED" | Heuristic => "OPENCV_DETECTION_ERROR" end.

(** The faces the locator of each variant finds: face_recognition's
    detector or the Haar cascade ([detectMultiScale]); [None] when the image
    cannot be loaded. *)
Definition locate (v : Variant) (fs : FS) (p : string) : option (list (Z * Z * Z * Z)) :=
  match v with
  | Embedding =>
      match detect_faces_dlib fs p with
      | Ok faces => Some (map fst faces)
      | Err _ _ => None
      end
  | Heuristic =>
      match imread fs p with
      | Some d =>
          Some (map (fun b => (Z.of_N (box_x b), Z.of_N (box_y b), Zpos (box_w b), Zpos (box_h b)))
                    (cascade_faces d))
      | None => None
      end
  end.

(* ------------------------------------------------------------------ *)
(** * Quality gate: validate_image_quality (same body in both classes) *)

(** Border index of cv2's BORDER_REFLECT_101 ([borderInterpolate]). *)
Definition reflect101 (n k : Z) : Z :=
  if (n =? 1)%Z then 0%Z
  else if (k <? 0)%Z then (- k)%Z
  else if (n <=? k)%Z then (2 * n - 2 - k)%Z
  else k.

Definition px (g : list (list Z)) (i j : Z) : R :=
  IZR (nth (Z.to_nat j) (nth (Z.to_nat i) g []) 0%Z).

(** [cv2.Laplacian(gray, cv2.CV_64F)] (ksize 1: kernel [0 1 0; 1 -4 1; 0 1 0]). *)
Definition laplacian_at (g : list (list Z)) (i j : Z) : R :=
  let h := Z.of_nat (img_height g) in
  let w := Z.of_nat (img_width g) in
  px g (reflect101 h (i - 1)) j + px g (reflect101 h (i + 1)) j
  + px g i (reflect101 w (j - 1)) + px g i (reflect101 w (j + 1))
  - 4 * px g i j.

Definition laplacian (g : list (list Z)) : list R :=
  flat_map (fun i => map (fun j => laplacian_at g (Z.of_nat i) (Z.of_nat j)) (seq 0 (img_width g)))
           (seq 0 (img_height g)).

(** [np.var] *)
Definition np_var (xs : list R) : R :=
  let m := np_mean xs in np_mean (map (fun x => (x - m) ^ 2) xs).

(** [np.mean(gray)] *)
Definition brightness (g : list (list Z)) : R := np_mean (pixels g).

(** [cv2.Laplacian(gray, cv2.CV_64F).var()] *)
Definition laplacian_var (g : list (list Z)) : R := np_var (laplacian g).

Definition quality_fail (msg : Value) (code : string) : Dict :=
  [("valid", VBool false); ("message", msg); ("error_code", VStr code)].

(** FaceVerificationService.validate_image_quality *)
Definition validate_image_quality (fs : FS) (p : string) : Dict :=
  match imread fs p with
  | None => quality_fail (VStr "Could not read image file") "IMAGE_READ_ERROR"
  | Some d =>
      let g := gray d in
      let height := img_height g in
      let width := img_width g in
      if Nat.ltb width 100 || Nat.ltb height 100 then
        quality_fail (VText "Image resolution too low: {width}x{height}. Minimum 100x100 required"
                        [VNum (INR width); VNum (INR height)]) "LOW_RESOLUTION"
      else
        let mean_brightness := brightness g in
        if Rlt_bool mean_brightness 30 then
          quality_fail (VStr "Image is too dark for face recognition") "TOO_DARK"
        else if Rlt_bool 225 mean_brightness then
          quality_fail (VStr "Image is too bright for face recognition") "TOO_BRIGHT"
        else
          let laplacian_var := laplacian_var g in
          if Rlt_bool laplacian_var 100 then
            quality_fail (VStr "Image appears to be blurry") "BLURRY_IMAGE"
          else
            [("valid", VBool true);
             ("message", VStr "Image quality is acceptable for face recognition");
             ("details", VDict [("resolution", VText "{width}x{height}" [VNum (INR width); VNum (INR height)]);
                                ("brightness", VNum (py_round mean_brightness 2));
                                ("sharpness", VNum (py_round laplacian_var 2))])]
  end.

(* ------------------------------------------------------------------ *)
(** * Comparison engine *)

Definition compare_fail (msg : Value) (code : string) : Dict :=
  [("success", VBool false); ("message", msg); ("error_code", VStr code)].

(** FaceVerificationService.compare_faces, backend branch *)
Definition compare_faces_dlib (tolerance : R) (fs : FS) (image1_path image2_path : string) : Dict :=
  let encoding1_result := extract_face_encoding_dlib fs image1_path in
  let encoding2_result := extract_face_encoding_dlib fs image2_path in
  match encoding1_result, encoding2_result with
  | Err c m, _ => compare_fail (VText "Live camera image: {message}" [m]) ("CAMERA_IMAGE_" ++ c)
  | _, Err c m => compare_fail (VText "ID card image: {message}" [m]) ("ID_CARD_IMAGE_" ++ c)
  | Ok (loc1, encoding1), Ok (loc2, encoding2) =>
      let fd := face_distance encoding1 encoding2 in
      let confidence := Rmax 0 ((1 - fd) * 100) in
      let is_match := Rle_bool fd tolerance in
      let result_status := if is_match then "Verified" else "Not Verified" in
      let result_message :=
        if is_match then VText "Faces match with {confidence:.2f}% confidence" [VNum confidence]
        else VText "Faces do not match. Confidence: {confidence:.2f}%" [VNum confidence] in
      (* [face_distance] is a numpy.float64, so [face_distance <= self.tolerance]
         is a numpy.bool_ *)
      [("success", VBool true);
       ("result", VStr result_status);
       ("is_match", VNpBool is_match);
       ("confidence", VNum (py_round confidence 2));
       ("face_distance", VNum (py_round fd 4));
       ("tolerance_used", VNum tolerance);
       ("message", result_message);
       ("method", VStr "Advanced face_recognition library");
       ("details", VDict [("camera_image", VDict [("path", VStr image1_path); ("face_location", location_value loc1)]);
                          ("id_card_image", VDict [("path", VStr image2_path); ("face_location", location_value loc2)])])]
  end.

(** DBL_EPSILON of the C++ double type. *)
Definition DBL_EPSILON : R := / 2 ^ 52.

Definition sum_prod (h1 h2 : list R) : R := sum_list (map (fun ab => fst ab * snd ab) (combine h1 h2)).

(** [cv2.compareHist(h1, h2, cv2.HISTCMP_CORREL)] *)
Definition compare_hist_correl (h1 h2 : list R) : R :=
  let scale := / INR (length h1) in
  let s1 := sum_list h1 in
  let s2 := sum_list h2 in
  let s11 := sum_prod h1 h1 in
  let s22 := sum_prod h2 h2 in
  let s12 := sum_prod h1 h2 in
  let num := s12 - s1 * s2 * scale in
  let denom2 := (s11 - s1 * s1 * scale) * (s22 - s2 * s2 * scale) in
  if Rlt_dec DBL_EPSILON (Rabs denom2) then num / sqrt denom2 else 1.

(** The four sub-scores of compare_faces_basic and their weights. *)
Definition hist_correlation (f1 f2 : Features) : R :=
  compare_hist_correl (histogram f1) (histogram f2).
Definition intensity_similarity (f1 f2 : Features) : R :=
  let intensity_diff := Rabs (mean_intensity f1 - mean_intensity f2) in
  Rmax 0 (1 - intensity_diff / 255).
Definition ratio_similarity (f1 f2 : Features) : R :=
  let ratio_diff := Rabs (aspect_ratio f1 - aspect_ratio f2) in
  Rmax 0 (1 - ratio_diff).
Definition size_ratio (f1 f2 : Features) : R :=
  let area1 := IZR (face_area f1) in
  let area2 := IZR (face_area f2) in
  Rmin area1 area2 / Rmax area1 area2.

Definition weight_histogram : R := 0.4.
Definition weight_intensity : R := 0.2.
Definition weight_ratio : R := 0.2.
Definition weight_size : R := 0.2.

Definition combined_similarity (f1 f2 : Features) : R :=
  hist_correlation f1 f2 * weight_histogram
  + intensity_similarity f1 f2 * weight_intensity
  + ratio_similarity f1 f2 * weight_ratio
  + size_ratio f1 f2 * weight_size.

Definition basic_threshold : R := 0.4.

(** FaceVerificationServiceFallback.compare_faces_basic *)
Definition compare_faces_basic (fs : FS) (image1_path image2_path : string) : Dict :=
  let features1_result := extract_face_features fs image1_path in
  let features2_result := extract_face_features fs image2_path in
  match features1_result, features2_result with
  | Err c m, _ => compare_fail (VText "Live camera image: {message}" [m]) ("CAMERA_IMAGE_" ++ c)
  | _, Err c m => compare_fail (VText "ID card image: {message}" [m]) ("ID_CARD_IMAGE_" ++ c)
  | Ok features1, Ok features2 =>
      let combined := combined_similarity features1 features2 in
      let confidence := Rmax 0 (Rmin 100 (combined * 100)) in
      let is_match := Rge_bool combined basic_threshold in
      let result_status := if is_match then "Verified" else "Not Verified" in
      let result_message :=
        if is_match then VText "Faces appear to match with {confidence:.2f}% confidence (basic method)" [VNum confidence]
        else VText "Faces do not appear to match. Confidence: {confidence:.2f}% (basic method)" [VNum confidence] in
      [("success", VBool true);
       ("result", VStr result_status);
       ("is_match", VBool is_match);
       ("confidence", VNum (py_round confidence 2));
       ("similarity_score", VNum (py_round combined 4));
       ("tolerance_used", VNum basic_threshold);
       ("message", result_message);
       ("method", VStr "Basic OpenCV comparison");
       ("details", VDict [("camera_image", VDict [("path", VStr image1_path); ("face_location", box_value (face_coords features1))]);
                          ("id_card_image", VDict [("path", VStr image2_path); ("face_location", box_value (face_coords features2))]);
                          ("similarity_breakdown",
                             VDict [("histogram_correlation", VNum (py_round (hist_correlation features1 features2) 4));
                                    ("intensity_similarity", VNum (py_round (intensity_similarity features1 features2) 4));
                                    ("ratio_similarity", VNum (py_round (ratio_similarity features1 features2) 4));
                                    ("size_similarity", VNum (py_round (size_ratio features1 features2) 4))])]);
       ("warning", VStr "This is a basic comparison method. For better accuracy, install face_recognition library.")]
  end.

(** FaceVerificationService.compare_faces, both branches *)
Definition compare_faces (v : Variant) (tolerance : R) (fs : FS) (image1_path image2_path : string) : Dict :=
  match v with
  | Embedding => compare_faces_dlib tolerance fs image1_path image2_path
  | Heuristic => compare_faces_basic fs image1_path image2_path
  end.

(* ------------------------------------------------------------------ *)
(** * Verification orchestrator: verify_identity *)

(** Python truthiness of the values the services produce. *)
Definition truthy (v : Value) : bool :=
  match v with
  | VNone => false
  | VBool b | VNpBool b => b
  | VStr s => negb (String.eqb s "")
  | VList l | VText _ l => true
  | VDict d => match d with [] => false | _ => true end
  | VNum _ => true
  end.

(** Option bind: [None] is a KeyError or TypeError raised inside the [try]. *)
Notation "'let?' x ':=' e 'in' b" :=
  (match e with Some x => b | None => None end) (at level 200, x name, b at level 200).

Definition get_dict (k : string) (d : Dict) : option Dict :=
  match dict_get k d with Some (VDict d') => Some d' | _ => None end.

Definition num_of (v : Value) : option R :=
  match v with VNum r => Some r | _ => None end.

Definition verify_exception (student_details : option Dict) : Dict :=
  [("success", VBool false); ("result", VStr "Verification Failed"); ("confidence", VNum 0);
   ("message", VText "Identity verification failed: {e}" []);
   ("error_code", VStr "VERIFICATION_ERROR");
   ("student_details", VDict (or_empty student_details))].

Definition verify_failed (comparison_result : Dict) (student_details : option Dict) : option Dict :=
  let? msg := dict_get "message" comparison_result in
  Some [("success", VBool false); ("result", VStr "Verification Failed"); ("confidence", VNum 0);
        ("message", msg); ("error_code", dict_get_default "error_code" VNone comparison_result);
        ("student_details", VDict (or_empty student_details))].

(** Recommendation tiers of FaceVerificationService.verify_identity *)
Definition recommendation_advanced (confidence : R) : string :=
  if Rge_bool confidence 80 then "High confidence match"
  else if Rge_bool confidence 60 then "Moderate confidence match"
  else "Low confidence - manual review recommended".

(** Recommendation tiers of FaceVerificationServiceFallback.verify_identity *)
Definition recommendation_basic (confidence : R) : string :=
  if Rge_bool confidence 70 then "Moderate confidence match (basic method)"
  else if Rge_bool confidence 50 then "Low confidence match (basic method)"
  else "Very low confidence - manual review required".

(** FaceVerificationService.verify_identity, backend branch; [now] is
    [datetime.now().isoformat()]. *)
Definition verify_identity_advanced (tolerance : R) (fs : FS) (camera_image_path id_card_image_path : string)
    (student_details : option Dict) (now : string) : Dict :=
  let comparison_result := compare_faces_dlib tolerance fs camera_image_path id_card_image_path in
  let body :=
    let? success := dict_get "success" comparison_result in
    if negb (truthy success) then verify_failed comparison_result student_details else
    let? res := dict_get "result" comparison_result in
    let? is_match := dict_get "is_match" comparison_result in
    let? confidence := dict_get "confidence" comparison_result in
    let? msg := dict_get "message" comparison_result in
    let? tolerance_used := dict_get "tolerance_used" comparison_result in
    let verification_result :=
      [("success", VBool true); ("result", res); ("is_match", is_match); ("confidence", confidence);
       ("face_distance", dict_get_default "face_distance" (VNum 0) comparison_result);
       ("message", msg);
       ("method", dict_get_default "method" (VStr "Unknown") comparison_result);
       ("student_details", VDict (or_empty student_details));
       ("verification_details", VDict [("tolerance_used", tolerance_used);
                                       ("camera_image", VStr camera_image_path);
                                       ("id_card_image", VStr id_card_image_path);
                                       ("timestamp", VStr now)])] in
    let? c := num_of confidence in
    Some (dict_set "recommendation" (VStr (recommendation_advanced c)) verification_result)
  in
  match body with Some r => r | None => verify_exception student_details end.

(** FaceVerificationServiceFallback.verify_identity *)
Definition verify_identity_basic (fs : FS) (camera_image_path id_card_image_path : string)
    (student_details : option Dict) (now : string) : Dict :=
  let comparison_result := compare_faces_basic fs camera_image_path id_card_image_path in
  let body :=
    let? success := dict_get "success" comparison_result in
    if negb (truthy success) then verify_failed comparison_result student_details else
    let? res := dict_get "result" comparison_result in
    let? is_match := dict_get "is_match" comparison_result in
    let? confidence := dict_get "confidence" comparison_result in
    let? similarity_score := dict_get "similarity_score" comparison_result in
    let? msg := dict_get "message" comparison_result in
    let? method := dict_get "method" comparison_result in
    let? tolerance_used := dict_get "tolerance_used" comparison_result in
    let? details := get_dict "details" comparison_result in
    let? breakdown := dict_get "similarity_breakdown" details in
    let verification_result :=
      [("success", VBool true); ("result", res); ("is_match", is_match); ("confidence", confidence);
       ("similarity_score", similarity_score);
       ("message", msg); ("method", method);
       ("warning", dict_get_default "warning" (VStr "") comparison_result);
       ("student_details", VDict (or_empty student_details));
       ("verification_details", VDict [("tolerance_used", tolerance_used);
                                       ("camera_image", VStr camera_image_path);
                                       ("id_card_image", VStr id_card_image_path);
                                       ("timestamp", VStr now);
                                       ("similarity_breakdown", breakdown)])] in
    let? c := num_of confidence in
    Some (dict_set "recommendation" (VStr (recommendation_basic c)) verification_result)
  in
  match body with Some r => r | None => verify_exception student_details end.

(** A FaceVerificationService instance: [__init__(tolerance=0.6, model='hog')]. *)
Record Service := mkService { tolerance : R; model : string }.

Definition FACE_RECOGNITION_TOLERANCE : R := 0.6.
Definition FACE_DETECTION_MODEL : string := "hog".

(** [FaceVerificationService()] with its default arguments. *)
Definition default_service : Service := mkService 0.6 "hog".

(** The service the routes build from Config. *)
Definition face_verification_service : Service :=
  mkService FACE_RECOGNITION_TOLERANCE FACE_DETECTION_MODEL.

(** FaceVerificationService.verify_identity: the variant is
    FACE_RECOGNITION_AVAILABLE, fixed at import time. *)
Definition verify_identity (v : Variant) (svc : Service) (fs : FS) (camera_image_path id_card_image_path : string)
    (student_details : option Dict) (now : string) : Dict :=
  match v with
  | Embedding => verify_identity_advanced (tolerance svc) fs camera_image_path id_card_image_path student_details now
  | Heuristic => verify_identity_basic fs camera_image_path id_card_image_path student_details now
  end.

(* ------------------------------------------------------------------ *)
(** * The /verify route *)

Definition Response := (Z * Dict)%type.

Definition route_error (status : Z) (msg : Value) (code : string) : Response :=
  (status, [("status", VStr "error"); ("message", msg); ("error_code", VStr code)]).

(** [not x] on an optional JSON string *)
Definition missing (s : option string) : bool :=
  match s with None => true | Some p => String.eqb p "" end.

Definition sd_field (sd : Dict) (k : string) : Value := dict_get_default k (VStr "") sd.

(** The quality issues the route collects, in order. *)
Definition quality_issues (camera_quality id_card_quality : Dict) : option (list Value) :=
  let? cv := dict_get "valid" camera_quality in
  let? l1 :=
    (if negb (truthy cv) then
       let? m := dict_get "message" camera_quality in Some [VText "Camera image: {message}" [m]]
     else Some []) in
  let? iv := dict_get "valid" id_card_quality in
  let? l2 :=
    (if negb (truthy iv) then
       let? m := dict_get "message" id_card_quality in Some [VText "ID card image: {message}" [m]]
     else Some []) in
  Some (app l1 l2).

Definition poor_quality_response (issues : list Value) : Response :=
  (400%Z, [("status", VStr "error"); ("message", VStr "Image quality issues detected");
           ("error_code", VStr "POOR_IMAGE_QUALITY"); ("quality_issues", VList issues);
           ("suggestions", VList [VStr "Ensure images are well-lit and clear";
                                  VStr "Avoid blurry or low-resolution images";
                                  VStr "Retake photos if necessary"])]).

(** Whether Flask's [jsonify] serializes a value: its JSON provider raises
    TypeError on a numpy.bool_ (a numpy.float64 is a float and passes; an
    f-string is already a str). *)
Fixpoint json_ok (v : Value) : bool :=
  match v with
  | VNpBool _ => false
  | VList l => forallb json_ok l
  | VDict d => forallb (fun kv => json_ok (snd kv)) d
  | _ => true
  end.

(** [jsonify(body), status]: [None] is the TypeError it raises. *)
Definition jsonify (r : Response) : option Response :=
  if forallb (fun kv => json_ok (snd kv)) (snd r) then Some r else None.

(** The success branch of the route: builds [response_data] from the
    verification record and serializes it; [None] is a KeyError raised while
    building it, or the TypeError of [jsonify]. *)
Definition verify_success_response (verification_result : Dict) (student_details : Dict)
    (camera_image_path id_card_image_path : string) (camera_quality id_card_quality : Dict) : option Response :=
  let? res := dict_get "result" verification_result in
  let? confidence := dict_get "confidence" verification_result in
  let? is_match := dict_get "is_match" verification_result in
  let? face_distance := dict_get "face_distance" verification_result in
  let? vd := get_dict "verification_details" verification_result in
  let? tolerance_used := dict_get "tolerance_used" vd in
  let? timestamp := dict_get "timestamp" vd in
  let? cvalid := dict_get "valid" camera_quality in
  let? cq := (if truthy cvalid then dict_get "details" camera_quality else Some VNone) in
  let? ivalid := dict_get "valid" id_card_quality in
  let? iq := (if truthy ivalid then dict_get "details" id_card_quality else Some VNone) in
  let? msg := dict_get "message" verification_result in
  let response_data :=
    [("result", res);
     ("confidence", VText "{confidence}%" [confidence]);
     ("student_details", VDict [("name", sd_field student_details "name");
                                ("register_number", sd_field student_details "register_number");
                                ("department", sd_field student_details "department");
                                ("college", sd_field student_details "college");
                                ("year", sd_field student_details "year");
                                ("course", sd_field student_details "course")]);
     ("verification_details", VDict [("is_match", is_match); ("face_distance", face_distance);
                                     ("tolerance_used", tolerance_used);
                                     ("recommendation", dict_get_default "recommendation" (VStr "") verification_result);
                                     ("timestamp", timestamp)]);
     ("image_info", VDict [("camera_image", VStr camera_image_path); ("id_card_image", VStr id_card_image_path);
                           ("camera_quality", cq); ("id_card_quality", iq)])] in
  jsonify (200%Z, [("status", VStr "success"); ("message", msg); ("data", VDict response_data)]).

Definition verify_exception_response : Response :=
  route_error 500 (VText "Identity verification failed: {e}" []) "VERIFICATION_EXCEPTION".

(** The /verify route from the request's [camera_image_path],
    [id_card_image_path] and [student_details] on, for any service call
    [verify] (the route calls [face_verification_service.verify_identity]). *)
Definition route_verify_with (verify : string -> string -> option Dict -> Dict) (fs : FS)
    (camera_image_path id_card_image_path : option string) (student_details : Dict) : Response :=
  match camera_image_path, id_card_image_path with
  | None, _ | Some "", _ => route_error 400 (VStr "camera_image_path is required") "MISSING_CAMERA_IMAGE"
  | _, None | _, Some "" => route_error 400 (VStr "id_card_image_path is required") "MISSING_ID_CARD_IMAGE"
  | Some cam, Some idc =>
      if negb (path_exists fs cam) then
        route_error 400 (VText "Camera image not found: {camera_image_path}" [VStr cam]) "CAMERA_IMAGE_NOT_FOUND"
      else if negb (path_exists fs idc) then
        route_error 400 (VText "ID card image not found: {id_card_image_path}" [VStr idc]) "ID_CARD_IMAGE_NOT_FOUND"
      else
        let camera_quality := validate_image_quality fs cam in
        let id_card_quality := validate_image_quality fs idc in
        match quality_issues camera_quality id_card_quality with
        | None => verify_exception_response
        | Some ((_ :: _) as issues) => poor_quality_response issues
        | Some [] =>
            let verification_result := verify cam idc (Some student_details) in
            match dict_get "success" verification_result with
            | None => verify_exception_response
            | Some s =>
                if truthy s then
                  match verify_success_response verification_result student_details cam idc
                          camera_quality id_card_quality with
                  | Some r => r
                  | None => verify_exception_response
                  end
                else
                  (400%Z, [("status", VStr "error");
                           ("message", dict_get_default "message" VNone verification_result);
                           ("error_code", dict_get_default "error_code" VNone verification_result);
                           ("data", VDict [("result", VStr "Verification Failed"); ("confidence", VStr "0%");
                                           ("student_details", VDict student_details)])])
            end
        end
  end.

Definition route_verify (v : Variant) (fs : FS) (now : string)
    (camera_image_path id_card_image_path : option string) (student_details : Dict) : Response :=
  route_verify_with (fun cam idc sd => verify_identity v face_verification_service fs cam idc sd now)
    fs camera_image_path id_card_image_path student_details.

(* ------------------------------------------------------------------ *)
(** * The /compare-faces route *)

Definition compare_exception_response : Response :=
  route_error 500 (VText "Face comparison failed: {e}" []) "COMPARISON_EXCEPTION".

(** The success branch of compare_faces_only; [None] is a KeyError, or the
    TypeError of [jsonify]. *)
Definition compare_success_response (comparison_result : Dict) : option Response :=
  let? msg := dict_get "message" comparison_result in
  let? res := dict_get "result" comparison_result in
  let? is_match := dict_get "is_match" comparison_result in
  let? confidence := dict_get "confidence" comparison_result in
  let? face_distance := dict_get "face_distance" comparison_result in
  let? tolerance_used := dict_get "tolerance_used" comparison_result in
  let? details := dict_get "details" comparison_result in
  jsonify (200%Z, [("status", VStr "success"); ("message", msg);
                ("data", VDict [("result", res); ("is_match", is_match); ("confidence", confidence);
                                ("face_distance", face_distance); ("tolerance_used", tolerance_used);
                                ("details", details)])]).

(** compare_faces_only from [image1_path] and [image2_path] on, for any
    comparison function [compare]. *)
Definition route_compare_faces_with (compare : string -> string -> Dict) (fs : FS)
    (image1_path image2_path : option string) : Response :=
  let missing_paths :=
    route_error 400 (VStr "Both image1_path and image2_path are required") "MISSING_IMAGE_PATHS" in
  match image1_path, image2_path with
  | Some p1, Some p2 =>
      if String.eqb p1 "" || String.eqb p2 "" then missing_paths
      else if negb (path_exists fs p1) then
        route_error 400 (VText "First image not found: {image1_path}" [VStr p1]) "IMAGE1_NOT_FOUND"
      else if negb (path_exists fs p2) then
        route_error 400 (VText "Second image not found: {image2_path}" [VStr p2]) "IMAGE2_NOT_FOUND"
      else
        let comparison_result := compare p1 p2 in
        match dict_get "success" comparison_result with
        | None => compare_exception_response
        | Some s =>
            if truthy s then
              match compare_success_response comparison_result with
              | Some r => r
              | None => compare_exception_response
              end
            else
              match dict_get "message" comparison_result with
              | Some m =>
                  (400%Z, [("status", VStr "error"); ("message", m);
                           ("error_code", dict_get_default "error_code" VNone comparison_result)])
              | None => compare_exception_response
              end
        end
  | _, _ => missing_paths
  end.

(** The route with the module's [face_verification_service]. *)
Definition route_compare_faces (v : Variant) (fs : FS) (image1_path image2_path : option string) : Response :=
  route_compare_faces_with (compare_faces v (tolerance face_verification_service) fs) fs image1_path image2_path.

(* ------------------------------------------------------------------ *)
(** * Strings: the str methods of the upload and PDF code *)

(** Strings are sequences of Latin-1 characters. *)

(** [str.isspace] on one character (also what [\s] matches in a str pattern). *)
Definition is_space (c : ascii) : bool :=
  let n := nat_of_ascii c in
  (Nat.leb 9 n && Nat.leb n 13) || (Nat.leb 28 n && Nat.leb n 32) || Nat.eqb n 133 || Nat.eqb n 160.

(** [s.lstrip(chars)] for the characters satisfying [p] *)
Fixpoint lstrip_with (p : ascii -> bool) (s : string) : string :=
  match s with
  | EmptyString => EmptyString
  | String c r => if p c then lstrip_with p r else s
  end.

(** [s.rstrip(chars)] for the characters satisfying [p] *)
Fixpoint rstrip_with (p : ascii -> bool) (s : string) : string :=
  match s with
  | EmptyString => EmptyString
  | String c r =>
      match rstrip_with p r with
      | EmptyString => if p c then EmptyString else String c EmptyString
      | r' => String c r'
      end
  end.

(** [s.strip()] *)
Definition strip (s : string) : string := rstrip_with is_space (lstrip_with is_space s).

(** [re.sub(r'\s+', ' ', s)]: every run of whitespace becomes one space. *)
Fixpoint collapse_ws_from (in_run : bool) (s : string) : string :=
  match s with
  | EmptyString => EmptyString
  | String c r =>
      if is_space c then
        if in_run then collapse_ws_from true r else String " " (collapse_ws_from true r)
      else String c (collapse_ws_from false r)
  end.

Definition collapse_ws (s : string) : string := collapse_ws_from false s.

(** [str.lower] on one character: A-Z and the Latin-1 capitals. *)
Definition lower_char (c : ascii) : ascii :=
  let n := nat_of_ascii c in
  if (Nat.leb 65 n && Nat.leb n 90) || (Nat.leb 192 n && Nat.leb n 222 && negb (Nat.eqb n 215))
  then ascii_of_nat (n + 32) else c.

(** [s.lower()] *)
Fixpoint lower (s : string) : string :=
  match s with
  | EmptyString => EmptyString
  | String c r => String (lower_char c) (lower r)
  end.

(** The parts of [s] before and after its last [c], if [c] occurs in [s]. *)
Fixpoint split_last (c : ascii) (s : string) : option (string * string) :=
  match s with
  | EmptyString => None
  | String x r =>
      match split_last c r with
      | Some (pre, post) => Some (String x pre, post)
      | None => if Ascii.eqb x c then Some (EmptyString, r) else None
      end
  end.

Fixpoint string_existsb (p : ascii -> bool) (s : string) : bool :=
  match s with
  | EmptyString => false
  | String c r => p c || string_existsb p r
  end.

Fixpoint string_last (s : string) : option ascii :=
  match s with
  | EmptyString => None
  | String c EmptyString => Some c
  | String _ r => string_last r
  end.

(** [os.path.splitext(p)[1]] (posixpath): the extension of the last path
    component, from its last dot, unless only dots precede that dot. *)
Definition splitext_ext (p : string) : string :=
  let tail := match split_last "/" p with Some (_, b) => b | None => p end in
  match split_last "." tail with
  | Some (pre, post) =>
      if string_existsb (fun c => negb (Ascii.eqb c ".")) pre then String "." post else EmptyString
  | None => EmptyString
  end.

(** [os.path.join(a, b)] (posixpath) *)
Definition py_join (a b : string) : string :=
  match b with
  | String "/" _ => b
  | _ =>
      match string_last a with
      | None => b
      | Some "/"%char => a ++ b
      | Some _ => a ++ "/" ++ b
      end
  end.

(** [str(n)] *)
Definition py_str_nat (n : nat) : string := NilEmpty.string_of_uint (Nat.to_uint n).

(** The newline character ["\n"]. *)
Definition newline : string := String (ascii_of_nat 10) EmptyString.

(* ------------------------------------------------------------------ *)
(** * Config.allowed_file *)

Definition UPLOAD_FOLDER : string := "uploads".
Definition ALLOWED_EXTENSIONS : list string := ["pdf"].

(** Config.allowed_file: ['.' in filename and
    filename.rsplit('.', 1)[1].lower() in ALLOWED_EXTENSIONS] *)
Definition allowed_file (filename : string) : bool :=
  match split_last "." filename with
  | Some (_, ext) => existsb (String.eqb (lower ext)) ALLOWED_EXTENSIONS
  | None => false
  end.

(* ------------------------------------------------------------------ *)
(** * PDF documents as pdfplumber reads them *)

(** What [page.extract_text()] does: returns None, returns a string, or raises. *)
Inductive PageText := TextNone | TextStr (s : string) | TextRaises.

(** An entry of [page.images], by the keys the code reads ([None]: key absent). *)
Record ImageObj := mkImageObj {
  obj_x0 : option R; obj_top : option R; obj_x1 : option R; obj_bottom : option R;
  obj_width : option R; obj_height : option R
}.

(** A page: its text, its images, and whether [page.within_bbox(bbox)]
    returns a cropped page ([true]) or raises ([false]). *)
Record Page := mkPage {
  page_text : PageText;
  page_images : list ImageObj;
  within_bbox : R * R * R * R -> bool
}.

(** A file: the pages pdfplumber opens, or [None] when [pdfplumber.open] raises. *)
Definition PdfFile := option (list Page).

(** The paths of the file system: [None] where [os.path.exists] is false. *)
Definition PdfStore := string -> option PdfFile.

Definition pdf_exists (st : PdfStore) (p : string) : bool :=
  match st p with Some _ => true | None => false end.

(** [open(p, 'wb')] then writing [v], or [os.remove(p)] for [v = None]. *)
Definition store_set (st : PdfStore) (p : string) (v : option PdfFile) : PdfStore :=
  fun q => if String.eqb q p then v else st q.

(** [int(x)] on a float: truncation towards zero. *)
Definition py_int (x : R) : Z := if Rle_dec 0 x then Rfloor x else (- Rfloor (- x))%Z.

(* ------------------------------------------------------------------ *)
(** * PDFService *)

(** PDFService.validate_pdf: the page count, or the error code and message. *)
Definition validate_pdf (st : PdfStore) (file_path : string) : result nat :=
  match st file_path with
  | None => Err "FILE_NOT_FOUND" (VStr "File does not exist")
  | Some doc =>
      if negb (existsb (String.eqb (lower (splitext_ext file_path))) [".pdf"]) then
        Err "INVALID_FORMAT" (VStr "Invalid file format. Only PDF files are allowed")
      else
        match doc with
        | None => Err "CORRUPTED_PDF" (VText "Corrupted or invalid PDF file: {str(e)}" [])
        | Some pages =>
            let page_count := length pages in
            if Nat.eqb page_count 0 then Err "EMPTY_PDF" (VStr "PDF file is empty")
            else Ok page_count
        end
  end.

(** An entry of [extracted_images]. *)
Record ImageEntry := mkImageEntry {
  entry_filename : string; entry_path : string; entry_page : nat; entry_width : Z; entry_height : Z
}.

Definition entry_value (e : ImageEntry) : Value :=
  VDict [("filename", VStr (entry_filename e)); ("path", VStr (entry_path e));
         ("page", VNum (INR (entry_page e)));
         ("width", VNum (IZR (entry_width e))); ("height", VNum (IZR (entry_height e)));
         ("size_bytes", VNum 1024);
         ("note", VStr "Image detected but extraction limited without PyMuPDF")].

(** [f"extracted_image_p{page_num+1}_{img_index+1}.png"] *)
Definition image_filename (page_num img_index : nat) : string :=
  "extracted_image_p" ++ py_str_nat (page_num + 1) ++ "_" ++ py_str_nat (img_index + 1) ++ ".png".

(** The body of the [try] for one [img_obj]: its entry, or [None] when the
    bbox keys are missing (KeyError) or [within_bbox] raises. *)
Definition image_entry (output_dir : string) (page : Page) (page_num img_index : nat) (img_obj : ImageObj)
    : option ImageEntry :=
  match obj_x0 img_obj, obj_top img_obj, obj_x1 img_obj, obj_bottom img_obj with
  | Some x0, Some top, Some x1, Some bottom =>
      if within_bbox page (x0, top, x1, bottom) then
        let img_filename := image_filename page_num img_index in
        let img_path := py_join output_dir img_filename in
        Some (mkImageEntry img_filename img_path (page_num + 1)
                (py_int (match obj_width img_obj with Some w => w | None => 100 end))
                (py_int (match obj_height img_obj with Some h => h | None => 100 end)))
      else None
  | _, _, _, _ => None
  end.

(** [for img_index, img_obj in enumerate(page.images)] *)
Fixpoint page_entries (output_dir : string) (page : Page) (page_num img_index : nat) (objs : list ImageObj)
    : list ImageEntry :=
  match objs with
  | [] => []
  | img_obj :: rest =>
      match image_entry output_dir page page_num img_index img_obj with
      | Some e => e :: page_entries output_dir page page_num (S img_index) rest
      | None => page_entries output_dir page page_num (S img_index) rest
      end
  end.

(** [for page_num, page in enumerate(pdf.pages)] *)
Fixpoint pages_entries (output_dir : string) (page_num : nat) (pages : list Page) : list ImageEntry :=
  match pages with
  | [] => []
  | page :: rest =>
      app (page_entries output_dir page page_num 0 (page_images page)) (pages_entries output_dir (S page_num) rest)
  end.

(** The outcomes of extract_images_from_pdf. *)
Inductive ImagesResult :=
| ImagesFailed (msg : Value) (code : string)
| NoImagesFound
| ImagesFound (images : list ImageEntry).

(** The dict extract_images_from_pdf returns for each outcome. *)
Definition images_result_dict (r : ImagesResult) : Dict :=
  match r with
  | ImagesFailed msg code => [("success", VBool false); ("message", msg); ("error_code", VStr code)]
  | NoImagesFound =>
      [("success", VBool false);
       ("message", VStr "No images found in PDF. For better image extraction, install Visual Studio Build Tools and PyMuPDF");
       ("error_code", VStr "NO_IMAGES_FOUND");
       ("suggestion", VStr "You can manually extract the student photo and place it in the uploads folder")]
  | ImagesFound images =>
      [("success", VBool true);
       ("message", VText "Detected {len(extracted_images)} images in PDF" [VNum (INR (length images))]);
       ("images", VList (map entry_value images));
       ("total_images", VNum (INR (length images)));
       ("note", VStr "For full image extraction, install PyMuPDF with Visual Studio Build Tools")]
  end.

(** PDFService.extract_images_from_pdf; the second [pdfplumber.open] reads
    the same file as validate_pdf did. *)
Definition extract_images_from_pdf (st : PdfStore) (file_path output_dir : string) : ImagesResult :=
  match validate_pdf st file_path with
  | Err c m => ImagesFailed m c
  | Ok _ =>
      match st file_path with
      | Some (Some pages) =>
          match pages_entries output_dir 0 pages with
          | [] => NoImagesFound
          | extracted_images => ImagesFound extracted_images
          end
      | _ => ImagesFailed (VText "Image extraction failed: {str(e)}" []) "EXTRACTION_ERROR"
      end
  end.

(** The text loop: [extracted_text += page_text + "\n"] for each truthy
    [page_text]; [None] when a page raises. *)
Fixpoint pages_text (extracted_text : string) (pages : list Page) : option string :=
  match pages with
  | [] => Some extracted_text
  | page :: rest =>
      match page_text page with
      | TextRaises => None
      | TextNone => pages_text extracted_text rest
      | TextStr s =>
          if String.eqb s "" then pages_text extracted_text rest
          else pages_text (extracted_text ++ s ++ newline) rest
      end
  end.

Definition student_detail_keys : list string :=
  ["name"; "register_number"; "roll_number"; "department"; "college"; "year"; "course"].

(** The [patterns] table of parse_student_details. *)
Definition patterns : list (string * list string) :=
  [("name", ["Name\s*:?\s*([A-Za-z\s\.]+?)(?:\n|Register|Roll|Department|$)";
             "Student\s*Name\s*:?\s*([A-Za-z\s\.]+?)(?:\n|Register|Roll|Department|$)";
             "Name\s*-\s*([A-Za-z\s\.]+?)(?:\n|Register|Roll|Department|$)"]);
   ("register_number", ["Register\s*(?:No|Number|#)\s*:?\s*([A-Za-z0-9]+)";
                        "Registration\s*(?:No|Number|#)\s*:?\s*([A-Za-z0-9]+)";
                        "Reg\s*(?:No|#)\s*:?\s*([A-Za-z0-9]+)"]);
   ("roll_number", ["Roll\s*(?:No|Number|#)\s*:?\s*([A-Za-z0-9]+)";
                    "Roll\s*:?\s*([A-Za-z0-9]+)"]);
   ("department", ["Department\s*:?\s*([A-Za-z\s&]+?)(?:\n|Year|Course|College|$)";
                   "Dept\s*:?\s*([A-Za-z\s&]+?)(?:\n|Year|Course|College|$)";
                   "Branch\s*:?\s*([A-Za-z\s&]+?)(?:\n|Year|Course|College|$)"]);
   ("college", ["College\s*:?\s*([A-Za-z\s,\.]+?)(?:\n|University|$)";
                "Institution\s*:?\s*([A-Za-z\s,\.]+?)(?:\n|University|$)"]);
   ("year", ["Year\s*:?\s*([0-9]+)";
             "([1-4])\s*(?:st|nd|rd|th)\s*Year";
             "Semester\s*:?\s*([0-9]+)"]);
   ("course", ["Course\s*:?\s*([A-Za-z\s\.]+?)(?:\n|Year|Department|$)";
               "Program\s*:?\s*([A-Za-z\s\.]+?)(?:\n|Year|Department|$)";
               "Degree\s*:?\s*([A-Za-z\s\.]+?)(?:\n|Year|Department|$)"])].

(** [value.rstrip('.,;:')] *)
Definition is_trailing_punct (c : ascii) : bool :=
  Ascii.eqb c "." || Ascii.eqb c "," || Ascii.eqb c ";" || Ascii.eqb c ":".

(** The clean-up of a non-empty value. *)
Definition clean_value (value : string) : string :=
  rstrip_with is_trailing_punct (collapse_ws (strip value)).

Section PdfText.

(** [re.search(pattern, text, re.IGNORECASE)]: the first match's group 1,
    or [None] when the pattern does not match. *)
Variable re_search : string -> string -> option string.

(** The inner loop: the first pattern whose stripped group has more than
    one character. *)
Fixpoint first_value (text : string) (field_patterns : list string) : option string :=
  match field_patterns with
  | [] => None
  | pattern :: rest =>
      match re_search pattern text with
      | Some g =>
          let value := strip g in
          if Nat.ltb 1 (String.length value) then Some value else first_value text rest
      | None => first_value text rest
      end
  end.

(** PDFService.parse_student_details *)
Definition parse_student_details (text0 : string) : Dict :=
  let student_details := map (fun k => (k, VStr "")) student_detail_keys in
  let text := collapse_ws (strip text0) in
  let student_details :=
    fold_left (fun sd '(field, field_patterns) =>
                 match first_value text field_patterns with
                 | Some value => dict_set field (VStr value) sd
                 | None => sd
                 end) patterns student_details in
  map (fun '(key, value) =>
         match value with
         | VStr s => if String.eqb s "" then (key, value) else (key, VStr (clean_value s))
         | _ => (key, value)
         end) student_details.

(** The outcomes of extract_text_from_pdf. *)
Inductive TextResult :=
| TextFailed (msg : Value) (code : string)
| TextExtracted (text : string) (student_details : Dict).

Definition text_result_dict (r : TextResult) : Dict :=
  match r with
  | TextFailed msg code => [("success", VBool false); ("message", msg); ("error_code", VStr code)]
  | TextExtracted text sd =>
      [("success", VBool true); ("message", VStr "Text extracted successfully"); ("text", VStr text);
       ("student_details", VDict sd); ("text_length", VNum (INR (String.length text)))]
  end.

(** PDFService.extract_text_from_pdf *)
Definition extract_text_from_pdf (st : PdfStore) (file_path : string) : TextResult :=
  match validate_pdf st file_path with
  | Err c m => TextFailed m c
  | Ok _ =>
      match st file_path with
      | Some (Some pages) =>
          match pages_text "" pages with
          | None => TextFailed (VText "Text extraction failed: {str(e)}" []) "TEXT_EXTRACTION_ERROR"
          | Some extracted_text =>
              let text := strip extracted_text in
              if String.eqb text "" then TextFailed (VStr "No text content found in the PDF") "NO_TEXT_FOUND"
              else TextExtracted text (parse_student_details text)
          end
      | _ => TextFailed (VText "Text extraction failed: {str(e)}" []) "TEXT_EXTRACTION_ERROR"
      end
  end.

(** [max(images, key=lambda x: x["width"] * x["height"])]: the first image
    of largest area. *)
Definition image_area (e : ImageEntry) : Z := (entry_width e * entry_height e)%Z.

Definition largest_image (images : list ImageEntry) : option ImageEntry :=
  match images with
  | [] => None
  | first :: rest =>
      Some (fold_left (fun best x => if Z.ltb (image_area best) (image_area x) then x else best) rest first)
  end.

(** PDFService.process_id_card *)
Definition process_id_card (st : PdfStore) (file_path output_dir : string) : Dict :=
  let text_result := extract_text_from_pdf st file_path in
  let image_result := extract_images_from_pdf st file_path output_dir in
  let image_dict := images_result_dict image_result in
  let text_dict := text_result_dict text_result in
  let student_photo :=
    match image_result with
    | ImagesFound images => match largest_image images with Some e => entry_value e | None => VNone end
    | _ => VNone
    end in
  let text_success := match text_result with TextExtracted _ _ => true | TextFailed _ _ => false end in
  let processing_result :=
    [("success", VBool true);
     ("message", VStr "ID card processed successfully");
     ("images", VDict [("success", dict_get_default "success" (VBool false) image_dict);
                       ("total_images", dict_get_default "total_images" (VNum 0) image_dict);
                       ("images", dict_get_default "images" (VList []) image_dict);
                       ("student_photo", student_photo);
                       ("note", dict_get_default "note" (VStr "") image_dict)]);
     ("text", VDict [("success", VBool text_success);
                     ("extracted_text", dict_get_default "text" (VStr "") text_dict);
                     ("student_details", dict_get_default "student_details" (VDict []) text_dict)])] in
  if text_success then processing_result
  else
    dict_set "error_code" (VStr "TEXT_EXTRACTION_FAILED")
      (dict_set "message" (VStr "Failed to extract text from ID card")
         (dict_set "success" (VBool false) processing_result)).

(* ------------------------------------------------------------------ *)
(** * The upload and extraction routes *)

(** The uploaded file of the request: its [filename] and the PDF it holds. *)
Record Upload := mkUpload { upload_filename : string; upload_content : PdfFile }.

Definition upload_exception_response : Response :=
  route_error 500 (VText "ID card upload failed: {str(e)}" []) "UPLOAD_EXCEPTION".

(** The file system the upload route works on: its regular files, as the
    PDF services read them, and its directories. *)
Record Disk := mkDisk { disk_files : PdfStore; disk_dirs : string -> bool }.

(** [os.makedirs(p, exist_ok=True)] for a one-component [p]: nothing to do
    when [p] is a directory; FileExistsError ([None]) when it is a regular
    file; otherwise the directory [p] is created. *)
Definition makedirs_exist_ok (d : Disk) (p : string) : option Disk :=
  if disk_dirs d p then Some d
  else if pdf_exists (disk_files d) p then None
  else Some (mkDisk (disk_files d) (fun q => String.eqb q p || disk_dirs d q)).

(** [file.save(p)]: [open(p, 'wb')] and the write, which raises
    IsADirectoryError ([None]) when [p] is a directory. *)
Definition save_upload (d : Disk) (p : string) (v : PdfFile) : option Disk :=
  if disk_dirs d p then None
  else Some (mkDisk (store_set (disk_files d) p (Some v)) (disk_dirs d)).

(** The /upload-id-card route: [request.files.get('file')] is [file];
    [secure_filename] is werkzeug's and [timestamp] the formatted
    [datetime.now()]. Returns the response and the file system after it;
    an exception raised by [os.makedirs] or [file.save] is answered by the
    [except] clause, with the file system as the exception left it. *)
Definition route_upload_id_card (secure_filename : string -> string) (timestamp : string)
    (d : Disk) (file : option Upload) : Response * Disk :=
  match file with
  | None => (route_error 400 (VStr "No file provided in request") "NO_FILE", d)
  | Some f =>
      if String.eqb (upload_filename f) "" then
        (route_error 400 (VStr "No file selected") "NO_FILE_SELECTED", d)
      else if negb (allowed_file (upload_filename f)) then
        ((400%Z, [("status", VStr "error");
                  ("message", VStr "Invalid file format. Only PDF files are allowed");
                  ("error_code", VStr "INVALID_FORMAT");
                  ("allowed_formats", VList (map VStr ALLOWED_EXTENSIONS))]), d)
      else
        match makedirs_exist_ok d UPLOAD_FOLDER with
        | None => (upload_exception_response, d)
        | Some d =>
        let filename := secure_filename (upload_filename f) in
        let filename := timestamp ++ "_" ++ filename in
        let file_path := py_join UPLOAD_FOLDER filename in
        match save_upload d file_path (upload_content f) with
        | None => (upload_exception_response, d)
        | Some d =>
        let processing_result := process_id_card (disk_files d) file_path UPLOAD_FOLDER in
        match dict_get "success" processing_result with
        | None => (upload_exception_response, d)
        | Some s =>
            if truthy s then
              ((200%Z, [("status", VStr "success");
                        ("message", VStr "ID card processed successfully");
                        ("data", VDict [("file_info", VDict [("original_filename", VStr (upload_filename f));
                                                             ("saved_filename", VStr filename);
                                                             ("file_path", VStr file_path);
                                                             ("upload_timestamp", VStr timestamp)]);
                                        ("processing_results", VDict processing_result);
                                        ("next_steps", VList [VStr "ID card data extracted successfully";
                                                              VStr "Use /capture-face to capture live photo";
                                                              VStr "Use /verify to compare faces"])])]), d)
            else
              let d := if pdf_exists (disk_files d) file_path
                       then mkDisk (store_set (disk_files d) file_path None) (disk_dirs d) else d in
              match dict_get "message" processing_result with
              | None => (upload_exception_response, d)
              | Some msg =>
                  ((400%Z, [("status", VStr "error"); ("message", msg);
                            ("error_code", dict_get_default "error_code" VNone processing_result);
                            ("suggestions", VList [VStr "Ensure the PDF contains a clear student photo";
                                                   VStr "Check if the PDF has readable text content";
                                                   VStr "Try uploading a different ID card PDF"])]), d)
              end
        end
        end
        end
  end.

(** The JSON body of /extract-text and /extract-images: [None] when
    [request.get_json()] is falsy, otherwise its [file_path] when it is a
    string ([None] when absent or null). *)
Definition PathRequest := option (option string).

Definition text_exception_response : Response :=
  route_error 500 (VText "Text extraction failed: {str(e)}" []) "TEXT_EXTRACTION_EXCEPTION".

(** The /extract-text route *)
Definition route_extract_text (st : PdfStore) (data : PathRequest) : Response :=
  match data with
  | None => route_error 400 (VStr "No JSON data provided") "NO_DATA"
  | Some None | Some (Some "") => route_error 400 (VStr "file_path is required") "MISSING_FILE_PATH"
  | Some (Some file_path) =>
      if negb (pdf_exists st file_path) then
        route_error 400 (VText "PDF file not found: {file_path}" [VStr file_path]) "FILE_NOT_FOUND"
      else
        let text_result := text_result_dict (extract_text_from_pdf st file_path) in
        let response :=
          let? s := dict_get "success" text_result in
          let? msg := dict_get "message" text_result in
          if truthy s then
            let? text := dict_get "text" text_result in
            let? sd := dict_get "student_details" text_result in
            let? text_length := dict_get "text_length" text_result in
            Some (200%Z, [("status", VStr "success"); ("message", msg);
                          ("data", VDict [("extracted_text", text); ("student_details", sd);
                                          ("text_length", text_length)])])
          else
            Some (400%Z, [("status", VStr "error"); ("message", msg);
                          ("error_code", dict_get_default "error_code" VNone text_result)]) in
        match response with Some r => r | None => text_exception_response end
  end.

End PdfText.

Definition images_exception_response : Response :=
  route_error 500 (VText "Image extraction failed: {str(e)}" []) "IMAGE_EXTRACTION_EXCEPTION".

(** The /extract-images route *)
Definition route_extract_images (st : PdfStore) (data : PathRequest) : Response :=
  match data with
  | None => route_error 400 (VStr "No JSON data provided") "NO_DATA"
  | Some None | Some (Some "") => route_error 400 (VStr "file_path is required") "MISSING_FILE_PATH"
  | Some (Some file_path) =>
      if negb (pdf_exists st file_path) then
        route_error 400 (VText "PDF file not found: {file_path}" [VStr file_path]) "FILE_NOT_FOUND"
      else
        let image_result := images_result_dict (extract_images_from_pdf st file_path UPLOAD_FOLDER) in
        let response :=
          let? s := dict_get "success" image_result in
          let? msg := dict_get "message" image_result in
          if truthy s then
            let? total_images := dict_get "total_images" image_result in
            let? images := dict_get "images" image_result in
            Some (200%Z, [("status", VStr "success"); ("message", msg);
                          ("data", VDict [("total_images", total_images); ("images", images)])])
          else
            Some (400%Z, [("status", VStr "error"); ("message", msg);
                          ("error_code", dict_get_default "error_code" VNone image_result)]) in
        match response with Some r => r | None => images_exception_response end
  end.

(* ================================================================== *)
(** * Lemmas *)

(** ** Rounding *)

Lemma rint_bound (y : R) : IZR (rint y) - 1/2 <= y <= IZR (rint y) + 1/2.
Proof.
  unfold rint, Rfloor; cbv zeta.
  destruct (archimed y) as [H1 H2].
  assert (Hf : IZR (up y - 1) = IZR (up y) - 1) by (rewrite minus_IZR; reflexivity).
  destruct (Rlt_dec (y - IZR (up y - 1)) (1/2)); [lra|].
  destruct (Rlt_dec (1/2) (y - IZR (up y - 1))); [rewrite plus_IZR; lra|].
  destruct (Z.even (up y - 1)); [lra|rewrite plus_IZR; lra].
Qed.

Lemma rint_IZR (z : Z) : rint (IZR z) = z.
Proof.
  unfold rint, Rfloor; cbv zeta.
  assert (Hu : up (IZR z) = (z + 1)%Z).
  { symmetry; apply up_tech; [lra|rewrite plus_IZR; lra]. }
  rewrite Hu. replace (z + 1 - 1)%Z with z by lia.
  destruct (Rlt_dec (IZR z - IZR z) (1/2)); [reflexivity|lra].
Qed.

Lemma py_round_IZR (z : Z) (n : nat) : py_round (IZR z) n = IZR z.
Proof.
  unfold py_round.
  rewrite pow_IZR, <- mult_IZR, rint_IZR, mult_IZR, <- pow_IZR.
  field. apply pow_nonzero. lra.
Qed.

(** A value rounded to 2 decimals is a whole number of hundredths. *)
Lemma py_round2_hundredths (x : R) : py_round x 2 * 100 = IZR (rint (x * 100)).
Proof.
  unfold py_round. replace (10 ^ 2) with 100 by (simpl; lra). field.
Qed.

Lemma py_round2_range (x : R) : 0 <= x <= 100 -> 0 <= py_round x 2 <= 100.
Proof.
  intros Hx. unfold py_round.
  replace (10 ^ 2) with 100 by (simpl; lra).
  pose proof (rint_bound (x * 100)) as Hb.
  set (k := rint (x * 100)) in *.
  assert (Hk0 : (0 <= k)%Z).
  { assert (IZR (-1) < IZR k) by (simpl; lra). apply lt_IZR in H. lia. }
  assert (Hk1 : (k <= 10000)%Z).
  { assert (IZR k < IZR 10001) by lra. apply lt_IZR in H. lia. }
  apply IZR_le in Hk0. apply IZR_le in Hk1. lra.
Qed.

(** ** Sums and distances *)

Lemma sum_upto_ext (n : nat) (f g : nat -> R) :
  (forall k, (k < n)%nat -> f k = g k) -> sum_upto n f = sum_upto n g.
Proof.
  induction n as [|n IH]; intros H; simpl; [reflexivity|].
  rewrite IH by (intros; apply H; lia). rewrite H by lia. reflexivity.
Qed.

Lemma sum_upto_first (n : nat) (f : nat -> R) :
  (forall k, k <> O -> f k = 0) -> sum_upto (S n) f = f O.
Proof.
  intros H. induction n as [|n IH]; [simpl; lra|].
  change (sum_upto (S (S n)) f) with (sum_upto (S n) f + f (S n)).
  rewrite IH, (H (S n)) by lia. lra.
Qed.

Lemma sum_upto_zero (n : nat) (f : nat -> R) : (forall k, f k = 0) -> sum_upto n f = 0.
Proof. intros H. induction n; simpl; [reflexivity|]. rewrite IHn, H. lra. Qed.

Lemma face_distance_sym (e1 e2 : Encoding) : face_distance e1 e2 = face_distance e2 e1.
Proof.
  unfold face_distance. f_equal. apply sum_upto_ext. intros. ring.
Qed.

Lemma face_distance_nonneg (e1 e2 : Encoding) : 0 <= face_distance e1 e2.
Proof. apply sqrt_pos. Qed.

Lemma face_distance_self (e : Encoding) : face_distance e e = 0.
Proof.
  unfold face_distance. rewrite sum_upto_zero; [apply sqrt_0|]. intros; simpl; ring.
Qed.

Lemma clamp_range (x : R) : 0 <= Rmax 0 (Rmin 100 x) <= 100.
Proof. unfold Rmax, Rmin; repeat destruct (Rle_dec _ _); lra. Qed.

Lemma embedding_confidence_range (d : R) : 0 <= d -> 0 <= Rmax 0 ((1 - d) * 100) <= 100.
Proof. intros Hd. unfold Rmax; destruct (Rle_dec 0 _); lra. Qed.

(** ** Histogram correlation *)

Lemma sum_prod_comm (h1 h2 : list R) : sum_prod h1 h2 = sum_prod h2 h1.
Proof.
  unfold sum_prod. revert h2.
  induction h1 as [|a h1 IH]; intros [|b h2]; simpl; try reflexivity.
  unfold sum_list in *. simpl. rewrite IH. ring.
Qed.

Lemma compare_hist_correl_sym (h1 h2 : list R) :
  length h1 = length h2 -> compare_hist_correl h1 h2 = compare_hist_correl h2 h1.
Proof.
  intros Hl. unfold compare_hist_correl; cbv zeta.
  rewrite Hl, (sum_prod_comm h1 h2).
  set (sc := / INR (length h2)).
  assert (Hd : (sum_prod h1 h1 - sum_list h1 * sum_list h1 * sc) * (sum_prod h2 h2 - sum_list h2 * sum_list h2 * sc)
             = (sum_prod h2 h2 - sum_list h2 * sum_list h2 * sc) * (sum_prod h1 h1 - sum_list h1 * sum_list h1 * sc))
    by ring.
  rewrite Hd.
  replace (sum_list h1 * sum_list h2 * sc) with (sum_list h2 * sum_list h1 * sc) by ring.
  reflexivity.
Qed.

Lemma calc_hist_length (r : list (list Z)) : length (calc_hist r) = 256%nat.
Proof. unfold calc_hist. rewrite length_map, length_seq. reflexivity. Qed.

Lemma face_features_hist_length (g : list (list Z)) (b : Box) : length (histogram (face_features g b)) = 50%nat.
Proof. unfold face_features; cbn [histogram]. rewrite length_firstn, calc_hist_length. reflexivity. Qed.

Lemma combined_similarity_sym (f1 f2 : Features) :
  length (histogram f1) = length (histogram f2) ->
  combined_similarity f1 f2 = combined_similarity f2 f1.
Proof.
  intros Hl. unfold combined_similarity, hist_correlation, intensity_similarity, ratio_similarity, size_ratio.
  rewrite (compare_hist_correl_sym _ _ Hl).
  rewrite (Rabs_minus_sym (mean_intensity f1)), (Rabs_minus_sym (aspect_ratio f1)).
  rewrite (Rmin_comm (IZR (face_area f1))), (Rmax_comm (IZR (face_area f1))).
  reflexivity.
Qed.

(** ** Extraction *)

Lemma extract_dlib_single (fs : FS) (p : string) (d : Decoded) (f : Location * Encoding) :
  fs p = File (Some d) -> hog_faces d = [f] -> extract_face_encoding_dlib fs p = Ok f.
Proof.
  intros Hp Hh. unfold extract_face_encoding_dlib, path_exists, detect_faces_dlib, imread.
  rewrite Hp, Hh. reflexivity.
Qed.

Lemma extract_features_single (fs : FS) (p : string) (d : Decoded) (b : Box) :
  fs p = File (Some d) -> cascade_faces d = [b] -> extract_face_features fs p = Ok (face_features (gray d) b).
Proof.
  intros Hp Hc. unfold extract_face_features, path_exists, detect_faces_opencv, imread.
  rewrite Hp, Hc. reflexivity.
Qed.

Lemma extract_features_ok (fs : FS) (p : string) (f : Features) :
  extract_face_features fs p = Ok f -> exists g b, f = face_features g b.
Proof.
  unfold extract_face_features.
  destruct (negb (path_exists fs p)); [discriminate|].
  destruct (detect_faces_opencv fs p) as [c m|faces]; [discriminate|].
  destruct (Nat.eqb (length faces) 0); [discriminate|].
  destruct (Nat.ltb 1 (length faces)); [discriminate|].
  destruct (imread fs p) as [d|]; destruct faces as [|b faces]; try discriminate.
  intros H; injection H as <-. eauto.
Qed.

Lemma extract_features_hist_length (fs : FS) (p : string) (f : Features) :
  extract_face_features fs p = Ok f -> length (histogram f) = 50%nat.
Proof. intros H. destruct (extract_features_ok _ _ _ H) as (g & b & ->). apply face_features_hist_length. Qed.

(** ** Comparison *)

Section CompareEmbedding.
Variables (tol : R) (fs : FS) (p1 p2 : string).

Lemma compare_dlib_ok (l1 l2 : Location) (e1 e2 : Encoding) :
  extract_face_encoding_dlib fs p1 = Ok (l1, e1) ->
  extract_face_encoding_dlib fs p2 = Ok (l2, e2) ->
  let r := compare_faces_dlib tol fs p1 p2 in
  dict_get "success" r = Some (VBool true) /\
  dict_get "is_match" r = Some (VNpBool (Rle_bool (face_distance e1 e2) tol)) /\
  dict_get "confidence" r = Some (VNum (py_round (Rmax 0 ((1 - face_distance e1 e2) * 100)) 2)) /\
  dict_get "face_distance" r = Some (VNum (py_round (face_distance e1 e2) 4)) /\
  dict_get "tolerance_used" r = Some (VNum tol).
Proof.
  intros H1 H2. unfold compare_faces_dlib. rewrite H1, H2. repeat split; reflexivity.
Qed.

Lemma compare_dlib_success_inv :
  dict_get "success" (compare_faces_dlib tol fs p1 p2) = Some (VBool true) ->
  exists l1 e1 l2 e2, extract_face_encoding_dlib fs p1 = Ok (l1, e1) /\
                      extract_face_encoding_dlib fs p2 = Ok (l2, e2).
Proof.
  unfold compare_faces_dlib.
  destruct (extract_face_encoding_dlib fs p1) as [c1 m1|[l1 e1]];
  destruct (extract_face_encoding_dlib fs p2) as [c2 m2|[l2 e2]];
  simpl; intros H; try discriminate.
  do 4 eexists; split; reflexivity.
Qed.

Lemma compare_dlib_camera_err (c : string) (m : Value) :
  extract_face_encoding_dlib fs p1 = Err c m ->
  compare_faces_dlib tol fs p1 p2 = compare_fail (VText "Live camera image: {message}" [m]) ("CAMERA_IMAGE_" ++ c).
Proof. intros H. unfold compare_faces_dlib. rewrite H. reflexivity. Qed.

Lemma compare_dlib_id_card_err (x : Location * Encoding) (c : string) (m : Value) :
  extract_face_encoding_dlib fs p1 = Ok x ->
  extract_face_encoding_dlib fs p2 = Err c m ->
  compare_faces_dlib tol fs p1 p2 = compare_fail (VText "ID card image: {message}" [m]) ("ID_CARD_IMAGE_" ++ c).
Proof. intros H1 H2. unfold compare_faces_dlib. rewrite H1, H2. destruct x. reflexivity. Qed.

End CompareEmbedding.

Section CompareHeuristic.
Variables (fs : FS) (p1 p2 : string).

Lemma compare_basic_ok (f1 f2 : Features) :
  extract_face_features fs p1 = Ok f1 ->
  extract_face_features fs p2 = Ok f2 ->
  let r := compare_faces_basic fs p1 p2 in
  let combined := combined_similarity f1 f2 in
  dict_get "success" r = Some (VBool true) /\
  dict_get "is_match" r = Some (VBool (Rge_bool combined basic_threshold)) /\
  dict_get "confidence" r = Some (VNum (py_round (Rmax 0 (Rmin 100 (combined * 100))) 2)) /\
  dict_get "similarity_score" r = Some (VNum (py_round combined 4)) /\
  dict_get "face_distance" r = None /\
  (exists details, dict_get "details" r = Some (VDict details) /\
     dict_get "similarity_breakdown" details =
       Some (VDict [("histogram_correlation", VNum (py_round (hist_correlation f1 f2) 4));
                    ("intensity_similarity", VNum (py_round (intensity_similarity f1 f2) 4));
                    ("ratio_similarity", VNum (py_round (ratio_similarity f1 f2) 4));
                    ("size_similarity", VNum (py_round (size_ratio f1 f2) 4))])).
Proof.
  intros H1 H2. unfold compare_faces_basic. rewrite H1, H2.
  repeat split; try reflexivity. eexists; split; reflexivity.
Qed.

Lemma compare_basic_success_inv :
  dict_get "success" (compare_faces_basic fs p1 p2) = Some (VBool true) ->
  exists f1 f2, extract_face_features fs p1 = Ok f1 /\ extract_face_features fs p2 = Ok f2.
Proof.
  unfold compare_faces_basic.
  destruct (extract_face_features fs p1) as [c1 m1|f1];
  destruct (extract_face_features fs p2) as [c2 m2|f2];
  simpl; intros H; try discriminate; eauto.
Qed.

Lemma compare_basic_camera_err (c : string) (m : Value) :
  extract_face_features fs p1 = Err c m ->
  compare_faces_basic fs p1 p2 = compare_fail (VText "Live camera image: {message}" [m]) ("CAMERA_IMAGE_" ++ c).
Proof. intros H. unfold compare_faces_basic. rewrite H. reflexivity. Qed.

Lemma compare_basic_id_card_err (f : Features) (c : string) (m : Value) :
  extract_face_features fs p1 = Ok f ->
  extract_face_features fs p2 = Err c m ->
  compare_faces_basic fs p1 p2 = compare_fail (VText "ID card image: {message}" [m]) ("ID_CARD_IMAGE_" ++ c).
Proof. intros H1 H2. unfold compare_faces_basic. rewrite H1, H2. reflexivity. Qed.

End CompareHeuristic.

(** ** Verification records *)

Section Verify.
Variables (fs : FS) (cam idc : string) (sd : option Dict) (now : string).

Lemma verify_advanced_ok (tol : R) (l1 l2 : Location) (e1 e2 : Encoding) :
  extract_face_encoding_dlib fs cam = Ok (l1, e1) ->
  extract_face_encoding_dlib fs idc = Ok (l2, e2) ->
  let r := verify_identity_advanced tol fs cam idc sd now in
  let c := py_round (Rmax 0 ((1 - face_distance e1 e2) * 100)) 2 in
  dict_get "success" r = Some (VBool true) /\
  dict_get "confidence" r = Some (VNum c) /\
  dict_get "recommendation" r = Some (VStr (recommendation_advanced c)) /\
  dict_get "face_distance" r = Some (VNum (py_round (face_distance e1 e2) 4)).
Proof.
  intros H1 H2. unfold verify_identity_advanced, compare_faces_dlib. rewrite H1, H2.
  repeat split; reflexivity.
Qed.

Lemma verify_basic_ok (f1 f2 : Features) :
  extract_face_features fs cam = Ok f1 ->
  extract_face_features fs idc = Ok f2 ->
  let r := verify_identity_basic fs cam idc sd now in
  let c := py_round (Rmax 0 (Rmin 100 (combined_similarity f1 f2 * 100))) 2 in
  dict_get "success" r = Some (VBool true) /\
  dict_get "confidence" r = Some (VNum c) /\
  dict_get "recommendation" r = Some (VStr (recommendation_basic c)) /\
  dict_get "similarity_score" r = Some (VNum (py_round (combined_similarity f1 f2) 4)) /\
  dict_get "face_distance" r = None.
Proof.
  intros H1 H2. unfold verify_identity_basic, compare_faces_basic. rewrite H1, H2.
  repeat split; reflexivity.
Qed.

Lemma verify_advanced_success_inv (tol : R) :
  dict_get "success" (verify_identity_advanced tol fs cam idc sd now) = Some (VBool true) ->
  exists l1 e1 l2 e2, extract_face_encoding_dlib fs cam = Ok (l1, e1) /\
                      extract_face_encoding_dlib fs idc = Ok (l2, e2).
Proof.
  unfold verify_identity_advanced, compare_faces_dlib.
  destruct (extract_face_encoding_dlib fs cam) as [c1 m1|[l1 e1]];
  destruct (extract_face_encoding_dlib fs idc) as [c2 m2|[l2 e2]];
  simpl; intros H; try discriminate.
  do 4 eexists; split; reflexivity.
Qed.

Lemma verify_basic_success_inv :
  dict_get "success" (verify_identity_basic fs cam idc sd now) = Some (VBool true) ->
  exists f1 f2, extract_face_features fs cam = Ok f1 /\ extract_face_features fs idc = Ok f2.
Proof.
  unfold verify_identity_basic, compare_faces_basic.
  destruct (extract_face_features fs cam) as [c1 m1|f1];
  destruct (extract_face_features fs idc) as [c2 m2|f2];
  simpl; intros H; try discriminate.
  eauto.
Qed.

(** A failed comparison is passed on with its error code. *)
Lemma verify_error_code (v : Variant) (svc : Service) (msg : Value) (code : string) :
  compare_faces v (tolerance svc) fs cam idc = compare_fail msg code ->
  dict_get "success" (verify_identity v svc fs cam idc sd now) = Some (VBool false) /\
  dict_get "error_code" (verify_identity v svc fs cam idc sd now) = Some (VStr code).
Proof.
  destruct v; simpl; intros H.
  - unfold verify_identity_advanced. rewrite H. split; reflexivity.
  - unfold verify_identity_basic. rewrite H. split; reflexivity.
Qed.

End Verify.

(** ** Test images *)

(** A grayscale image of one intensity [c], [w] wide and [h] high. *)
Definition const_grid (c : Z) (w h : nat) : list (list Z) := repeat (repeat c w) h.

Definition photo (g : list (list Z)) (boxes : list Box) (hogs : list (Location * Encoding)) : ImageFile :=
  File (Some (mkDecoded g boxes hogs)).

(** Two files, at "camera.jpg" and "id_card.jpg". *)
Definition two_files (cam idc : ImageFile) : FS :=
  fun p => if String.eqb p "camera.jpg" then cam else if String.eqb p "id_card.jpg" then idc else NoFile.

Definition box30 : Box := mkBox 0 0 30 30.
Definition loc30 : Location := (0%Z, 30%Z, 30%Z, 0%Z).

Definition enc_zero : Encoding := fun _ => 0.
Definition enc_near : Encoding := fun i => if Nat.eqb i 0 then 1/300 else 0.

Lemma face_distance_zero_near : face_distance enc_zero enc_near = 1/300.
Proof.
  unfold face_distance, enc_dim.
  rewrite (sum_upto_first 127).
  - unfold enc_zero, enc_near; simpl.
    replace ((0 - 1/300) * ((0 - 1/300) * 1)) with ((1/300) * (1/300)) by ring.
    apply sqrt_square. lra.
  - intros k Hk. unfold enc_zero, enc_near. destruct (Nat.eqb_spec k 0); [lia|]. simpl; ring.
Qed.

Lemma firstn_repeat_all {A} (x : A) (n : nat) : firstn n (repeat x n) = repeat x n.
Proof. induction n; simpl; [reflexivity|]. rewrite IHn. reflexivity. Qed.

Lemma concat_const_grid (c : Z) (w h : nat) : concat (const_grid c w h) = repeat c (h * w).
Proof.
  unfold const_grid. induction h as [|h IH]; simpl; [reflexivity|].
  rewrite IH, repeat_app. reflexivity.
Qed.

Lemma crop_const_grid (c : Z) (w h : positive) :
  crop (const_grid c (Pos.to_nat w) (Pos.to_nat h)) (mkBox 0 0 w h) = const_grid c (Pos.to_nat w) (Pos.to_nat h).
Proof.
  unfold crop, const_grid; cbn [box_x box_y box_w box_h N.to_nat skipn].
  rewrite firstn_repeat_all, map_repeat, firstn_repeat_all. reflexivity.
Qed.

Lemma sum_list_repeat (x : R) (n : nat) : sum_list (repeat x n) = INR n * x.
Proof.
  induction n as [|n IH]; [simpl; ring|].
  change (sum_list (repeat x (S n))) with (x + sum_list (repeat x n)).
  rewrite IH, S_INR. ring.
Qed.

Lemma np_mean_repeat (x : R) (n : nat) : (0 < n)%nat -> np_mean (repeat x n) = x.
Proof.
  intros Hn. unfold np_mean. rewrite sum_list_repeat, repeat_length.
  field. apply not_0_INR. lia.
Qed.

Lemma count_occ_repeat (c v : Z) (n : nat) :
  count_occ Z.eq_dec (repeat c n) v = if Z.eq_dec c v then n else O.
Proof.
  induction n as [|n IH]; simpl; [destruct (Z.eq_dec c v); reflexivity|].
  rewrite IH. destruct (Z.eq_dec c v); reflexivity.
Qed.

Lemma map_zero {A} (f : A -> R) (l : list A) :
  (forall x, In x l -> f x = 0) -> map f l = repeat 0 (length l).
Proof.
  induction l as [|a l IH]; intros H; simpl; [reflexivity|].
  rewrite H, IH; [reflexivity| |left; reflexivity]. intros; apply H; right; assumption.
Qed.

(** The first 50 histogram bins of a bright constant image are empty. *)
Lemma hist50_const_grid (c : Z) (w h : nat) :
  (50 <= c)%Z -> firstn 50 (calc_hist (const_grid c w h)) = repeat 0 50.
Proof.
  intros Hc. unfold calc_hist. rewrite firstn_map.
  change (firstn 50 (seq 0 256)) with (seq 0 50).
  rewrite map_zero, length_seq; [reflexivity|].
  intros v Hv. apply in_seq in Hv.
  rewrite concat_const_grid, count_occ_repeat.
  destruct (Z.eq_dec c (Z.of_nat v)); [lia|reflexivity].
Qed.

Lemma sum_list_zeros (n : nat) : sum_list (repeat 0 n) = 0.
Proof. rewrite sum_list_repeat. ring. Qed.

Lemma sum_prod_zeros (n : nat) (l : list R) : sum_prod (repeat 0 n) l = 0.
Proof.
  unfold sum_prod. revert l. induction n as [|n IH]; intros [|b l]; simpl; try reflexivity.
  specialize (IH l). unfold sum_list in *. simpl. rewrite IH. ring.
Qed.

(** OpenCV's correlation of two flat histograms is 1. *)
Lemma compare_hist_correl_zeros : compare_hist_correl (repeat 0 50) (repeat 0 50) = 1.
Proof.
  unfold compare_hist_correl; cbv zeta.
  rewrite !sum_list_zeros, !sum_prod_zeros.
  destruct (Rlt_dec DBL_EPSILON _) as [Hl|]; [|reflexivity].
  exfalso. replace ((0 - 0 * 0 * / INR (length (repeat 0 50))) * (0 - 0 * 0 * / INR (length (repeat 0 50))))
    with 0 in Hl by ring.
  rewrite Rabs_R0 in Hl. unfold DBL_EPSILON in Hl.
  assert (0 < / 2 ^ 52) by (apply Rinv_0_lt_compat, pow_lt; lra). lra.
Qed.

(** The features of a 30x30 face of constant intensity [c >= 50] filling its box. *)
Lemma face_features_const30 (c : Z) :
  (50 <= c)%Z ->
  let f := face_features (const_grid c 30 30) box30 in
  histogram f = repeat 0 50 /\ mean_intensity f = IZR c /\ face_area f = 900%Z /\ aspect_ratio f = 1.
Proof.
  intros Hc. unfold face_features, box30.
  change (const_grid c 30 30) with (const_grid c (Pos.to_nat 30) (Pos.to_nat 30)).
  rewrite crop_const_grid. cbn [histogram mean_intensity face_area aspect_ratio].
  repeat split.
  - apply hist50_const_grid; assumption.
  - unfold pixels. rewrite concat_const_grid, map_repeat. apply np_mean_repeat. simpl; lia.
  - cbn [box_w box_h]. field.
Qed.

(** Two 200x200 photos whose single faces are [enc_dist] apart. *)
Definition fs_pair (e_cam e_id : Encoding) : FS :=
  two_files (photo (const_grid 120 200 200) [box30] [(loc30, e_cam)])
            (photo (const_grid 120 200 200) [box30] [(loc30, e_id)]).

(** Two 30x30 face crops of intensities 200 and 201. *)
Definition fs_flat : FS :=
  two_files (photo (const_grid 200 30 30) [box30] [])
            (photo (const_grid 201 30 30) [box30] []).

(** Camera image with a face but only 80x80 pixels, and a 200x200 ID card. *)
Definition fs_lowres : FS :=
  two_files (photo (const_grid 120 80 80) [box30] [(loc30, enc_zero)])
            (photo (const_grid 120 200 200) [box30] [(loc30, enc_zero)]).

(** Camera image with one face, ID card without any. *)
Definition fs_no_id_face : FS :=
  two_files (photo (const_grid 120 200 200) [box30] [(loc30, enc_zero)])
            (photo (const_grid 120 200 200) [] []).

Lemma extract_embedding_inv (fs : FS) (p : string) (l : Location) (e : Encoding) :
  extract_face_encoding Embedding fs p = Ok (RepEmbedding l e) ->
  extract_face_encoding_dlib fs p = Ok (l, e).
Proof.
  simpl. destruct (extract_face_encoding_dlib fs p) as [c m|[l' e']]; [discriminate|].
  intros H; injection H as -> ->. reflexivity.
Qed.

Lemma extract_heuristic_inv (fs : FS) (p : string) (f : Features) :
  extract_face_encoding Heuristic fs p = Ok (RepHeuristic f) ->
  extract_face_features fs p = Ok f.
Proof.
  simpl. destruct (extract_face_features fs p) as [c m|f']; [discriminate|].
  intros H; injection H as ->. reflexivity.
Qed.

Lemma combined_flat :
  combined_similarity (face_features (const_grid 200 30 30) box30) (face_features (const_grid 201 30 30) box30)
  = 1 - 1 / 1275.
Proof.
  destruct (face_features_const30 200) as (Hh1 & Hm1 & Ha1 & Hr1); [lia|].
  destruct (face_features_const30 201) as (Hh2 & Hm2 & Ha2 & Hr2); [lia|].
  unfold combined_similarity, hist_correlation, intensity_similarity, ratio_similarity, size_ratio.
  rewrite Hh1, Hh2, Hm1, Hm2, Ha1, Ha2, Hr1, Hr2, compare_hist_correl_zeros.
  replace (IZR 200 - IZR 201) with (- (1)) by (simpl; lra).
  replace (1 - 1) with 0 by ring.
  rewrite Rabs_Ropp, Rabs_R1, Rabs_R0.
  unfold Rmax, Rmin, weight_histogram, weight_intensity, weight_ratio, weight_size.
  repeat destruct (Rle_dec _ _); field_simplify; lra.
Qed.

(* ================================================================== *)
(** * Claims *)

(** C1 (amended).  For every pair of images from which the embedding
    variant extracts one encoding each, [compare_faces] succeeds with
    [confidence = round(max(0, (1 - distance) * 100), 2)] and
    [is_match = (distance <= tolerance)], where [distance] is the Euclidean
    distance of the two encodings; the tolerance of the constructor and of
    the configured service is 0.6. *)
Theorem compare_faces_embedding_result (svc : Service) (fs : FS) (p1 p2 : string)
    (l1 l2 : Location) (e1 e2 : Encoding) :
  extract_face_encoding Embedding fs p1 = Ok (RepEmbedding l1 e1) ->
  extract_face_encoding Embedding fs p2 = Ok (RepEmbedding l2 e2) ->
  let r := compare_faces Embedding (tolerance svc) fs p1 p2 in
  let distance := sqrt (sum_upto enc_dim (fun i => (e1 i - e2 i) ^ 2)) in
  dict_get "success" r = Some (VBool true) /\
  dict_get "confidence" r = Some (VNum (py_round (Rmax 0 ((1 - distance) * 100)) 2)) /\
  dict_get "is_match" r = Some (VNpBool (Rle_bool distance (tolerance svc))) /\
  tolerance default_service = 0.6 /\ tolerance face_verification_service = 0.6.
Proof.
  intros H1 H2.
  destruct (compare_dlib_ok (tolerance svc) fs p1 p2 l1 l2 e1 e2
              (extract_embedding_inv _ _ _ _ H1) (extract_embedding_inv _ _ _ _ H2))
    as (Hs & Hm & Hc & _ & _).
  simpl. repeat split; assumption || reflexivity.
Qed.

Lemma compare_faces_embedding_result_witness :
  extract_face_encoding Embedding (fs_pair enc_zero enc_near) "camera.jpg" = Ok (RepEmbedding loc30 enc_zero) /\
  extract_face_encoding Embedding (fs_pair enc_zero enc_near) "id_card.jpg" = Ok (RepEmbedding loc30 enc_near) /\
  dict_get "success" (compare_faces Embedding (tolerance face_verification_service)
                        (fs_pair enc_zero enc_near) "camera.jpg" "id_card.jpg") = Some (VBool true).
Proof.
  split; [reflexivity|]. split; [reflexivity|].
  apply (compare_faces_embedding_result face_verification_service (fs_pair enc_zero enc_near)
           "camera.jpg" "id_card.jpg" loc30 loc30 enc_zero enc_near); reflexivity.
Defined.

(** C1 (as stated) fails: at distance 1/300 the returned confidence is
    99.67, not [max(0, (1 - 1/300) * 100)] = 99.666... *)
Lemma compare_faces_confidence_is_rounded :
  extract_face_encoding Embedding (fs_pair enc_zero enc_near) "camera.jpg" = Ok (RepEmbedding loc30 enc_zero) /\
  extract_face_encoding Embedding (fs_pair enc_zero enc_near) "id_card.jpg" = Ok (RepEmbedding loc30 enc_near) /\
  dict_get "confidence" (compare_faces Embedding 0.6 (fs_pair enc_zero enc_near) "camera.jpg" "id_card.jpg")
  <> Some (VNum (Rmax 0 ((1 - face_distance enc_zero enc_near) * 100))).
Proof.
  split; [reflexivity|]. split; [reflexivity|].
  destruct (compare_dlib_ok 0.6 (fs_pair enc_zero enc_near) "camera.jpg" "id_card.jpg" loc30 loc30
              enc_zero enc_near eq_refl eq_refl) as (_ & _ & Hc & _).
  simpl compare_faces. rewrite Hc, face_distance_zero_near.
  replace (Rmax 0 ((1 - 1/300) * 100)) with (299/3) by (unfold Rmax; destruct (Rle_dec _ _); lra).
  intros H. injection H as H.
  pose proof (py_round2_hundredths (299/3)) as Hk. rewrite H in Hk.
  assert (IZR (3 * rint (299 / 3 * 100)) = IZR 29900) by (rewrite mult_IZR, <- Hk; simpl; lra).
  apply eq_IZR in H0. lia.
Qed.

(** C2 (amended).  For every pair of images from which the heuristic variant
    extracts features, [compare_faces_basic] computes the histogram
    correlation of the truncated histograms, the intensity similarity
    [max(0, 1 - |meanA - meanB| / 255)], the ratio similarity
    [max(0, 1 - |ratioA - ratioB|)] and the size similarity
    [min(areaA, areaB) / max(areaA, areaB)], combines them with weights
    0.4/0.2/0.2/0.2, and succeeds with
    [confidence = round(clamp(combined * 100, 0, 100), 2)],
    [is_match = (combined >= 0.4)] and a breakdown of the four sub-scores,
    each rounded to 4 decimals. *)
Theorem compare_faces_basic_result (tol : R) (fs : FS) (p1 p2 : string) (f1 f2 : Features) :
  extract_face_encoding Heuristic fs p1 = Ok (RepHeuristic f1) ->
  extract_face_encoding Heuristic fs p2 = Ok (RepHeuristic f2) ->
  let r := compare_faces Heuristic tol fs p1 p2 in
  let hist := compare_hist_correl (histogram f1) (histogram f2) in
  let intensity := Rmax 0 (1 - Rabs (mean_intensity f1 - mean_intensity f2) / 255) in
  let ratio := Rmax 0 (1 - Rabs (aspect_ratio f1 - aspect_ratio f2)) in
  let size := Rmin (IZR (face_area f1)) (IZR (face_area f2)) / Rmax (IZR (face_area f1)) (IZR (face_area f2)) in
  let combined := hist * 0.4 + intensity * 0.2 + ratio * 0.2 + size * 0.2 in
  dict_get "success" r = Some (VBool true) /\
  dict_get "confidence" r = Some (VNum (py_round (Rmax 0 (Rmin 100 (combined * 100))) 2)) /\
  dict_get "is_match" r = Some (VBool (Rge_bool combined 0.4)) /\
  (exists details, dict_get "details" r = Some (VDict details) /\
     dict_get "similarity_breakdown" details =
       Some (VDict [("histogram_correlation", VNum (py_round hist 4));
                    ("intensity_similarity", VNum (py_round intensity 4));
                    ("ratio_similarity", VNum (py_round ratio 4));
                    ("size_similarity", VNum (py_round size 4))])).
Proof.
  intros H1 H2.
  destruct (compare_basic_ok fs p1 p2 f1 f2 (extract_heuristic_inv _ _ _ H1) (extract_heuristic_inv _ _ _ H2))
    as (Hs & Hm & Hc & _ & _ & Hd).
  simpl. repeat split; assumption.
Qed.

Lemma compare_faces_basic_result_witness :
  extract_face_encoding Heuristic fs_flat "camera.jpg" = Ok (RepHeuristic (face_features (const_grid 200 30 30) box30)) /\
  extract_face_encoding Heuristic fs_flat "id_card.jpg" = Ok (RepHeuristic (face_features (const_grid 201 30 30) box30)) /\
  dict_get "success" (compare_faces Heuristic 0.6 fs_flat "camera.jpg" "id_card.jpg") = Some (VBool true).
Proof.
  split; [reflexivity|]. split; [reflexivity|].
  apply (compare_faces_basic_result 0.6 fs_flat "camera.jpg" "id_card.jpg"
           (face_features (const_grid 200 30 30) box30) (face_features (const_grid 201 30 30) box30));
    reflexivity.
Defined.

(** C2 (as stated) fails: for two flat 30x30 faces of intensities 200 and
    201 the combined similarity is 1 - 1/1275, and the returned confidence
    is 99.92, not [clamp(combined * 100, 0, 100)] = 99.9215... *)
Lemma compare_faces_basic_confidence_is_rounded :
  let f1 := face_features (const_grid 200 30 30) box30 in
  let f2 := face_features (const_grid 201 30 30) box30 in
  extract_face_encoding Heuristic fs_flat "camera.jpg" = Ok (RepHeuristic f1) /\
  extract_face_encoding Heuristic fs_flat "id_card.jpg" = Ok (RepHeuristic f2) /\
  dict_get "confidence" (compare_faces Heuristic 0.6 fs_flat "camera.jpg" "id_card.jpg")
  <> Some (VNum (Rmax 0 (Rmin 100 (combined_similarity f1 f2 * 100)))).
Proof.
  cbv zeta. split; [reflexivity|]. split; [reflexivity|].
  destruct (compare_basic_ok fs_flat "camera.jpg" "id_card.jpg"
              (face_features (const_grid 200 30 30) box30) (face_features (const_grid 201 30 30) box30)
              eq_refl eq_refl) as (_ & _ & Hc & _).
  simpl compare_faces. rewrite Hc, combined_flat.
  replace (Rmax 0 (Rmin 100 ((1 - 1 / 1275) * 100))) with (5096 / 51)
    by (unfold Rmax, Rmin; repeat destruct (Rle_dec _ _); lra).
  intros H. injection H as H.
  pose proof (py_round2_hundredths (5096 / 51)) as Hk. rewrite H in Hk.
  assert (IZR (51 * rint (5096 / 51 * 100)) = IZR 509600) by (rewrite mult_IZR, <- Hk; simpl; lra).
  apply eq_IZR in H0. lia.
Qed.

(** C3 (code bug).  With the embedding variant, a locator that finds no
    face makes extraction fail with NO_FACE_DETECTED; with the fallback, the
    cascade's empty result makes detect_faces_opencv raise on
    [faces.tolist()], so extraction fails with OPENCV_DETECTION_ERROR.  Under
    both variants, two or more faces make it fail with
    MULTIPLE_FACES_DETECTED. *)
Theorem extraction_face_cardinality (v : Variant) (fs : FS) (p : string) (faces : list (Z * Z * Z * Z)) :
  locate v fs p = Some faces ->
  (length faces = O ->
   exists m, extract_face_encoding v fs p
             = Err (no_face_code v) m) /\
  ((2 <= length faces)%nat -> exists m, extract_face_encoding v fs p = Err "MULTIPLE_FACES_DETECTED" m).
Proof.
  destruct v; simpl;
    unfold extract_face_encoding_dlib, extract_face_features, locate, detect_faces_dlib, detect_faces_opencv,
      path_exists, imread;
    destruct (fs p) as [|[d|]]; simpl; try discriminate;
    intros H; injection H as <-; rewrite length_map.
  - destruct (hog_faces d) as [|f1 [|f2 rest]]; simpl; split; intros Hl; try lia; eexists; reflexivity.
  - destruct (cascade_faces d) as [|b1 [|b2 rest]]; simpl; split; intros Hl; try lia; eexists; reflexivity.
Qed.

Lemma extraction_face_cardinality_witness :
  locate Embedding (two_files (photo (const_grid 120 200 200) [] []) NoFile) "camera.jpg" = Some [] /\
  exists m, extract_face_encoding Embedding (two_files (photo (const_grid 120 200 200) [] []) NoFile) "camera.jpg"
            = Err "NO_FACE_DETECTED" m.
Proof.
  split; [reflexivity|].
  apply (extraction_face_cardinality Embedding (two_files (photo (const_grid 120 200 200) [] []) NoFile)
           "camera.jpg" []); reflexivity.
Defined.

(** C3 fails for the fallback: on an image in which the cascade finds no
    face, extraction fails with OPENCV_DETECTION_ERROR, not
    NO_FACE_DETECTED. *)
Lemma extraction_no_face_fallback :
  locate Heuristic (two_files (photo (const_grid 120 200 200) [] []) NoFile) "camera.jpg" = Some [] /\
  extract_face_encoding Heuristic (two_files (photo (const_grid 120 200 200) [] []) NoFile) "camera.jpg"
  = Err "OPENCV_DETECTION_ERROR" (VText "Face detection failed: {str(e)}" []).
Proof. split; reflexivity. Qed.

(** Every quality report is a single failure with one code, or valid. *)
Lemma validate_image_quality_cases (fs : FS) (p : string) :
  (exists m c, validate_image_quality fs p = quality_fail m c /\
     In c ["IMAGE_READ_ERROR"; "LOW_RESOLUTION"; "TOO_DARK"; "TOO_BRIGHT"; "BLURRY_IMAGE"]) \/
  (exists details, validate_image_quality fs p =
     [("valid", VBool true); ("message", VStr "Image quality is acceptable for face recognition");
      ("details", details)]).
Proof.
  unfold validate_image_quality.
  destruct (imread fs p) as [d|]; [|left; do 2 eexists; split; [reflexivity|simpl; tauto]].
  cbv zeta.
  destruct (Nat.ltb _ _ || Nat.ltb _ _); [left; do 2 eexists; split; [reflexivity|simpl; tauto]|].
  destruct (Rlt_bool (brightness (gray d)) 30); [left; do 2 eexists; split; [reflexivity|simpl; tauto]|].
  destruct (Rlt_bool 225 (brightness (gray d))); [left; do 2 eexists; split; [reflexivity|simpl; tauto]|].
  destruct (Rlt_bool (laplacian_var (gray d)) 100); [left; do 2 eexists; split; [reflexivity|simpl; tauto]|].
  right. eexists. reflexivity.
Qed.

Lemma Rlt_bool_true (a b : R) : a < b -> Rlt_bool a b = true.
Proof. unfold Rlt_bool; destruct (Rlt_dec a b); [reflexivity|contradiction]. Qed.

Lemma Rlt_bool_false (a b : R) : b <= a -> Rlt_bool a b = false.
Proof. unfold Rlt_bool; destruct (Rlt_dec a b); [lra|reflexivity]. Qed.

(** C4.  validate_image_quality runs its checks in order and stops at the
    first failure: an undecodable image gives IMAGE_READ_ERROR; else a width
    or height below 100 gives LOW_RESOLUTION; else a mean gray level below 30
    gives TOO_DARK and above 225 TOO_BRIGHT; else a Laplacian variance below
    100 gives BLURRY_IMAGE; otherwise the report is valid with no error
    code.  Every report is either valid without an error code or invalid
    with exactly one of these codes. *)
Theorem validate_image_quality_order (fs : FS) (p : string) :
  let q := validate_image_quality fs p in
  (imread fs p = None -> dict_get "error_code" q = Some (VStr "IMAGE_READ_ERROR")) /\
  (forall d, imread fs p = Some d ->
     let g := gray d in
     ((img_width g < 100)%nat \/ (img_height g < 100)%nat ->
        dict_get "error_code" q = Some (VStr "LOW_RESOLUTION")) /\
     ((100 <= img_width g)%nat -> (100 <= img_height g)%nat -> brightness g < 30 ->
        dict_get "error_code" q = Some (VStr "TOO_DARK")) /\
     ((100 <= img_width g)%nat -> (100 <= img_height g)%nat -> 225 < brightness g ->
        dict_get "error_code" q = Some (VStr "TOO_BRIGHT")) /\
     ((100 <= img_width g)%nat -> (100 <= img_height g)%nat -> 30 <= brightness g <= 225 ->
        laplacian_var g < 100 -> dict_get "error_code" q = Some (VStr "BLURRY_IMAGE")) /\
     ((100 <= img_width g)%nat -> (100 <= img_height g)%nat -> 30 <= brightness g <= 225 ->
        100 <= laplacian_var g ->
        dict_get "valid" q = Some (VBool true) /\ dict_get "error_code" q = None)) /\
  ((dict_get "valid" q = Some (VBool true) /\ dict_get "error_code" q = None) \/
   (dict_get "valid" q = Some (VBool false) /\
    exists c, dict_get "error_code" q = Some (VStr c) /\
              In c ["IMAGE_READ_ERROR"; "LOW_RESOLUTION"; "TOO_DARK"; "TOO_BRIGHT"; "BLURRY_IMAGE"])).
Proof.
  cbv zeta. split; [|split].
  - intros H. unfold validate_image_quality. rewrite H. reflexivity.
  - intros d Hd. unfold validate_image_quality. rewrite Hd. cbv zeta.
    repeat split; intros.
    + replace (Nat.ltb _ 100 || Nat.ltb _ 100) with true; [reflexivity|].
      symmetry; apply orb_true_iff; destruct H; [left|right]; apply Nat.ltb_lt; assumption.
    + replace (Nat.ltb _ 100 || Nat.ltb _ 100) with false
        by (symmetry; apply orb_false_iff; split; apply Nat.ltb_ge; assumption).
      rewrite Rlt_bool_true by assumption. reflexivity.
    + replace (Nat.ltb _ 100 || Nat.ltb _ 100) with false
        by (symmetry; apply orb_false_iff; split; apply Nat.ltb_ge; assumption).
      rewrite Rlt_bool_false by lra. rewrite Rlt_bool_true by assumption. reflexivity.
    + replace (Nat.ltb _ 100 || Nat.ltb _ 100) with false
        by (symmetry; apply orb_false_iff; split; apply Nat.ltb_ge; assumption).
      rewrite Rlt_bool_false, Rlt_bool_false, Rlt_bool_true by lra. reflexivity.
    + replace (Nat.ltb _ 100 || Nat.ltb _ 100) with false
        by (symmetry; apply orb_false_iff; split; apply Nat.ltb_ge; assumption).
      rewrite Rlt_bool_false, Rlt_bool_false, Rlt_bool_false by lra. reflexivity.
    + replace (Nat.ltb _ 100 || Nat.ltb _ 100) with false
        by (symmetry; apply orb_false_iff; split; apply Nat.ltb_ge; assumption).
      rewrite Rlt_bool_false, Rlt_bool_false, Rlt_bool_false by lra. reflexivity.
  - destruct (validate_image_quality_cases fs p) as [(m & c & -> & Hc)|(details & ->)].
    + right. split; [reflexivity|]. exists c. split; [reflexivity|assumption].
    + left. split; reflexivity.
Qed.

Lemma validate_image_quality_order_witness :
  imread (two_files (photo (const_grid 120 80 80) [] []) NoFile) "camera.jpg"
    = Some (mkDecoded (const_grid 120 80 80) [] []) /\
  dict_get "error_code" (validate_image_quality (two_files (photo (const_grid 120 80 80) [] []) NoFile) "camera.jpg")
    = Some (VStr "LOW_RESOLUTION").
Proof.
  split; [reflexivity|].
  destruct (validate_image_quality_order (two_files (photo (const_grid 120 80 80) [] []) NoFile) "camera.jpg")
    as [_ [H _]].
  apply (H (mkDecoded (const_grid 120 80 80) [] [])); [reflexivity|].
  left. apply Nat.ltb_lt. reflexivity.
Defined.

Ltac tiers rec :=
  unfold rec, Rge_bool; repeat split; intros;
  repeat destruct (Rge_dec _ _); try reflexivity; lra.

(** C5 (amended).  On a successful verification the recommendation is
    picked from the confidence with the boundaries of the spec, and the
    strings are those of the code: on the embedding path, confidence >= 80
    gives "High confidence match", 60 <= confidence < 80 "Moderate
    confidence match", confidence < 60 "Low confidence - manual review
    recommended"; on the heuristic path, confidence >= 70 gives "Moderate
    confidence match (basic method)", 50 <= confidence < 70 "Low confidence
    match (basic method)", confidence < 50 "Very low confidence - manual
    review required". *)
Theorem verify_identity_recommendation_tiers (v : Variant) (svc : Service) (fs : FS) (cam idc : string)
    (sd : option Dict) (now : string) (c : R) :
  dict_get "success" (verify_identity v svc fs cam idc sd now) = Some (VBool true) ->
  dict_get "confidence" (verify_identity v svc fs cam idc sd now) = Some (VNum c) ->
  let rec := dict_get "recommendation" (verify_identity v svc fs cam idc sd now) in
  match v with
  | Embedding =>
      (80 <= c -> rec = Some (VStr "High confidence match")) /\
      (60 <= c < 80 -> rec = Some (VStr "Moderate confidence match")) /\
      (c < 60 -> rec = Some (VStr "Low confidence - manual review recommended"))
  | Heuristic =>
      (70 <= c -> rec = Some (VStr "Moderate confidence match (basic method)")) /\
      (50 <= c < 70 -> rec = Some (VStr "Low confidence match (basic method)")) /\
      (c < 50 -> rec = Some (VStr "Very low confidence - manual review required"))
  end.
Proof.
  intros Hs Hc. cbv zeta. destruct v; simpl in Hs, Hc |- *.
  - destruct (verify_advanced_success_inv fs cam idc sd now _ Hs) as (l1 & e1 & l2 & e2 & H1 & H2).
    destruct (verify_advanced_ok fs cam idc sd now (tolerance svc) l1 l2 e1 e2 H1 H2) as (_ & Hc' & Hr & _).
    rewrite Hc' in Hc. injection Hc as Hc. rewrite Hr, Hc.
    tiers recommendation_advanced.
  - destruct (verify_basic_success_inv fs cam idc sd now Hs) as (f1 & f2 & H1 & H2).
    destruct (verify_basic_ok fs cam idc sd now f1 f2 H1 H2) as (_ & Hc' & Hr & _).
    rewrite Hc' in Hc. injection Hc as Hc. rewrite Hr, Hc.
    tiers recommendation_basic.
Qed.

Lemma verify_identity_recommendation_tiers_witness :
  let r := verify_identity Embedding face_verification_service (fs_pair enc_zero enc_zero)
             "camera.jpg" "id_card.jpg" None "2026-01-01T00:00:00" in
  let c := py_round (Rmax 0 ((1 - face_distance enc_zero enc_zero) * 100)) 2 in
  dict_get "success" r = Some (VBool true) /\ dict_get "confidence" r = Some (VNum c) /\
  (80 <= c -> dict_get "recommendation" r = Some (VStr "High confidence match")).
Proof.
  cbv zeta. split; [reflexivity|]. split; [reflexivity|].
  apply (verify_identity_recommendation_tiers Embedding face_verification_service (fs_pair enc_zero enc_zero)
           "camera.jpg" "id_card.jpg" None "2026-01-01T00:00:00"); reflexivity.
Defined.

(** Confidence of two identical encodings: 100. *)
Lemma confidence_self (e : Encoding) : py_round (Rmax 0 ((1 - face_distance e e) * 100)) 2 = 100.
Proof.
  rewrite face_distance_self.
  replace (Rmax 0 ((1 - 0) * 100)) with (IZR 100) by (unfold Rmax; destruct (Rle_dec _ _); simpl; lra).
  rewrite py_round_IZR. reflexivity.
Qed.

(** C5 (as stated) fails on the strings: two identical faces give
    confidence 100, and the recommendation is "High confidence match", not
    "high confidence match". *)
Lemma verify_recommendation_literal :
  let r := verify_identity Embedding face_verification_service (fs_pair enc_zero enc_zero)
             "camera.jpg" "id_card.jpg" None "2026-01-01T00:00:00" in
  dict_get "success" r = Some (VBool true) /\ dict_get "confidence" r = Some (VNum 100) /\
  dict_get "recommendation" r <> Some (VStr "high confidence match").
Proof.
  cbv zeta.
  destruct (verify_advanced_ok (fs_pair enc_zero enc_zero) "camera.jpg" "id_card.jpg" None "2026-01-01T00:00:00"
              (tolerance face_verification_service) loc30 loc30 enc_zero enc_zero eq_refl eq_refl)
    as (Hs & Hc & Hr & _).
  cbn [verify_identity]. rewrite confidence_self in Hc, Hr.
  split; [exact Hs|]. split; [exact Hc|]. rewrite Hr.
  unfold recommendation_advanced, Rge_bool. destruct (Rge_dec 100 80); [|lra]. discriminate.
Qed.

(** C6 (amended).  verify_identity runs no quality check: under either
    variant its record reads the images only through compare_faces, so two
    file systems on which the comparison agrees give the same record,
    whatever the quality of the images.  The quality gate runs in the
    /verify route: once both paths are present and exist, the route
    validates both images; if either is invalid it answers 400 with
    POOR_IMAGE_QUALITY and exactly one issue per invalid image, the camera
    image's first, tagged "Camera image: ..." or "ID card image: ...", and
    none for a valid one, whatever the verification function is, so
    verify_identity is never called on such an image. *)
Theorem route_verify_quality_gate (verify : string -> string -> option Dict -> Dict) (fs : FS)
    (cam idc : string) (sd : Dict) :
  cam <> "" -> idc <> "" -> path_exists fs cam = true -> path_exists fs idc = true ->
  let cq := validate_image_quality fs cam in
  let iq := validate_image_quality fs idc in
  dict_get "valid" cq = Some (VBool false) \/ dict_get "valid" iq = Some (VBool false) ->
  route_verify_with verify fs (Some cam) (Some idc) sd =
    poor_quality_response
      (app (match dict_get "valid" cq with
            | Some (VBool false) => [VText "Camera image: {message}" [dict_get_default "message" VNone cq]]
            | _ => []
            end)
           (match dict_get "valid" iq with
            | Some (VBool false) => [VText "ID card image: {message}" [dict_get_default "message" VNone iq]]
            | _ => []
            end)) /\
  (forall (v : Variant) (svc : Service) (fs1 fs2 : FS) (sd' : option Dict) (now : string),
     compare_faces v (tolerance svc) fs1 cam idc = compare_faces v (tolerance svc) fs2 cam idc ->
     verify_identity v svc fs1 cam idc sd' now = verify_identity v svc fs2 cam idc sd' now).
Proof.
  intros Hc Hi Hp1 Hp2. cbv zeta. intros Hv. split.
  - destruct cam as [|a s]; [congruence|]. destruct idc as [|b t]; [congruence|].
    unfold route_verify_with. cbv beta iota. rewrite Hp1, Hp2. cbn [negb].
    destruct (validate_image_quality_cases fs (String a s)) as [(m1 & c1 & E1 & _)|(d1 & E1)];
    destruct (validate_image_quality_cases fs (String b t)) as [(m2 & c2 & E2 & _)|(d2 & E2)];
    rewrite E1, E2 in *; simpl in Hv |- *; try reflexivity.
    destruct Hv; discriminate.
  - intros v svc fs1 fs2 sd' now H. destruct v; cbn [verify_identity compare_faces] in *.
    + unfold verify_identity_advanced. rewrite H. reflexivity.
    + unfold verify_identity_basic. rewrite H. reflexivity.
Qed.

Lemma route_verify_quality_gate_witness :
  exists issues,
    route_verify Embedding fs_lowres "2026-01-01T00:00:00" (Some "camera.jpg") (Some "id_card.jpg") []
    = poor_quality_response issues.
Proof.
  eexists.
  exact (proj1 (route_verify_quality_gate
              (fun cam idc sd => verify_identity Embedding face_verification_service fs_lowres cam idc sd
                                   "2026-01-01T00:00:00")
              fs_lowres "camera.jpg" "id_card.jpg" [] ltac:(discriminate) ltac:(discriminate)
              eq_refl eq_refl (or_introl eq_refl))).
Defined.

(** C6 (as stated) fails: verify_identity itself runs no quality check;
    with an 80x80 camera image, which the gate rejects with LOW_RESOLUTION,
    it still succeeds, under either variant. *)
Lemma verify_identity_skips_quality_gate :
  dict_get "error_code" (validate_image_quality fs_lowres "camera.jpg") = Some (VStr "LOW_RESOLUTION") /\
  dict_get "success" (verify_identity Embedding face_verification_service fs_lowres
                        "camera.jpg" "id_card.jpg" None "2026-01-01T00:00:00") = Some (VBool true) /\
  dict_get "success" (verify_identity Heuristic face_verification_service fs_lowres
                        "camera.jpg" "id_card.jpg" None "2026-01-01T00:00:00") = Some (VBool true).
Proof. split; [reflexivity|]. split; reflexivity. Qed.

(** Extraction failures of either variant reach the comparison tagged. *)
Lemma compare_faces_camera_err (v : Variant) (tol : R) (fs : FS) (p1 p2 : string) (c : string) (m : Value) :
  extract_face_encoding v fs p1 = Err c m ->
  compare_faces v tol fs p1 p2 = compare_fail (VText "Live camera image: {message}" [m]) ("CAMERA_IMAGE_" ++ c).
Proof.
  destruct v; cbn [extract_face_encoding compare_faces].
  - destruct (extract_face_encoding_dlib fs p1) as [c' m'|[l e]] eqn:E; intros H; [|discriminate].
    injection H as <- <-. apply compare_dlib_camera_err. exact E.
  - destruct (extract_face_features fs p1) as [c' m'|f] eqn:E; intros H; [|discriminate].
    injection H as <- <-. apply compare_basic_camera_err. exact E.
Qed.

Lemma compare_faces_id_card_err (v : Variant) (tol : R) (fs : FS) (p1 p2 : string) (x : FaceRep)
    (c : string) (m : Value) :
  extract_face_encoding v fs p1 = Ok x ->
  extract_face_encoding v fs p2 = Err c m ->
  compare_faces v tol fs p1 p2 = compare_fail (VText "ID card image: {message}" [m]) ("ID_CARD_IMAGE_" ++ c).
Proof.
  destruct v; cbn [extract_face_encoding compare_faces].
  - destruct (extract_face_encoding_dlib fs p1) as [c1 m1|y] eqn:E1; intros H1; [discriminate|].
    destruct (extract_face_encoding_dlib fs p2) as [c' m'|[l e]] eqn:E2; intros H; [|discriminate].
    injection H as <- <-. apply (compare_dlib_id_card_err _ _ _ _ y); assumption.
  - destruct (extract_face_features fs p1) as [c1 m1|f] eqn:E1; intros H1; [discriminate|].
    destruct (extract_face_features fs p2) as [c' m'|g] eqn:E2; intros H; [|discriminate].
    injection H as <- <-. apply (compare_basic_id_card_err _ _ _ f); assumption.
Qed.

(** C7 (amended).  When extraction fails on the camera image, verification
    fails with the extractor's code prefixed by CAMERA_IMAGE_; when it
    succeeds on the camera image and fails on the ID card image, the code is
    prefixed by ID_CARD_IMAGE_.  The camera image is tried first. *)
Theorem verify_identity_error_prefix (v : Variant) (svc : Service) (fs : FS) (cam idc : string)
    (sd : option Dict) (now : string) :
  (forall c m, extract_face_encoding v fs cam = Err c m ->
     dict_get "success" (verify_identity v svc fs cam idc sd now) = Some (VBool false) /\
     dict_get "error_code" (verify_identity v svc fs cam idc sd now) = Some (VStr ("CAMERA_IMAGE_" ++ c))) /\
  (forall x c m, extract_face_encoding v fs cam = Ok x -> extract_face_encoding v fs idc = Err c m ->
     dict_get "success" (verify_identity v svc fs cam idc sd now) = Some (VBool false) /\
     dict_get "error_code" (verify_identity v svc fs cam idc sd now) = Some (VStr ("ID_CARD_IMAGE_" ++ c))).
Proof.
  split.
  - intros c m H. apply (verify_error_code fs cam idc sd now v svc (VText "Live camera image: {message}" [m])).
    apply compare_faces_camera_err. exact H.
  - intros x c m H1 H2. apply (verify_error_code fs cam idc sd now v svc (VText "ID card image: {message}" [m])).
    apply (compare_faces_id_card_err _ _ _ _ _ x); assumption.
Qed.

Lemma verify_identity_error_prefix_witness :
  extract_face_encoding Embedding fs_no_id_face "camera.jpg" = Ok (RepEmbedding loc30 enc_zero) /\
  exists m, extract_face_encoding Embedding fs_no_id_face "id_card.jpg" = Err "NO_FACE_DETECTED" m /\
  dict_get "error_code" (verify_identity Embedding face_verification_service fs_no_id_face
                           "camera.jpg" "id_card.jpg" None "2026-01-01T00:00:00")
  = Some (VStr ("ID_CARD_IMAGE_" ++ "NO_FACE_DETECTED")).
Proof.
  split; [reflexivity|]. eexists. split; [reflexivity|].
  apply (proj2 (verify_identity_error_prefix Embedding face_verification_service fs_no_id_face
                  "camera.jpg" "id_card.jpg" None "2026-01-01T00:00:00")
           (RepEmbedding loc30 enc_zero) "NO_FACE_DETECTED"
           (VStr "No face detected in image"));
    reflexivity.
Defined.

(** C7 (as stated) fails: a face missing from the ID card image gives
    ID_CARD_IMAGE_NO_FACE_DETECTED, not DOCUMENT_IMAGE_NO_FACE_DETECTED. *)
Lemma verify_error_prefix_not_document :
  dict_get "error_code" (verify_identity Embedding face_verification_service fs_no_id_face
                           "camera.jpg" "id_card.jpg" None "2026-01-01T00:00:00")
  = Some (VStr "ID_CARD_IMAGE_NO_FACE_DETECTED") /\
  dict_get "error_code" (verify_identity Embedding face_verification_service fs_no_id_face
                           "camera.jpg" "id_card.jpg" None "2026-01-01T00:00:00")
  <> Some (VStr "DOCUMENT_IMAGE_NO_FACE_DETECTED").
Proof.
  assert (H : dict_get "error_code" (verify_identity Embedding face_verification_service fs_no_id_face
                                       "camera.jpg" "id_card.jpg" None "2026-01-01T00:00:00")
              = Some (VStr "ID_CARD_IMAGE_NO_FACE_DETECTED")) by reflexivity.
  split; [exact H|]. rewrite H. discriminate.
Qed.

(** C8.  A successful comparison of either variant returns a confidence in
    [0, 100], and its is_match is the score compared with the threshold:
    the face distance of the two encodings against the tolerance, or the
    combined similarity of the two feature sets against 0.4. *)
Theorem compare_faces_confidence_range (v : Variant) (tol : R) (fs : FS) (p1 p2 : string) :
  dict_get "success" (compare_faces v tol fs p1 p2) = Some (VBool true) ->
  exists c, dict_get "confidence" (compare_faces v tol fs p1 p2) = Some (VNum c) /\ 0 <= c <= 100 /\
  match v with
  | Embedding =>
      exists l1 e1 l2 e2,
        extract_face_encoding v fs p1 = Ok (RepEmbedding l1 e1) /\
        extract_face_encoding v fs p2 = Ok (RepEmbedding l2 e2) /\
        dict_get "is_match" (compare_faces v tol fs p1 p2) = Some (VNpBool (Rle_bool (face_distance e1 e2) tol))
  | Heuristic =>
      exists f1 f2,
        extract_face_encoding v fs p1 = Ok (RepHeuristic f1) /\
        extract_face_encoding v fs p2 = Ok (RepHeuristic f2) /\
        dict_get "is_match" (compare_faces v tol fs p1 p2)
        = Some (VBool (Rge_bool (combined_similarity f1 f2) basic_threshold))
  end.
Proof.
  destruct v; cbn [compare_faces extract_face_encoding]; intros Hs.
  - destruct (compare_dlib_success_inv tol fs p1 p2 Hs) as (l1 & e1 & l2 & e2 & H1 & H2).
    destruct (compare_dlib_ok tol fs p1 p2 l1 l2 e1 e2 H1 H2) as (_ & Hm & Hc & _).
    eexists. split; [exact Hc|]. split.
    + apply py_round2_range, embedding_confidence_range, face_distance_nonneg.
    + exists l1, e1, l2, e2. rewrite H1, H2. repeat split; assumption.
  - destruct (compare_basic_success_inv fs p1 p2 Hs) as (f1 & f2 & H1 & H2).
    destruct (compare_basic_ok fs p1 p2 f1 f2 H1 H2) as (_ & Hm & Hc & _).
    eexists. split; [exact Hc|]. split.
    + apply py_round2_range, clamp_range.
    + exists f1, f2. rewrite H1, H2. repeat split; assumption.
Qed.

Lemma compare_faces_confidence_range_witness :
  dict_get "success" (compare_faces Embedding 0.6 (fs_pair enc_zero enc_near) "camera.jpg" "id_card.jpg")
  = Some (VBool true) /\
  exists c, dict_get "confidence" (compare_faces Embedding 0.6 (fs_pair enc_zero enc_near) "camera.jpg" "id_card.jpg")
            = Some (VNum c) /\ 0 <= c <= 100.
Proof.
  split; [reflexivity|].
  destruct (compare_faces_confidence_range Embedding 0.6 (fs_pair enc_zero enc_near) "camera.jpg" "id_card.jpg"
              eq_refl) as (c & Hc & Hr & _).
  exists c. split; assumption.
Defined.

(** C9.  When comparing A with B succeeds, comparing B with A succeeds too
    and yields the same score (face distance, or similarity score), the same
    confidence and the same is_match, under both variants; in the real-number
    model the scores agree exactly. *)
Theorem compare_faces_symmetric (v : Variant) (tol : R) (fs : FS) (p1 p2 : string) :
  dict_get "success" (compare_faces v tol fs p1 p2) = Some (VBool true) ->
  let score := match v with Embedding => "face_distance" | Heuristic => "similarity_score" end in
  dict_get "success" (compare_faces v tol fs p2 p1) = Some (VBool true) /\
  dict_get score (compare_faces v tol fs p1 p2) = dict_get score (compare_faces v tol fs p2 p1) /\
  dict_get "confidence" (compare_faces v tol fs p1 p2) = dict_get "confidence" (compare_faces v tol fs p2 p1) /\
  dict_get "is_match" (compare_faces v tol fs p1 p2) = dict_get "is_match" (compare_faces v tol fs p2 p1).
Proof.
  destruct v; cbn [compare_faces]; intros Hs; cbv zeta.
  - destruct (compare_dlib_success_inv tol fs p1 p2 Hs) as (l1 & e1 & l2 & e2 & H1 & H2).
    destruct (compare_dlib_ok tol fs p1 p2 l1 l2 e1 e2 H1 H2) as (_ & Hm & Hc & Hd & _).
    destruct (compare_dlib_ok tol fs p2 p1 l2 l1 e2 e1 H2 H1) as (Hs' & Hm' & Hc' & Hd' & _).
    rewrite Hm, Hc, Hd, Hm', Hc', Hd', (face_distance_sym e2 e1). repeat split; assumption.
  - destruct (compare_basic_success_inv fs p1 p2 Hs) as (f1 & f2 & H1 & H2).
    destruct (compare_basic_ok fs p1 p2 f1 f2 H1 H2) as (_ & Hm & Hc & Hd & _).
    destruct (compare_basic_ok fs p2 p1 f2 f1 H2 H1) as (Hs' & Hm' & Hc' & Hd' & _).
    rewrite Hm, Hc, Hd, Hm', Hc', Hd', (combined_similarity_sym f2 f1).
    + repeat split; assumption.
    + rewrite (extract_features_hist_length _ _ _ H1), (extract_features_hist_length _ _ _ H2). reflexivity.
Qed.

Lemma compare_faces_symmetric_witness :
  dict_get "success" (compare_faces Heuristic 0.6 fs_flat "camera.jpg" "id_card.jpg") = Some (VBool true) /\
  dict_get "similarity_score" (compare_faces Heuristic 0.6 fs_flat "camera.jpg" "id_card.jpg")
  = dict_get "similarity_score" (compare_faces Heuristic 0.6 fs_flat "id_card.jpg" "camera.jpg").
Proof.
  split; [reflexivity|].
  apply (compare_faces_symmetric Heuristic 0.6 fs_flat "camera.jpg" "id_card.jpg"). reflexivity.
Defined.

(** C10.  A successful fallback verification record has a similarity_score
    and no face_distance, so the success branch of the /verify route, which
    reads [verification_result["face_distance"]], raises on it and the route
    answers with VERIFICATION_EXCEPTION; a successful embedding record has a
    face_distance. *)
Theorem verify_record_shapes (svc : Service) (fs : FS) (cam idc : string) (sd : option Dict) (now : string) :
  (dict_get "success" (verify_identity Heuristic svc fs cam idc sd now) = Some (VBool true) ->
   (exists s, dict_get "similarity_score" (verify_identity Heuristic svc fs cam idc sd now) = Some s) /\
   dict_get "face_distance" (verify_identity Heuristic svc fs cam idc sd now) = None /\
   forall sd' cq iq, verify_success_response (verify_identity Heuristic svc fs cam idc sd now) sd' cam idc cq iq
                     = None) /\
  (dict_get "success" (verify_identity Embedding svc fs cam idc sd now) = Some (VBool true) ->
   exists d, dict_get "face_distance" (verify_identity Embedding svc fs cam idc sd now) = Some d).
Proof.
  split; cbn [verify_identity]; intros Hs.
  - destruct (verify_basic_success_inv fs cam idc sd now Hs) as (f1 & f2 & H1 & H2).
    destruct (verify_basic_ok fs cam idc sd now f1 f2 H1 H2) as (_ & _ & _ & Hsc & Hfd).
    split; [eexists; exact Hsc|]. split; [exact Hfd|].
    intros sd' cq iq. unfold verify_success_response.
    destruct (dict_get "result" (verify_identity_basic fs cam idc sd now)); [|reflexivity].
    destruct (dict_get "confidence" (verify_identity_basic fs cam idc sd now)); [|reflexivity].
    destruct (dict_get "is_match" (verify_identity_basic fs cam idc sd now)); [|reflexivity].
    rewrite Hfd. reflexivity.
  - destruct (verify_advanced_success_inv fs cam idc sd now _ Hs) as (l1 & e1 & l2 & e2 & H1 & H2).
    destruct (verify_advanced_ok fs cam idc sd now (tolerance svc) l1 l2 e1 e2 H1 H2) as (_ & _ & _ & Hfd).
    eexists; exact Hfd.
Qed.

(** On a successful fallback verification that passed the quality gate, the
    /verify route answers 500 with VERIFICATION_EXCEPTION. *)
Lemma route_verify_fallback_success (fs : FS) (now : string) (cam idc : string) (sd : Dict) :
  cam <> "" -> idc <> "" -> path_exists fs cam = true -> path_exists fs idc = true ->
  quality_issues (validate_image_quality fs cam) (validate_image_quality fs idc) = Some [] ->
  dict_get "success" (verify_identity Heuristic face_verification_service fs cam idc (Some sd) now)
  = Some (VBool true) ->
  route_verify Heuristic fs now (Some cam) (Some idc) sd = verify_exception_response.
Proof.
  intros Hc Hi Hp1 Hp2 Hq Hs.
  destruct cam as [|a s]; [congruence|]. destruct idc as [|b t]; [congruence|].
  unfold route_verify, route_verify_with. cbv beta iota. rewrite Hp1, Hp2. cbn [negb].
  rewrite Hq. cbv beta iota zeta. rewrite Hs. cbn [truthy].
  destruct (verify_basic_success_inv fs (String a s) (String b t) (Some sd) now Hs) as (f1 & f2 & H1 & H2).
  destruct (verify_basic_ok fs (String a s) (String b t) (Some sd) now f1 f2 H1 H2) as (_ & _ & _ & _ & Hfd).
  unfold verify_success_response. cbn [verify_identity] in *.
  destruct (dict_get "result" (verify_identity_basic fs (String a s) (String b t) (Some sd) now)); [|reflexivity].
  destruct (dict_get "confidence" (verify_identity_basic fs (String a s) (String b t) (Some sd) now)); [|reflexivity].
  destruct (dict_get "is_match" (verify_identity_basic fs (String a s) (String b t) (Some sd) now)); [|reflexivity].
  rewrite Hfd. reflexivity.
Qed.

Lemma verify_record_shapes_witness :
  dict_get "success" (verify_identity Heuristic face_verification_service fs_flat
                        "camera.jpg" "id_card.jpg" None "2026-01-01T00:00:00") = Some (VBool true) /\
  dict_get "face_distance" (verify_identity Heuristic face_verification_service fs_flat
                              "camera.jpg" "id_card.jpg" None "2026-01-01T00:00:00") = None.
Proof.
  split; [reflexivity|].
  apply (proj1 (verify_record_shapes face_verification_service fs_flat "camera.jpg" "id_card.jpg" None
                  "2026-01-01T00:00:00")). reflexivity.
Defined.

(* ================================================================== *)
(** * Further properties of the services and routes *)

(** ** Helpers *)

Lemma compare_success_response_none (r : Dict) :
  dict_get "face_distance" r = None -> compare_success_response r = None.
Proof.
  intros H. unfold compare_success_response.
  destruct (dict_get "message" r); [|reflexivity].
  destruct (dict_get "result" r); [|reflexivity].
  destruct (dict_get "is_match" r); [|reflexivity].
  destruct (dict_get "confidence" r); [|reflexivity].
  rewrite H. reflexivity.
Qed.

Lemma json_ok_dict_false (k : string) (v : Value) (d : Dict) :
  In (k, v) d -> json_ok v = false -> json_ok (VDict d) = false.
Proof.
  intros Hin Hv. cbn [json_ok]. apply Bool.not_true_iff_false. intros H.
  rewrite forallb_forall in H. specialize (H _ Hin). cbn [snd] in H. congruence.
Qed.

Lemma jsonify_none (status : Z) (d : Dict) (k : string) (v : Value) :
  In (k, v) d -> json_ok v = false -> jsonify (status, d) = None.
Proof.
  intros Hin Hv. unfold jsonify. cbn [snd].
  destruct (forallb (fun kv => json_ok (snd kv)) d) eqn:H; [|reflexivity].
  rewrite forallb_forall in H. specialize (H _ Hin). cbn [snd] in H. congruence.
Qed.

(** A record whose is_match is a numpy.bool_ never gets through the
    success branches of the routes. *)
Lemma compare_success_response_npbool (r : Dict) (b : bool) :
  dict_get "is_match" r = Some (VNpBool b) -> compare_success_response r = None.
Proof.
  intros H. unfold compare_success_response.
  destruct (dict_get "message" r); [|reflexivity].
  destruct (dict_get "result" r); [|reflexivity].
  rewrite H.
  destruct (dict_get "confidence" r); [|reflexivity].
  destruct (dict_get "face_distance" r); [|reflexivity].
  destruct (dict_get "tolerance_used" r); [|reflexivity].
  destruct (dict_get "details" r); [|reflexivity].
  eapply (jsonify_none 200 _ "data"); [right; right; left; reflexivity|].
  eapply (json_ok_dict_false "is_match"); [right; left; reflexivity|reflexivity].
Qed.

Lemma verify_success_response_npbool (r sd : Dict) (cam idc : string) (cq iq : Dict) (b : bool) :
  dict_get "is_match" r = Some (VNpBool b) -> verify_success_response r sd cam idc cq iq = None.
Proof.
  intros H. unfold verify_success_response.
  destruct (dict_get "result" r); [|reflexivity].
  destruct (dict_get "confidence" r); [|reflexivity].
  rewrite H.
  destruct (dict_get "face_distance" r); [|reflexivity].
  destruct (get_dict "verification_details" r); [|reflexivity].
  destruct (dict_get "tolerance_used" _); [|reflexivity].
  destruct (dict_get "timestamp" _); [|reflexivity].
  destruct (dict_get "valid" cq) as [cv|]; [|reflexivity].
  destruct (if truthy cv then dict_get "details" cq else Some VNone); [|reflexivity].
  destruct (dict_get "valid" iq) as [iv|]; [|reflexivity].
  destruct (if truthy iv then dict_get "details" iq else Some VNone); [|reflexivity].
  destruct (dict_get "message" r); [|reflexivity].
  eapply (jsonify_none 200 _ "data"); [right; right; left; reflexivity|].
  eapply (json_ok_dict_false "verification_details"); [right; right; right; left; reflexivity|].
  reflexivity.
Qed.

(** The success branch of /compare-faces never completes: the embedding
    record's is_match is a numpy.bool_, the fallback record has no
    face_distance, and a failure record has neither result nor is_match. *)
Lemma compare_success_response_never (v : Variant) (tol : R) (fs : FS) (p1 p2 : string) :
  compare_success_response (compare_faces v tol fs p1 p2) = None.
Proof.
  destruct v; cbn [compare_faces].
  - unfold compare_faces_dlib.
    destruct (extract_face_encoding_dlib fs p1) as [c1 m1|[l1 e1]];
    [reflexivity|destruct (extract_face_encoding_dlib fs p2) as [c2 m2|[l2 e2]]; [reflexivity|]].
    apply (compare_success_response_npbool _ (Rle_bool (face_distance e1 e2) tol)). reflexivity.
  - unfold compare_faces_basic.
    destruct (extract_face_features fs p1) as [c1 m1|f1];
    [reflexivity|destruct (extract_face_features fs p2) as [c2 m2|f2]; reflexivity].
Qed.

Lemma verify_success_response_never (v : Variant) (svc : Service) (fs : FS) (cam idc : string)
    (sd : option Dict) (now : string) (sd' : Dict) (cam' idc' : string) (cq iq : Dict) :
  verify_success_response (verify_identity v svc fs cam idc sd now) sd' cam' idc' cq iq = None.
Proof.
  destruct v; cbn [verify_identity].
  - unfold verify_identity_advanced, compare_faces_dlib.
    destruct (extract_face_encoding_dlib fs cam) as [c1 m1|[l1 e1]];
    [reflexivity|destruct (extract_face_encoding_dlib fs idc) as [c2 m2|[l2 e2]]; [reflexivity|]].
    apply (verify_success_response_npbool _ _ _ _ _ _ (Rle_bool (face_distance e1 e2) (tolerance svc))).
    reflexivity.
  - unfold verify_identity_basic, compare_faces_basic.
    destruct (extract_face_features fs cam) as [c1 m1|f1];
    [reflexivity|destruct (extract_face_features fs idc) as [c2 m2|f2]; reflexivity].
Qed.

Lemma quality_issues_valid (cq iq : Dict) :
  dict_get "valid" cq = Some (VBool true) -> dict_get "valid" iq = Some (VBool true) ->
  quality_issues cq iq = Some [].
Proof. intros H1 H2. unfold quality_issues. rewrite H1, H2. reflexivity. Qed.

Lemma verify_identity_compare_fail (v : Variant) (svc : Service) (fs : FS) (cam idc : string)
    (sd : option Dict) (now : string) (msg : Value) (code : string) :
  compare_faces v (tolerance svc) fs cam idc = compare_fail msg code ->
  verify_identity v svc fs cam idc sd now =
  [("success", VBool false); ("result", VStr "Verification Failed"); ("confidence", VNum 0);
   ("message", msg); ("error_code", VStr code); ("student_details", VDict (or_empty sd))].
Proof.
  destruct v; cbn [verify_identity compare_faces]; intros H.
  - unfold verify_identity_advanced. rewrite H. reflexivity.
  - unfold verify_identity_basic. rewrite H. reflexivity.
Qed.

Lemma extract_exists (v : Variant) (fs : FS) (p : string) (r : FaceRep) :
  extract_face_encoding v fs p = Ok r -> path_exists fs p = true.
Proof.
  destruct v; cbn [extract_face_encoding];
    unfold extract_face_encoding_dlib, extract_face_features;
    destruct (path_exists fs p); [reflexivity| |reflexivity|]; cbn; discriminate.
Qed.

Lemma nonempty_string (p : string) : p <> "" -> String.eqb p "" = false.
Proof. intros H. apply String.eqb_neq. exact H. Qed.

(** Opens the /compare-faces route on two present, existing paths. *)
Ltac open_compare_route H1 H2 Hp1 Hp2 :=
  unfold route_compare_faces, route_compare_faces_with; cbv beta iota zeta;
  rewrite (nonempty_string _ H1), (nonempty_string _ H2); cbn [orb];
  rewrite Hp1, Hp2; cbn [negb].

(** Opens the /verify route on two present, existing paths of good quality. *)
Ltac open_verify_route Hc Hi Hp1 Hp2 Hq :=
  let a := fresh "a" in let s := fresh "s" in let b := fresh "b" in let t := fresh "t" in
  match goal with |- context [route_verify _ _ _ (Some ?cam) (Some ?idc) _] =>
    destruct cam as [|a s]; [congruence|]; destruct idc as [|b t]; [congruence|] end;
  unfold route_verify, route_verify_with; cbv beta iota; rewrite Hp1, Hp2; cbn [negb];
  rewrite Hq; cbv beta iota zeta.

Lemma hist_sq_identity (h : list R) (m : R) :
  sum_list (map (fun x => (x - m) ^ 2) h) = sum_prod h h - 2 * m * sum_list h + INR (length h) * (m * m).
Proof.
  induction h as [|x h IH].
  - unfold sum_prod; simpl. ring.
  - unfold sum_prod in *. cbn [map combine fst snd length]. unfold sum_list in *. cbn [fold_right].
    rewrite IH, S_INR. ring.
Qed.

Lemma sum_list_nonneg (l : list R) : (forall x, In x l -> 0 <= x) -> 0 <= sum_list l.
Proof.
  induction l as [|x l IH]; intros H; unfold sum_list in *; simpl; [lra|].
  pose proof (H x (or_introl eq_refl)). pose proof (IH (fun y Hy => H y (or_intror Hy))). lra.
Qed.

(** [compareHist(h, h, CORREL)] is 1: either the variance term is positive
    and the quotient is 1, or the DBL_EPSILON fallback applies. *)
Lemma compare_hist_correl_self (h : list R) : compare_hist_correl h h = 1.
Proof.
  unfold compare_hist_correl; cbv zeta.
  set (n := sum_prod h h - sum_list h * sum_list h * / INR (length h)).
  destruct (Rlt_dec DBL_EPSILON (Rabs (n * n))) as [Hlt|]; [|reflexivity].
  assert (Hn : 0 <= n).
  { destruct (length h) as [|k] eqn:Hl.
    - destruct h; [|discriminate]. unfold n, sum_prod; simpl. rewrite Rinv_0. unfold sum_list; simpl. lra.
    - pose proof (hist_sq_identity h (sum_list h / INR (length h))) as Hid.
      rewrite Hl in Hid.
      assert (HS : INR (S k) <> 0) by (apply not_0_INR; discriminate).
      assert (Hs : 0 <= sum_list (map (fun x => (x - sum_list h / INR (S k)) ^ 2) h)).
      { apply sum_list_nonneg. intros y Hy. apply in_map_iff in Hy as (x & <- & _). apply pow2_ge_0. }
      unfold n.
      replace (sum_prod h h - sum_list h * sum_list h * / INR (S k))
        with (sum_list (map (fun x => (x - sum_list h / INR (S k)) ^ 2) h)); [exact Hs|].
      rewrite Hid. field. exact HS. }
  assert (Hn0 : n <> 0).
  { intros E. rewrite E in Hlt. rewrite Rmult_0_l, Rabs_R0 in Hlt. unfold DBL_EPSILON in Hlt.
    pose proof (pow_lt 2 52 ltac:(lra)). pose proof (Rinv_0_lt_compat (2 ^ 52) H). lra. }
  rewrite sqrt_square by exact Hn. field. exact Hn0.
Qed.

Lemma combined_similarity_self (f : Features) :
  IZR (face_area f) <> 0 -> combined_similarity f f = 1.
Proof.
  intros Ha. unfold combined_similarity, hist_correlation, intensity_similarity, ratio_similarity, size_ratio.
  rewrite compare_hist_correl_self, !Rminus_diag, Rabs_R0.
  unfold Rmax, Rmin, weight_histogram, weight_intensity, weight_ratio, weight_size.
  set (a := IZR (face_area f)).
  destruct (Rle_dec a a); [|lra].
  replace (a / a) with 1 by (field; exact Ha).
  repeat destruct (Rle_dec _ _); lra.
Qed.

Lemma extract_features_area (fs : FS) (p : string) (f : Features) :
  extract_face_features fs p = Ok f -> IZR (face_area f) <> 0.
Proof.
  intros H. destruct (extract_features_ok _ _ _ H) as (g & b & ->).
  unfold face_features; cbn [face_area]. apply not_0_IZR. discriminate.
Qed.

(** ** An image that passes the quality gate *)

(** The quality statistics in integer arithmetic. *)
Definition px_Z (g : list (list Z)) (i j : Z) : Z := nth (Z.to_nat j) (nth (Z.to_nat i) g []) 0%Z.

Definition laplacian_at_Z (g : list (list Z)) (i j : Z) : Z :=
  let h := Z.of_nat (img_height g) in
  let w := Z.of_nat (img_width g) in
  (px_Z g (reflect101 h (i - 1)) j + px_Z g (reflect101 h (i + 1)) j
   + px_Z g i (reflect101 w (j - 1)) + px_Z g i (reflect101 w (j + 1))
   - 4 * px_Z g i j)%Z.

Definition laplacian_Z (g : list (list Z)) : list Z :=
  flat_map (fun i => map (fun j => laplacian_at_Z g (Z.of_nat i) (Z.of_nat j)) (seq 0 (img_width g)))
           (seq 0 (img_height g)).

Definition sum_Z (l : list Z) : Z := fold_right Z.add 0%Z l.

(** Horizontal stripes of gray levels 100 and 140, 100x100 pixels. *)
Definition stripes : list (list Z) :=
  map (fun i => repeat (if Nat.even i then 100 else 140)%Z 100) (seq 0 100).

Lemma sum_list_map_IZR (l : list Z) : sum_list (map IZR l) = IZR (sum_Z l).
Proof.
  induction l as [|x l IH]; [reflexivity|].
  unfold sum_list, sum_Z in *. cbn [map fold_right]. rewrite IH, plus_IZR. reflexivity.
Qed.

Lemma laplacian_IZR (g : list (list Z)) : laplacian g = map IZR (laplacian_Z g).
Proof.
  unfold laplacian, laplacian_Z. rewrite flat_map_concat_map, flat_map_concat_map, concat_map, map_map.
  f_equal. apply map_ext. intros i. rewrite map_map. apply map_ext. intros j.
  unfold laplacian_at, laplacian_at_Z, px, px_Z. cbv zeta.
  rewrite minus_IZR, !plus_IZR, mult_IZR. reflexivity.
Qed.

Lemma np_mean_IZR (l : list Z) : np_mean (map IZR l) = IZR (sum_Z l) / IZR (Z.of_nat (length l)).
Proof. unfold np_mean. rewrite sum_list_map_IZR, length_map, INR_IZR_INZ. reflexivity. Qed.

Lemma np_var_IZR (l : list Z) :
  sum_Z l = 0%Z ->
  np_var (map IZR l) = IZR (sum_Z (map (fun x => (x * x)%Z) l)) / IZR (Z.of_nat (length l)).
Proof.
  intros H0. unfold np_var. rewrite np_mean_IZR, H0.
  replace (IZR 0 / IZR (Z.of_nat (length l))) with 0 by (unfold Rdiv; ring).
  rewrite map_map.
  replace (map (fun x => (IZR x - 0) ^ 2) l) with (map IZR (map (fun x => (x * x)%Z) l)).
  - rewrite np_mean_IZR, !length_map. reflexivity.
  - rewrite map_map. apply map_ext. intros x. rewrite mult_IZR. ring.
Qed.

Lemma brightness_stripes : brightness stripes = 120.
Proof.
  unfold brightness, pixels. rewrite np_mean_IZR.
  replace (sum_Z (concat stripes)) with 1200000%Z by (vm_compute; reflexivity).
  replace (Z.of_nat (length (concat stripes))) with 10000%Z by (vm_compute; reflexivity).
  lra.
Qed.

Lemma laplacian_var_stripes : laplacian_var stripes = 6400.
Proof.
  unfold laplacian_var. rewrite laplacian_IZR, np_var_IZR by (vm_compute; reflexivity).
  replace (sum_Z (map (fun x => (x * x)%Z) (laplacian_Z stripes))) with 64000000%Z by (vm_compute; reflexivity).
  replace (Z.of_nat (length (laplacian_Z stripes))) with 10000%Z by (vm_compute; reflexivity).
  lra.
Qed.

Lemma validate_stripes (fs : FS) (p : string) (bs : list Box) (hs : list (Location * Encoding)) :
  fs p = photo stripes bs hs ->
  validate_image_quality fs p =
  [("valid", VBool true); ("message", VStr "Image quality is acceptable for face recognition");
   ("details", VDict [("resolution", VText "{width}x{height}" [VNum (INR 100); VNum (INR 100)]);
                      ("brightness", VNum (py_round 120 2));
                      ("sharpness", VNum (py_round 6400 2))])].
Proof.
  intros H. unfold validate_image_quality, imread. rewrite H. unfold photo. cbv beta iota zeta. cbn [gray].
  replace (img_height stripes) with 100%nat by (vm_compute; reflexivity).
  replace (img_width stripes) with 100%nat by (vm_compute; reflexivity).
  rewrite brightness_stripes, laplacian_var_stripes.
  rewrite Rlt_bool_false, Rlt_bool_false, Rlt_bool_false by lra. reflexivity.
Qed.

(** Two images of good quality: the camera image shows no face to either
    detector, the ID card image one face. *)
Definition fs_good_no_cam_face : FS :=
  two_files (photo stripes [] []) (photo stripes [box30] [(loc30, enc_zero)]).

(** Two images of good quality with one face each. *)
Definition fs_good_pair : FS :=
  two_files (photo stripes [box30] [(loc30, enc_zero)]) (photo stripes [box30] [(loc30, enc_near)]).

Lemma validate_stripes_valid (fs : FS) (p : string) (bs : list Box) (hs : list (Location * Encoding)) :
  fs p = photo stripes bs hs -> dict_get "valid" (validate_image_quality fs p) = Some (VBool true).
Proof. intros H. rewrite (validate_stripes fs p bs hs H). reflexivity. Qed.

(** ** The /compare-faces route *)

(** The /compare-faces route on two present, existing images under the
    fallback variant: every successful comparison ends in a 500
    COMPARISON_EXCEPTION, since the success branch reads
    [comparison_result["face_distance"]], which compare_faces_basic does not
    set. *)
Theorem route_compare_faces_fallback_success (fs : FS) (p1 p2 : string) :
  p1 <> "" -> p2 <> "" -> path_exists fs p1 = true -> path_exists fs p2 = true ->
  dict_get "success" (compare_faces Heuristic (tolerance face_verification_service) fs p1 p2) = Some (VBool true) ->
  route_compare_faces Heuristic fs (Some p1) (Some p2) = compare_exception_response.
Proof.
  intros H1 H2 Hp1 Hp2 Hs. open_compare_route H1 H2 Hp1 Hp2.
  rewrite Hs. cbn [truthy].
  cbn [compare_faces] in Hs. destruct (compare_basic_success_inv fs p1 p2 Hs) as (f1 & f2 & E1 & E2).
  destruct (compare_basic_ok fs p1 p2 f1 f2 E1 E2) as (_ & _ & _ & _ & Hfd & _).
  cbn [compare_faces]. rewrite (compare_success_response_none _ Hfd). reflexivity.
Qed.

Lemma route_compare_faces_fallback_success_witness :
  route_compare_faces Heuristic fs_flat (Some "camera.jpg") (Some "id_card.jpg") = compare_exception_response.
Proof.
  apply (route_compare_faces_fallback_success fs_flat "camera.jpg" "id_card.jpg");
    [discriminate|discriminate|reflexivity|reflexivity|reflexivity].
Defined.

(** The /compare-faces route under the embedding variant, when both images
    yield one encoding: the comparison succeeds, but its is_match is a
    numpy.bool_ ([face_distance <= self.tolerance] on a numpy.float64), on
    which [jsonify] raises TypeError, so the route answers 500
    COMPARISON_EXCEPTION. *)
Theorem route_compare_faces_embedding_success (fs : FS) (p1 p2 : string)
    (l1 l2 : Location) (e1 e2 : Encoding) :
  p1 <> "" -> p2 <> "" ->
  extract_face_encoding Embedding fs p1 = Ok (RepEmbedding l1 e1) ->
  extract_face_encoding Embedding fs p2 = Ok (RepEmbedding l2 e2) ->
  dict_get "success" (compare_faces Embedding (tolerance face_verification_service) fs p1 p2) = Some (VBool true) /\
  dict_get "is_match" (compare_faces Embedding (tolerance face_verification_service) fs p1 p2)
  = Some (VNpBool (Rle_bool (face_distance e1 e2) 0.6)) /\
  route_compare_faces Embedding fs (Some p1) (Some p2) = compare_exception_response.
Proof.
  intros H1 H2 E1 E2.
  pose proof (extract_exists _ _ _ _ E1) as Hp1. pose proof (extract_exists _ _ _ _ E2) as Hp2.
  apply extract_embedding_inv in E1, E2.
  assert (Hs : dict_get "success" (compare_faces Embedding (tolerance face_verification_service) fs p1 p2)
               = Some (VBool true)).
  { cbn [compare_faces]. unfold compare_faces_dlib. rewrite E1, E2. reflexivity. }
  split; [exact Hs|]. split.
  - cbn [compare_faces]. unfold compare_faces_dlib. rewrite E1, E2. reflexivity.
  - open_compare_route H1 H2 Hp1 Hp2. rewrite Hs. cbn [truthy].
    rewrite compare_success_response_never. reflexivity.
Qed.

Lemma route_compare_faces_embedding_success_witness :
  route_compare_faces Embedding (fs_pair enc_zero enc_near) (Some "camera.jpg") (Some "id_card.jpg")
  = compare_exception_response.
Proof.
  exact (proj2 (proj2 (route_compare_faces_embedding_success (fs_pair enc_zero enc_near) "camera.jpg" "id_card.jpg"
              loc30 loc30 enc_zero enc_near ltac:(discriminate) ltac:(discriminate) eq_refl eq_refl))).
Defined.

(** The /compare-faces route on two present, existing images, under either
    variant: when extraction fails on the first image the route answers 400
    with CAMERA_IMAGE_<code>; when it succeeds on the first and fails on the
    second, 400 with ID_CARD_IMAGE_<code>. *)
Theorem route_compare_faces_extraction_error (v : Variant) (fs : FS) (p1 p2 : string) :
  p1 <> "" -> p2 <> "" -> path_exists fs p1 = true -> path_exists fs p2 = true ->
  (forall c m, extract_face_encoding v fs p1 = Err c m ->
     route_compare_faces v fs (Some p1) (Some p2)
     = (400%Z, [("status", VStr "error"); ("message", VText "Live camera image: {message}" [m]);
                ("error_code", VStr ("CAMERA_IMAGE_" ++ c))])) /\
  (forall x c m, extract_face_encoding v fs p1 = Ok x -> extract_face_encoding v fs p2 = Err c m ->
     route_compare_faces v fs (Some p1) (Some p2)
     = (400%Z, [("status", VStr "error"); ("message", VText "ID card image: {message}" [m]);
                ("error_code", VStr ("ID_CARD_IMAGE_" ++ c))])).
Proof.
  intros H1 H2 Hp1 Hp2. split.
  - intros c m E. open_compare_route H1 H2 Hp1 Hp2.
    rewrite (compare_faces_camera_err v _ fs p1 p2 c m E). reflexivity.
  - intros x c m E1 E2. open_compare_route H1 H2 Hp1 Hp2.
    rewrite (compare_faces_id_card_err v _ fs p1 p2 x c m E1 E2). reflexivity.
Qed.

Lemma route_compare_faces_extraction_error_witness :
  route_compare_faces Embedding fs_no_id_face (Some "camera.jpg") (Some "id_card.jpg")
  = (400%Z, [("status", VStr "error"); ("message", VText "ID card image: {message}" [VStr "No face detected in image"]);
             ("error_code", VStr ("ID_CARD_IMAGE_" ++ "NO_FACE_DETECTED"))]).
Proof.
  apply (proj2 (route_compare_faces_extraction_error Embedding fs_no_id_face "camera.jpg" "id_card.jpg"
                  ltac:(discriminate) ltac:(discriminate) eq_refl eq_refl)
           (RepEmbedding loc30 enc_zero)); reflexivity.
Defined.

(** ** The /verify route after the quality gate *)

(** When both images pass the quality gate and extraction fails on one of
    them, the /verify route answers 400 with the comparison's message and
    prefixed error code, a "Verification Failed" result and 0% confidence. *)
Theorem route_verify_extraction_error (v : Variant) (fs : FS) (now cam idc : string) (sd : Dict) :
  cam <> "" -> idc <> "" -> path_exists fs cam = true -> path_exists fs idc = true ->
  dict_get "valid" (validate_image_quality fs cam) = Some (VBool true) ->
  dict_get "valid" (validate_image_quality fs idc) = Some (VBool true) ->
  let failed msg code :=
    (400%Z, [("status", VStr "error"); ("message", msg); ("error_code", VStr code);
             ("data", VDict [("result", VStr "Verification Failed"); ("confidence", VStr "0%");
                             ("student_details", VDict sd)])]) in
  (forall c m, extract_face_encoding v fs cam = Err c m ->
     route_verify v fs now (Some cam) (Some idc) sd
     = failed (VText "Live camera image: {message}" [m]) ("CAMERA_IMAGE_" ++ c)) /\
  (forall x c m, extract_face_encoding v fs cam = Ok x -> extract_face_encoding v fs idc = Err c m ->
     route_verify v fs now (Some cam) (Some idc) sd
     = failed (VText "ID card image: {message}" [m]) ("ID_CARD_IMAGE_" ++ c)).
Proof.
  intros Hc Hi Hp1 Hp2 Hv1 Hv2. pose proof (quality_issues_valid _ _ Hv1 Hv2) as Hq. cbv zeta. split.
  - intros c m E. open_verify_route Hc Hi Hp1 Hp2 Hq.
    rewrite (verify_identity_compare_fail v face_verification_service fs _ _ (Some sd) now _ _
               (compare_faces_camera_err v _ fs _ _ c m E)).
    reflexivity.
  - intros x c m E1 E2. open_verify_route Hc Hi Hp1 Hp2 Hq.
    rewrite (verify_identity_compare_fail v face_verification_service fs _ _ (Some sd) now _ _
               (compare_faces_id_card_err v _ fs _ _ x c m E1 E2)).
    reflexivity.
Qed.

Lemma route_verify_extraction_error_witness :
  route_verify Embedding fs_good_no_cam_face "2026-10-15T00:00:00" (Some "camera.jpg") (Some "id_card.jpg") []
  = (400%Z, [("status", VStr "error");
             ("message", VText "Live camera image: {message}" [VStr "No face detected in image"]);
             ("error_code", VStr ("CAMERA_IMAGE_" ++ "NO_FACE_DETECTED"));
             ("data", VDict [("result", VStr "Verification Failed"); ("confidence", VStr "0%");
                             ("student_details", VDict [])])]).
Proof.
  apply (proj1 (route_verify_extraction_error Embedding fs_good_no_cam_face "2026-10-15T00:00:00"
                  "camera.jpg" "id_card.jpg" [] ltac:(discriminate) ltac:(discriminate) eq_refl eq_refl
                  (validate_stripes_valid fs_good_no_cam_face "camera.jpg" [] [] eq_refl)
                  (validate_stripes_valid fs_good_no_cam_face "id_card.jpg" [box30] [(loc30, enc_zero)] eq_refl))).
  reflexivity.
Defined.

(** ** Representation extraction *)

(** Under either variant, extraction fails with FILE_NOT_FOUND exactly when
    the path does not exist: no later stage produces that code. *)
Theorem extract_file_not_found (v : Variant) (fs : FS) (p : string) :
  (exists m, extract_face_encoding v fs p = Err "FILE_NOT_FOUND" m) <-> path_exists fs p = false.
Proof.
  destruct v; cbn [extract_face_encoding];
    unfold extract_face_encoding_dlib, extract_face_features, detect_faces_dlib, detect_faces_opencv,
      imread, path_exists;
    destruct (fs p) as [|[d|]]; cbn [negb];
    (split; [intros (m & H) | intros H]); try discriminate; try (eexists; reflexivity); try reflexivity.
  - destruct (hog_faces d) as [|[l e] [|f l']]; cbn in H; discriminate.
  - destruct (cascade_faces d) as [|b [|b' l']]; cbn in H; discriminate.
Qed.

(** An existing file that cannot be decoded: the embedding variant fails in
    its detector with DLIB_DETECTION_ERROR, the fallback with
    IMAGE_READ_ERROR. *)
Theorem extract_unreadable (fs : FS) (p : string) :
  fs p = File None ->
  extract_face_encoding Embedding fs p = Err "DLIB_DETECTION_ERROR" (VText "Face detection failed: {e}" []) /\
  extract_face_encoding Heuristic fs p = Err "IMAGE_READ_ERROR" (VStr "Could not read image file").
Proof.
  intros H. cbn [extract_face_encoding].
  unfold extract_face_encoding_dlib, extract_face_features, detect_faces_dlib, detect_faces_opencv,
    imread, path_exists.
  rewrite H. split; reflexivity.
Qed.

Lemma extract_unreadable_witness :
  extract_face_encoding Embedding (two_files (File None) NoFile) "camera.jpg"
  = Err "DLIB_DETECTION_ERROR" (VText "Face detection failed: {e}" []) /\
  extract_face_encoding Heuristic (two_files (File None) NoFile) "camera.jpg"
  = Err "IMAGE_READ_ERROR" (VStr "Could not read image file").
Proof. apply (extract_unreadable (two_files (File None) NoFile) "camera.jpg"). reflexivity. Defined.

(** Extraction succeeds exactly on a decodable file in which the variant's
    detector finds one face; the result is that face's encoding, or the
    features of the cascade box in the grayscale image. *)
Theorem extract_face_encoding_ok_iff (v : Variant) (fs : FS) (p : string) (r : FaceRep) :
  extract_face_encoding v fs p = Ok r <->
  exists d, fs p = File (Some d) /\
    match v with
    | Embedding => exists l e, hog_faces d = [(l, e)] /\ r = RepEmbedding l e
    | Heuristic => exists b, cascade_faces d = [b] /\ r = RepHeuristic (face_features (gray d) b)
    end.
Proof.
  destruct v; cbn [extract_face_encoding];
    unfold extract_face_encoding_dlib, extract_face_features, detect_faces_dlib, detect_faces_opencv,
      imread, path_exists;
    destruct (fs p) as [|[d|]] eqn:Hp; cbn [negb];
    (split; [intros H | intros (d' & Hd & Hf)]); try discriminate.
  - destruct (hog_faces d) as [|[l e] [|f l']] eqn:Hh; cbn in H; try discriminate.
    injection H as <-. exists d. eauto.
  - injection Hd as <-. destruct Hf as (l & e & Hh & ->). rewrite Hh. reflexivity.
  - destruct (cascade_faces d) as [|b [|b' l']] eqn:Hc; cbn in H; try discriminate.
    injection H as <-. exists d. eauto.
  - injection Hd as <-. destruct Hf as (b & Hc & ->). rewrite Hc. reflexivity.
Qed.

(** ** The quality gate *)

(** An image passes the quality gate exactly when it decodes, is at least
    100x100, has mean brightness in [30, 225] and Laplacian variance at
    least 100. *)
Theorem validate_image_quality_valid_iff (fs : FS) (p : string) :
  dict_get "valid" (validate_image_quality fs p) = Some (VBool true) <->
  exists d, imread fs p = Some d /\
    (100 <= img_width (gray d))%nat /\ (100 <= img_height (gray d))%nat /\
    30 <= brightness (gray d) <= 225 /\ 100 <= laplacian_var (gray d).
Proof.
  unfold validate_image_quality. destruct (imread fs p) as [d|].
  - cbv zeta. split.
    + destruct (Nat.ltb (img_width (gray d)) 100) eqn:Hw; [discriminate|].
      destruct (Nat.ltb (img_height (gray d)) 100) eqn:Hh; [discriminate|]. cbn [orb].
      apply Nat.ltb_ge in Hw, Hh.
      unfold Rlt_bool.
      destruct (Rlt_dec (brightness (gray d)) 30); [discriminate|].
      destruct (Rlt_dec 225 (brightness (gray d))); [discriminate|].
      destruct (Rlt_dec (laplacian_var (gray d)) 100); [discriminate|].
      intros _. exists d. repeat split; try lia; lra.
    + intros (d' & Hd & Hw & Hh & Hb & Hl). injection Hd as <-.
      apply Nat.ltb_ge in Hw, Hh. rewrite Hw, Hh. cbn [orb].
      rewrite !Rlt_bool_false by lra. reflexivity.
  - split; [discriminate|]. intros (d & Hd & _). discriminate.
Qed.

Lemma validate_valid_details (fs : FS) (p : string) :
  dict_get "valid" (validate_image_quality fs p) = Some (VBool true) ->
  exists det, dict_get "details" (validate_image_quality fs p) = Some det.
Proof.
  unfold validate_image_quality. destruct (imread fs p) as [d|]; [|discriminate]. cbv zeta.
  destruct (Nat.ltb (img_width (gray d)) 100 || Nat.ltb (img_height (gray d)) 100); [discriminate|].
  destruct (Rlt_bool (brightness (gray d)) 30); [discriminate|].
  destruct (Rlt_bool 225 (brightness (gray d))); [discriminate|].
  destruct (Rlt_bool (laplacian_var (gray d)) 100); [discriminate|].
  intros _. eexists. reflexivity.
Qed.

(** ** Comparing an image with itself *)

(** An image compared with itself, once a face is extracted from it:
    success, 100% confidence and a match, under the embedding variant for
    any tolerance >= 0 and under the fallback. *)
Theorem compare_faces_self (v : Variant) (tol : R) (fs : FS) (p : string) (r : FaceRep) :
  0 <= tol -> extract_face_encoding v fs p = Ok r ->
  let res := compare_faces v tol fs p p in
  dict_get "success" res = Some (VBool true) /\
  dict_get "is_match" res
  = Some (match v with Embedding => VNpBool true | Heuristic => VBool true end) /\
  dict_get "confidence" res = Some (VNum 100).
Proof.
  intros Ht E. cbv zeta. destruct v.
  - destruct r as [l e|f].
    2:{ cbn [extract_face_encoding] in E. destruct (extract_face_encoding_dlib fs p) as [|[]]; discriminate. }
    apply extract_embedding_inv in E. cbn [compare_faces].
    destruct (compare_dlib_ok tol fs p p l l e e E E) as (Hs & Hm & Hc & _).
    rewrite face_distance_self in Hm. unfold Rle_bool in Hm. destruct (Rle_dec 0 tol); [|lra].
    rewrite confidence_self in Hc. auto.
  - destruct r as [l e|f].
    { cbn [extract_face_encoding] in E. destruct (extract_face_features fs p); discriminate. }
    apply extract_heuristic_inv in E. cbn [compare_faces].
    destruct (compare_basic_ok fs p p f f E E) as (Hs & Hm & Hc & _).
    rewrite (combined_similarity_self f (extract_features_area _ _ _ E)) in Hm, Hc.
    unfold Rge_bool, basic_threshold in Hm. destruct (Rge_dec 1 0.4); [|lra].
    replace (Rmax 0 (Rmin 100 (1 * 100))) with (IZR 100) in Hc
      by (unfold Rmax, Rmin; repeat destruct (Rle_dec _ _); lra).
    rewrite py_round_IZR in Hc. auto.
Qed.

Lemma compare_faces_self_witness :
  let res := compare_faces Heuristic 0.6 fs_flat "camera.jpg" "camera.jpg" in
  dict_get "success" res = Some (VBool true) /\
  dict_get "is_match" res = Some (VBool true) /\
  dict_get "confidence" res = Some (VNum 100).
Proof.
  apply (compare_faces_self Heuristic 0.6 fs_flat "camera.jpg"
           (RepHeuristic (face_features (const_grid 200 30 30) box30))); [lra|reflexivity].
Defined.

(** ** The /verify route on a successful comparison *)

(** The /verify route under the embedding variant, when both images pass
    the quality gate and yield one encoding each: verify_identity succeeds,
    but the is_match it passes on is a numpy.bool_, on which [jsonify]
    raises TypeError, so the route answers 500 VERIFICATION_EXCEPTION. *)
Theorem route_verify_embedding_success (fs : FS) (now cam idc : string) (sd : Dict)
    (l1 l2 : Location) (e1 e2 : Encoding) :
  cam <> "" -> idc <> "" ->
  dict_get "valid" (validate_image_quality fs cam) = Some (VBool true) ->
  dict_get "valid" (validate_image_quality fs idc) = Some (VBool true) ->
  extract_face_encoding Embedding fs cam = Ok (RepEmbedding l1 e1) ->
  extract_face_encoding Embedding fs idc = Ok (RepEmbedding l2 e2) ->
  let r := verify_identity Embedding face_verification_service fs cam idc (Some sd) now in
  dict_get "success" r = Some (VBool true) /\
  dict_get "is_match" r = Some (VNpBool (Rle_bool (face_distance e1 e2) 0.6)) /\
  route_verify Embedding fs now (Some cam) (Some idc) sd = verify_exception_response.
Proof.
  intros Hc Hi Hv1 Hv2 E1 E2. cbv zeta.
  pose proof (extract_exists _ _ _ _ E1) as Hp1. pose proof (extract_exists _ _ _ _ E2) as Hp2.
  pose proof (quality_issues_valid _ _ Hv1 Hv2) as Hq.
  apply extract_embedding_inv in E1, E2.
  assert (Hs : dict_get "success" (verify_identity Embedding face_verification_service fs cam idc (Some sd) now)
               = Some (VBool true)).
  { cbn [verify_identity]. unfold verify_identity_advanced, compare_faces_dlib. rewrite E1, E2. reflexivity. }
  split; [exact Hs|]. split.
  - cbn [verify_identity]. unfold verify_identity_advanced, compare_faces_dlib. rewrite E1, E2. reflexivity.
  - destruct cam as [|a s]; [congruence|]. destruct idc as [|b t]; [congruence|].
    unfold route_verify, route_verify_with. cbv beta iota. rewrite Hp1, Hp2. cbn [negb].
    rewrite Hq. cbv beta iota zeta. rewrite Hs. cbn [truthy].
    rewrite verify_success_response_never. reflexivity.
Qed.

Lemma route_verify_embedding_success_witness :
  route_verify Embedding fs_good_pair "2026-10-15T00:00:00" (Some "camera.jpg") (Some "id_card.jpg") []
  = verify_exception_response.
Proof.
  exact (proj2 (proj2 (route_verify_embedding_success fs_good_pair "2026-10-15T00:00:00" "camera.jpg" "id_card.jpg" []
              loc30 loc30 enc_zero enc_near ltac:(discriminate) ltac:(discriminate)
              (validate_stripes_valid fs_good_pair "camera.jpg" [box30] [(loc30, enc_zero)] eq_refl)
              (validate_stripes_valid fs_good_pair "id_card.jpg" [box30] [(loc30, enc_near)] eq_refl)
              eq_refl eq_refl))).
Defined.

(** The /compare-faces route never answers 200, under either variant: a
    successful comparison reaches the success branch, where the embedding
    variant's numpy.bool_ is_match makes [jsonify] raise and the fallback's
    record lacks face_distance, so it ends in 500 COMPARISON_EXCEPTION;
    every other path answers 400 or 500. *)
Theorem route_compare_faces_never_ok (v : Variant) (fs : FS) (image1_path image2_path : option string) :
  fst (route_compare_faces v fs image1_path image2_path) <> 200%Z.
Proof.
  unfold route_compare_faces, route_compare_faces_with. cbv zeta.
  destruct image1_path as [p1|], image2_path as [p2|]; try discriminate.
  rewrite compare_success_response_never.
  repeat match goal with |- context [match ?x with _ => _ end] => destruct x end;
  discriminate.
Qed.

(** The /verify route never answers 200, under either variant: a
    successful verification reaches the success branch, where the embedding
    variant's numpy.bool_ is_match makes [jsonify] raise and the fallback's
    record lacks face_distance, so it ends in 500 VERIFICATION_EXCEPTION;
    every other path answers 400 or 500. *)
Theorem route_verify_never_ok (v : Variant) (fs : FS) (now : string)
    (camera_image_path id_card_image_path : option string) (student_details : Dict) :
  fst (route_verify v fs now camera_image_path id_card_image_path student_details) <> 200%Z.
Proof.
  unfold route_verify, route_verify_with. cbv beta zeta.
  destruct camera_image_path as [[|a cam]|], id_card_image_path as [[|b idc]|]; try discriminate.
  repeat first [ rewrite verify_success_response_never
               | match goal with |- context [match ?x with _ => _ end] => destruct x end ];
  discriminate.
Qed.

(** The /verify route under the fallback variant, when both images pass
    the quality gate and yield features: it answers 500 with
    VERIFICATION_EXCEPTION, since its success branch reads
    [verification_result["face_distance"]], which the fallback record does
    not carry. *)
Theorem route_verify_fallback_extracted (fs : FS) (now cam idc : string) (sd : Dict) (r1 r2 : FaceRep) :
  cam <> "" -> idc <> "" ->
  dict_get "valid" (validate_image_quality fs cam) = Some (VBool true) ->
  dict_get "valid" (validate_image_quality fs idc) = Some (VBool true) ->
  extract_face_encoding Heuristic fs cam = Ok r1 ->
  extract_face_encoding Heuristic fs idc = Ok r2 ->
  route_verify Heuristic fs now (Some cam) (Some idc) sd = verify_exception_response.
Proof.
  intros Hc Hi Hv1 Hv2 E1 E2.
  pose proof (extract_exists _ _ _ _ E1) as Hp1. pose proof (extract_exists _ _ _ _ E2) as Hp2.
  destruct r1 as [l1 e1|f1].
  { cbn [extract_face_encoding] in E1. destruct (extract_face_features fs cam); discriminate. }
  destruct r2 as [l2 e2|f2].
  { cbn [extract_face_encoding] in E2. destruct (extract_face_features fs idc); discriminate. }
  apply extract_heuristic_inv in E1, E2.
  apply route_verify_fallback_success; auto.
  - apply quality_issues_valid; assumption.
  - cbn [verify_identity]. apply (verify_basic_ok fs cam idc (Some sd) now f1 f2 E1 E2).
Qed.

Lemma route_verify_fallback_extracted_witness :
  route_verify Heuristic fs_good_pair "2026-10-15T00:00:00" (Some "camera.jpg") (Some "id_card.jpg") []
  = verify_exception_response.
Proof.
  apply (route_verify_fallback_extracted fs_good_pair "2026-10-15T00:00:00" "camera.jpg" "id_card.jpg" []
           (RepHeuristic (face_features stripes box30)) (RepHeuristic (face_features stripes box30))
           ltac:(discriminate) ltac:(discriminate)
           (validate_stripes_valid fs_good_pair "camera.jpg" [box30] [(loc30, enc_zero)] eq_refl)
           (validate_stripes_valid fs_good_pair "id_card.jpg" [box30] [(loc30, enc_near)] eq_refl)
           eq_refl eq_refl).
Defined.

(** ** The /compare-faces route before the comparison *)

(** For any comparison function: an absent or empty path answers 400
    MISSING_IMAGE_PATHS; otherwise a missing first file answers 400
    IMAGE1_NOT_FOUND, and a missing second file (the first existing) 400
    IMAGE2_NOT_FOUND. *)
Theorem route_compare_faces_preconditions (compare : string -> string -> Dict) (fs : FS)
    (image1_path image2_path : option string) :
  (missing image1_path || missing image2_path = true ->
   route_compare_faces_with compare fs image1_path image2_path
   = route_error 400 (VStr "Both image1_path and image2_path are required") "MISSING_IMAGE_PATHS") /\
  (forall p1 p2, image1_path = Some p1 -> image2_path = Some p2 -> p1 <> "" -> p2 <> "" ->
   path_exists fs p1 = false ->
   route_compare_faces_with compare fs image1_path image2_path
   = route_error 400 (VText "First image not found: {image1_path}" [VStr p1]) "IMAGE1_NOT_FOUND") /\
  (forall p1 p2, image1_path = Some p1 -> image2_path = Some p2 -> p1 <> "" -> p2 <> "" ->
   path_exists fs p1 = true -> path_exists fs p2 = false ->
   route_compare_faces_with compare fs image1_path image2_path
   = route_error 400 (VText "Second image not found: {image2_path}" [VStr p2]) "IMAGE2_NOT_FOUND").
Proof.
  split; [|split].
  - unfold route_compare_faces_with. cbv zeta.
    destruct image1_path as [p1|], image2_path as [p2|]; cbn [missing orb]; intros H; try reflexivity.
    rewrite H. reflexivity.
  - intros p1 p2 -> -> H1 H2 Hp1. unfold route_compare_faces_with. cbv zeta.
    rewrite (nonempty_string _ H1), (nonempty_string _ H2), Hp1. reflexivity.
  - intros p1 p2 -> -> H1 H2 Hp1 Hp2. unfold route_compare_faces_with. cbv zeta.
    rewrite (nonempty_string _ H1), (nonempty_string _ H2), Hp1, Hp2. reflexivity.
Qed.

Lemma route_compare_faces_preconditions_witness :
  route_compare_faces Heuristic fs_no_id_face (Some "camera.jpg") (Some "missing.jpg")
  = route_error 400 (VText "Second image not found: {image2_path}" [VStr "missing.jpg"]) "IMAGE2_NOT_FOUND".
Proof.
  apply (proj2 (proj2 (route_compare_faces_preconditions
                         (compare_faces Heuristic (tolerance face_verification_service) fs_no_id_face)
                         fs_no_id_face (Some "camera.jpg") (Some "missing.jpg")))
           "camera.jpg" "missing.jpg" eq_refl eq_refl ltac:(discriminate) ltac:(discriminate) eq_refl eq_refl).
Defined.

(* ------------------------------------------------------------------ *)
(** * Properties of the upload and PDF code *)

(** ** String helpers *)

Lemma string_existsb_app (p : ascii -> bool) (a b : string) :
  string_existsb p (a ++ b) = string_existsb p a || string_existsb p b.
Proof. induction a as [|c a IH]; cbn; [reflexivity|]. rewrite IH, orb_assoc. reflexivity. Qed.

Lemma split_last_none (c : ascii) (s : string) :
  string_existsb (fun x => Ascii.eqb x c) s = false -> split_last c s = None.
Proof.
  induction s as [|x s IH]; cbn; [reflexivity|].
  intros H. apply orb_false_iff in H as [Hx Hs]. rewrite (IH Hs), Hx. reflexivity.
Qed.

Lemma split_last_app (c : ascii) (pre post : string) :
  string_existsb (fun x => Ascii.eqb x c) post = false ->
  split_last c (pre ++ String c post) = Some (pre, post).
Proof.
  intros H. induction pre as [|x pre IH]; cbn.
  - rewrite (split_last_none c post H), Ascii.eqb_refl. reflexivity.
  - rewrite IH. reflexivity.
Qed.

Lemma split_last_some (c : ascii) (s pre post : string) :
  split_last c s = Some (pre, post) ->
  s = pre ++ String c post /\ string_existsb (fun x => Ascii.eqb x c) post = false.
Proof.
  revert pre post. induction s as [|x s IH]; cbn; intros pre post; [discriminate|].
  destruct (split_last c s) as [[pre' post']|] eqn:E.
  - intros H; injection H as <- <-. destruct (IH pre' post' eq_refl) as [-> Hp]. split; [reflexivity|exact Hp].
  - destruct (Ascii.eqb x c) eqn:Hx; [|discriminate]. intros H; injection H as <- <-.
    apply Ascii.eqb_eq in Hx as ->. split; [reflexivity|].
    destruct (string_existsb (fun y => Ascii.eqb y c) s) eqn:Hs; [|reflexivity].
    exfalso. clear IH. induction s as [|y s IHs]; cbn in *; [discriminate|].
    destruct (split_last c s) as [[]|] eqn:E'; [discriminate|].
    destruct (Ascii.eqb y c) eqn:Hy; [discriminate|]. cbn in Hs. exact (IHs eq_refl Hs).
Qed.

(** ** Config.allowed_file *)

(** A filename passes allowed_file exactly when it ends with a dot and
    three characters that lower-case to "pdf". *)
Theorem allowed_file_iff (filename : string) :
  allowed_file filename = true <->
  exists pre a b c, filename = pre ++ String "." (String a (String b (String c EmptyString))) /\
    lower_char a = "p"%char /\ lower_char b = "d"%char /\ lower_char c = "f"%char.
Proof.
  unfold allowed_file, ALLOWED_EXTENSIONS. split.
  - destruct (split_last "." filename) as [[pre ext]|] eqn:E; [|discriminate].
    cbn [existsb]. rewrite orb_false_r. intros H. apply String.eqb_eq in H.
    destruct (split_last_some _ _ _ _ E) as [-> _].
    destruct ext as [|a [|b [|c [|d r]]]]; cbn in H; try discriminate.
    injection H as Ha Hb Hc. exists pre, a, b, c. auto.
  - intros (pre & a & b & c & -> & Ha & Hb & Hc).
    assert (Hnd : forall x y, lower_char x = y -> y <> "."%char -> Ascii.eqb x "." = false).
    { intros x y Hx Hy. destruct (Ascii.eqb_spec x "."); [subst; cbv in Hy; congruence|reflexivity]. }
    rewrite split_last_app.
    + cbn [existsb lower]. rewrite Ha, Hb, Hc. reflexivity.
    + cbn [string_existsb].
      rewrite (Hnd a _ Ha), (Hnd b _ Hb), (Hnd c _ Hc) by discriminate. reflexivity.
Qed.

Lemma allowed_file_iff_witness :
  allowed_file "card.PdF" = true.
Proof.
  apply (proj2 (allowed_file_iff "card.PdF")).
  exists "card", "P"%char, "d"%char, "F"%char. repeat split; reflexivity.
Defined.

(** ** PDFService.validate_pdf *)

(** validate_pdf accepts exactly an existing file whose extension lower-cases
    to ".pdf", which pdfplumber opens, with at least one page; it then
    reports the page count. *)
Theorem validate_pdf_ok_iff (st : PdfStore) (p : string) (n : nat) :
  validate_pdf st p = Ok n <->
  exists pages, st p = Some (Some pages) /\ lower (splitext_ext p) = ".pdf" /\
    n = length pages /\ n <> 0%nat.
Proof.
  unfold validate_pdf. cbn [existsb]. rewrite orb_false_r.
  destruct (String.eqb (lower (splitext_ext p)) ".pdf") eqn:He; cbn [negb].
  - apply String.eqb_eq in He.
    destruct (st p) as [[pages|]|].
    + destruct (Nat.eqb (length pages) 0) eqn:Hn.
      * split; [discriminate|]. intros (pg & Hp & _ & -> & Hz). injection Hp as <-.
        apply Nat.eqb_eq in Hn. contradiction.
      * split.
        -- intros H; injection H as <-. exists pages. repeat split; auto. apply Nat.eqb_neq. exact Hn.
        -- intros (pg & Hp & _ & -> & _). injection Hp as <-. reflexivity.
    + split; [discriminate|]. intros (pg & Hp & _). discriminate.
    + split; [discriminate|]. intros (pg & Hp & _). discriminate.
  - apply String.eqb_neq in He.
    split; [destruct (st p); discriminate|]. intros (pg & _ & He' & _). contradiction.
Qed.

(** ** Test documents *)

Definition text_page (s : string) : Page := mkPage (TextStr s) [] (fun _ => true).

(** A PDF store holding one file at [p]. *)
Definition one_pdf (p : string) (doc : PdfFile) : PdfStore :=
  fun q => if String.eqb q p then Some doc else None.

(** A regular-expression engine under which no pattern matches. *)
Definition no_match : string -> string -> option string := fun _ _ => None.

Definition empty_disk : Disk := mkDisk (fun _ => None) (fun _ => false).

Definition id_card_text : string := "Name: Asha Rao Register No: 21CS042".

(** ** PDFService.process_id_card *)

(** process_id_card succeeds exactly when text extraction does, whatever
    image extraction gives; otherwise it reports TEXT_EXTRACTION_FAILED. *)
Theorem process_id_card_success (re_search : string -> string -> option string) (st : PdfStore)
    (file_path output_dir : string) :
  let r := process_id_card re_search st file_path output_dir in
  match extract_text_from_pdf re_search st file_path with
  | TextExtracted _ _ =>
      dict_get "success" r = Some (VBool true) /\
      dict_get "message" r = Some (VStr "ID card processed successfully") /\
      dict_get "error_code" r = None
  | TextFailed _ _ =>
      dict_get "success" r = Some (VBool false) /\
      dict_get "message" r = Some (VStr "Failed to extract text from ID card") /\
      dict_get "error_code" r = Some (VStr "TEXT_EXTRACTION_FAILED")
  end.
Proof.
  cbv zeta. unfold process_id_card.
  destruct (extract_text_from_pdf re_search st file_path); cbv zeta; repeat split; reflexivity.
Qed.

(** The student photo: the first image of largest width * height. *)
Lemma largest_fold (rest : list ImageEntry) (best : ImageEntry) :
  let r := fold_left (fun best x => if Z.ltb (image_area best) (image_area x) then x else best) rest best in
  In r (best :: rest) /\ (forall x, In x (best :: rest) -> (image_area x <= image_area r)%Z) /\
  exists pre post, best :: rest = app pre (r :: post) /\ forall x, In x pre -> (image_area x < image_area r)%Z.
Proof.
  revert best. induction rest as [|y rest IH]; intros best; cbv zeta; cbn [fold_left].
  - split; [left; reflexivity|]. split.
    + intros x [<-|[]]. lia.
    + exists [], []. split; [reflexivity|]. intros x [].
  - destruct (Z.ltb (image_area best) (image_area y)) eqn:Hlt.
    + apply Z.ltb_lt in Hlt. destruct (IH y) as (Hin & Hmax & pre & post & Heq & Hpre).
      split; [right; exact Hin|]. split.
      * intros x [<-|Hx]; [|apply Hmax; exact Hx].
        specialize (Hmax y (or_introl eq_refl)). lia.
      * exists (best :: pre), post. split; [cbn; rewrite Heq; reflexivity|].
        intros x [<-|Hx]; [|apply Hpre; exact Hx].
        specialize (Hmax y (or_introl eq_refl)). lia.
    + apply Z.ltb_ge in Hlt. destruct (IH best) as (Hin & Hmax & pre & post & Heq & Hpre).
      set (r := fold_left _ rest best) in *.
      assert (Hbr : (image_area best <= image_area r)%Z) by (apply Hmax; left; reflexivity).
      split; [destruct Hin as [<-|Hin]; [left; reflexivity|right; right; exact Hin]|]. split.
      * intros x [<-|[<-|Hx]]; [exact Hbr|lia|apply Hmax; right; exact Hx].
      * destruct pre as [|b pre].
        -- cbn in Heq. injection Heq as <- <-. exists [], (y :: rest). split; [reflexivity|]. intros x [].
        -- cbn in Heq. injection Heq as <- Heq. exists (best :: y :: pre), post.
           split; [cbn; rewrite Heq; reflexivity|].
           assert (Hb : (image_area best < image_area r)%Z) by (apply Hpre; left; reflexivity).
           intros x [<-|[<-|Hx]]; [exact Hb|lia|apply Hpre; right; exact Hx].
Qed.

(** largest_image returns one of the images, of maximal area, and the
    first of them: every image before it is strictly smaller. *)
Theorem largest_image_first_max (images : list ImageEntry) (e : ImageEntry) :
  largest_image images = Some e ->
  In e images /\ (forall x, In x images -> (image_area x <= image_area e)%Z) /\
  exists pre post, images = app pre (e :: post) /\ forall x, In x pre -> (image_area x < image_area e)%Z.
Proof.
  destruct images as [|first rest]; [discriminate|]. cbn [largest_image]. intros H; injection H as <-.
  exact (largest_fold rest first).
Qed.

Definition sample_images : list ImageEntry :=
  [mkImageEntry "extracted_image_p1_1.png" "uploads/extracted_image_p1_1.png" 1 40 40;
   mkImageEntry "extracted_image_p1_2.png" "uploads/extracted_image_p1_2.png" 1 120 160;
   mkImageEntry "extracted_image_p1_3.png" "uploads/extracted_image_p1_3.png" 1 160 120].

Lemma largest_image_first_max_witness :
  let e := mkImageEntry "extracted_image_p1_2.png" "uploads/extracted_image_p1_2.png" 1 120 160 in
  In e sample_images /\ (forall x, In x sample_images -> (image_area x <= image_area e)%Z) /\
  exists pre post, sample_images = app pre (e :: post) /\ forall x, In x pre -> (image_area x < image_area e)%Z.
Proof. exact (largest_image_first_max sample_images _ eq_refl). Defined.

(** ** The /extract-text and /extract-images routes *)

(** On a present, existing path, /extract-text answers with the service's
    outcome: 200 with the text, the details and the text's length, or 400
    with the service's message and error code. *)
Theorem route_extract_text_result (re_search : string -> string -> option string) (st : PdfStore)
    (file_path : string) :
  file_path <> "" -> pdf_exists st file_path = true ->
  route_extract_text re_search st (Some (Some file_path)) =
  match extract_text_from_pdf re_search st file_path with
  | TextExtracted text sd =>
      (200%Z, [("status", VStr "success"); ("message", VStr "Text extracted successfully");
               ("data", VDict [("extracted_text", VStr text); ("student_details", VDict sd);
                               ("text_length", VNum (INR (String.length text)))])])
  | TextFailed msg code => (400%Z, [("status", VStr "error"); ("message", msg); ("error_code", VStr code)])
  end.
Proof.
  intros Hn He. destruct file_path as [|c s]; [congruence|].
  unfold route_extract_text. rewrite He. cbn [negb].
  destruct (extract_text_from_pdf re_search st (String c s)); reflexivity.
Qed.

Lemma route_extract_text_result_witness :
  route_extract_text no_match (one_pdf "uploads/card.pdf" (Some [text_page id_card_text]))
    (Some (Some "uploads/card.pdf"))
  = (200%Z, [("status", VStr "success"); ("message", VStr "Text extracted successfully");
             ("data", VDict [("extracted_text", VStr id_card_text);
                             ("student_details", VDict (parse_student_details no_match id_card_text));
                             ("text_length", VNum (INR (String.length id_card_text)))])]).
Proof.
  rewrite (route_extract_text_result no_match (one_pdf "uploads/card.pdf" (Some [text_page id_card_text]))
             "uploads/card.pdf" ltac:(discriminate) eq_refl).
  vm_compute extract_text_from_pdf. reflexivity.
Defined.

(** On a present, existing path, /extract-images answers with the service's
    outcome: 200 with the number of images and their entries, or 400 with
    the service's message and error code. *)
Theorem route_extract_images_result (st : PdfStore) (file_path : string) :
  file_path <> "" -> pdf_exists st file_path = true ->
  route_extract_images st (Some (Some file_path)) =
  match extract_images_from_pdf st file_path UPLOAD_FOLDER with
  | ImagesFound images =>
      (200%Z, [("status", VStr "success");
               ("message", VText "Detected {len(extracted_images)} images in PDF" [VNum (INR (length images))]);
               ("data", VDict [("total_images", VNum (INR (length images)));
                               ("images", VList (map entry_value images))])])
  | NoImagesFound =>
      (400%Z, [("status", VStr "error");
               ("message", VStr "No images found in PDF. For better image extraction, install Visual Studio Build Tools and PyMuPDF");
               ("error_code", VStr "NO_IMAGES_FOUND")])
  | ImagesFailed msg code => (400%Z, [("status", VStr "error"); ("message", msg); ("error_code", VStr code)])
  end.
Proof.
  intros Hn He. destruct file_path as [|c s]; [congruence|].
  unfold route_extract_images. rewrite He. cbn [negb].
  destruct (extract_images_from_pdf st (String c s) UPLOAD_FOLDER); reflexivity.
Qed.

Lemma route_extract_images_result_witness :
  route_extract_images (one_pdf "uploads/card.pdf" (Some [text_page id_card_text])) (Some (Some "uploads/card.pdf"))
  = (400%Z, [("status", VStr "error");
             ("message", VStr "No images found in PDF. For better image extraction, install Visual Studio Build Tools and PyMuPDF");
             ("error_code", VStr "NO_IMAGES_FOUND")]).
Proof.
  rewrite (route_extract_images_result (one_pdf "uploads/card.pdf" (Some [text_page id_card_text]))
             "uploads/card.pdf" ltac:(discriminate) eq_refl).
  reflexivity.
Defined.

(** Neither extraction route ever answers with the service's own
    FILE_NOT_FOUND message "File does not exist": the route checks the path
    first, with its own message. *)
Theorem extract_routes_never_service_not_found (re_search : string -> string -> option string)
    (st : PdfStore) (data : PathRequest) :
  dict_get "message" (snd (route_extract_text re_search st data)) <> Some (VStr "File does not exist") /\
  dict_get "message" (snd (route_extract_images st data)) <> Some (VStr "File does not exist").
Proof.
  destruct data as [[[|c s]|]|]; cbn; try (split; discriminate).
  destruct (pdf_exists st (String c s)) eqn:He; cbn [negb]; [|split; discriminate].
  unfold pdf_exists in He. unfold extract_text_from_pdf, extract_images_from_pdf, validate_pdf.
  destruct (st (String c s)) as [doc|]; [|discriminate].
  destruct (negb (existsb (String.eqb (lower (splitext_ext (String c s)))) [".pdf"])); [split; discriminate|].
  destruct doc as [pages|]; [|split; discriminate].
  destruct (Nat.eqb (length pages) 0); [split; discriminate|].
  split.
  - destruct (pages_text "" pages); [|discriminate].
    destruct (String.eqb (strip s0) ""); discriminate.
  - destruct (pages_entries UPLOAD_FOLDER 0 pages); discriminate.
Qed.

(** ** The /upload-id-card route *)

Lemma py_join_upload_folder (b : string) :
  py_join UPLOAD_FOLDER b = b \/ py_join UPLOAD_FOLDER b = UPLOAD_FOLDER ++ "/" ++ b.
Proof.
  unfold py_join. destruct b as [|c r]; [right; reflexivity|].
  destruct c as [[] [] [] [] [] [] [] []]; first [left; reflexivity | right; reflexivity].
Qed.

(** The saved path is never the upload folder itself: it holds a '_'. *)
Lemma upload_path_not_folder (a x : string) :
  String.eqb (py_join UPLOAD_FOLDER (a ++ "_" ++ x)) UPLOAD_FOLDER = false.
Proof.
  apply String.eqb_neq. change ("_" ++ x) with (String "_" x). destruct (py_join_upload_folder (a ++ String "_" x)) as [-> | ->].
  - intros H. unfold UPLOAD_FOLDER in H.
    do 7 (destruct a as [|? a]; [discriminate H|injection H as _ H]).
    destruct a; discriminate H.
  - unfold UPLOAD_FOLDER. cbn. intros H. inversion H.
Qed.

Lemma makedirs_exist_ok_ok (d : Disk) (p : string) :
  disk_dirs d p = true \/ pdf_exists (disk_files d) p = false ->
  exists d', makedirs_exist_ok d p = Some d' /\ disk_files d' = disk_files d /\
    forall q, disk_dirs d' q = (String.eqb q p || disk_dirs d q).
Proof.
  intros H. unfold makedirs_exist_ok.
  destruct (disk_dirs d p) eqn:Hd.
  - exists d. split; [reflexivity|]. split; [reflexivity|]. intros q.
    destruct (String.eqb q p) eqn:E; [|reflexivity]. apply String.eqb_eq in E. subst q. exact Hd.
  - destruct H as [H|H]; [discriminate|]. rewrite H.
    eexists. split; [reflexivity|]. split; reflexivity.
Qed.

(** A request without a file, with an empty filename or with a filename
    allowed_file rejects is answered 400 with NO_FILE, NO_FILE_SELECTED or
    INVALID_FORMAT, and the file system is left as it was. *)
Theorem route_upload_rejected (re_search : string -> string -> option string) (secure_filename : string -> string)
    (timestamp : string) (d : Disk) (file : option Upload) :
  (forall f, file = Some f -> upload_filename f = "" \/ allowed_file (upload_filename f) = false) ->
  let res := route_upload_id_card re_search secure_filename timestamp d file in
  fst (fst res) = 400%Z /\ snd res = d /\
  exists code, In code ["NO_FILE"; "NO_FILE_SELECTED"; "INVALID_FORMAT"] /\
    dict_get "error_code" (snd (fst res)) = Some (VStr code).
Proof.
  intros H. cbv zeta. unfold route_upload_id_card. destruct file as [f|].
  - destruct (H f eq_refl) as [Hf|Ha].
    + rewrite Hf. cbn. repeat split. exists "NO_FILE_SELECTED". split; [right; left; reflexivity|reflexivity].
    + rewrite Ha. destruct (String.eqb (upload_filename f) "").
      * cbn. repeat split. exists "NO_FILE_SELECTED". split; [right; left; reflexivity|reflexivity].
      * cbn. repeat split. exists "INVALID_FORMAT". split; [right; right; left; reflexivity|reflexivity].
  - cbn. repeat split. exists "NO_FILE". split; [left; reflexivity|reflexivity].
Qed.

Lemma route_upload_rejected_witness :
  let res := route_upload_id_card no_match (fun s => s) "20261015_093000" empty_disk
               (Some (mkUpload "card.docx" None)) in
  fst (fst res) = 400%Z /\ snd res = empty_disk /\
  exists code, In code ["NO_FILE"; "NO_FILE_SELECTED"; "INVALID_FORMAT"] /\
    dict_get "error_code" (snd (fst res)) = Some (VStr code).
Proof.
  apply (route_upload_rejected no_match (fun s => s) "20261015_093000" empty_disk
           (Some (mkUpload "card.docx" None))).
  intros f Hf. injection Hf as <-. right. reflexivity.
Defined.

(** An accepted upload, when uploads is a directory or absent and the save
    path is not a directory: the route creates the uploads directory if
    needed (and no other), saves the file at
    uploads/<timestamp>_<secure name> and processes it there. When text
    extraction succeeds it answers 200 and keeps the file; otherwise it
    answers 400 with TEXT_EXTRACTION_FAILED and removes the saved path, so
    that path ends up absent even if a file was there before the upload,
    while every other file is left as it was. *)
Theorem route_upload_processing (re_search : string -> string -> option string)
    (secure_filename : string -> string) (timestamp : string) (d : Disk) (f : Upload) :
  upload_filename f <> "" -> allowed_file (upload_filename f) = true ->
  let file_path := py_join UPLOAD_FOLDER (timestamp ++ "_" ++ secure_filename (upload_filename f)) in
  disk_dirs d UPLOAD_FOLDER = true \/ pdf_exists (disk_files d) UPLOAD_FOLDER = false ->
  disk_dirs d file_path = false ->
  let saved := store_set (disk_files d) file_path (Some (upload_content f)) in
  let res := route_upload_id_card re_search secure_filename timestamp d (Some f) in
  (forall q, disk_dirs (snd res) q = (String.eqb q UPLOAD_FOLDER || disk_dirs d q)) /\
  match extract_text_from_pdf re_search saved file_path with
  | TextExtracted _ _ => fst (fst res) = 200%Z /\ disk_files (snd res) = saved
  | TextFailed _ _ =>
      fst res = (400%Z, [("status", VStr "error"); ("message", VStr "Failed to extract text from ID card");
                         ("error_code", VStr "TEXT_EXTRACTION_FAILED");
                         ("suggestions", VList [VStr "Ensure the PDF contains a clear student photo";
                                                VStr "Check if the PDF has readable text content";
                                                VStr "Try uploading a different ID card PDF"])]) /\
      forall q, disk_files (snd res) q = if String.eqb q file_path then None else disk_files d q
  end.
Proof.
  intros Hn Ha. cbv zeta. intros Hu Hd.
  set (file_path := py_join UPLOAD_FOLDER (timestamp ++ "_" ++ secure_filename (upload_filename f))).
  set (saved := store_set (disk_files d) file_path (Some (upload_content f))).
  change (disk_dirs d file_path = false) in Hd.
  destruct (makedirs_exist_ok_ok d UPLOAD_FOLDER Hu) as (d' & Hm & Hf' & Hd').
  assert (Hs : save_upload d' file_path (upload_content f)
               = Some (mkDisk saved (disk_dirs d'))).
  { unfold save_upload. rewrite Hd', Hd. unfold file_path at 1. rewrite upload_path_not_folder.
    cbn [orb]. rewrite Hf'. reflexivity. }
  assert (He : pdf_exists saved file_path = true).
  { unfold pdf_exists, saved, store_set. rewrite String.eqb_refl. reflexivity. }
  unfold route_upload_id_card. rewrite (nonempty_string _ Hn), Ha. cbn [negb].
  rewrite Hm. cbv beta iota zeta. fold file_path. rewrite Hs. cbn [disk_files disk_dirs].
  unfold process_id_card.
  destruct (extract_text_from_pdf re_search saved file_path); cbv zeta.
  - rewrite He. cbn [dict_get dict_set String.eqb]. cbn. split; [exact Hd'|]. split; [reflexivity|].
    intros q. unfold saved, store_set. destruct (String.eqb q file_path); reflexivity.
  - cbn. split; [exact Hd'|]. split; reflexivity.
Qed.

Lemma route_upload_processing_witness :
  let f := mkUpload "card.pdf" (Some [text_page id_card_text]) in
  let res := route_upload_id_card no_match (fun s => s) "20261015_093000" empty_disk (Some f) in
  (forall q, disk_dirs (snd res) q = (String.eqb q UPLOAD_FOLDER || false)) /\
  fst (fst res) = 200%Z /\
  disk_files (snd res) = store_set (fun _ => None) "uploads/20261015_093000_card.pdf" (Some (upload_content f)).
Proof.
  exact (route_upload_processing no_match (fun s => s) "20261015_093000" empty_disk
           (mkUpload "card.pdf" (Some [text_page id_card_text])) ltac:(discriminate) eq_refl
           (or_intror eq_refl) eq_refl).
Defined.

(** An accepted upload when uploads is a regular file: [os.makedirs]
    raises FileExistsError and the route answers 500 with UPLOAD_EXCEPTION,
    leaving the file system as it was. *)
Theorem route_upload_folder_blocked (re_search : string -> string -> option string)
    (secure_filename : string -> string) (timestamp : string) (d : Disk) (f : Upload) :
  upload_filename f <> "" -> allowed_file (upload_filename f) = true ->
  disk_dirs d UPLOAD_FOLDER = false -> pdf_exists (disk_files d) UPLOAD_FOLDER = true ->
  route_upload_id_card re_search secure_filename timestamp d (Some f) = (upload_exception_response, d).
Proof.
  intros Hn Ha Hd Hp. unfold route_upload_id_card. rewrite (nonempty_string _ Hn), Ha. cbn [negb].
  unfold makedirs_exist_ok. rewrite Hd, Hp. reflexivity.
Qed.

Lemma route_upload_folder_blocked_witness :
  route_upload_id_card no_match (fun s => s) "20261015_093000"
    (mkDisk (one_pdf UPLOAD_FOLDER None) (fun _ => false)) (Some (mkUpload "card.pdf" None))
  = (upload_exception_response, mkDisk (one_pdf UPLOAD_FOLDER None) (fun _ => false)).
Proof.
  apply route_upload_folder_blocked; [discriminate|reflexivity|reflexivity|reflexivity].
Defined.

(** ** str.strip *)

Lemma lstrip_existsb (p : ascii -> bool) (s : string) :
  string_existsb (fun c => negb (p c)) (lstrip_with p s) = string_existsb (fun c => negb (p c)) s.
Proof. induction s as [|c s IH]; cbn; [reflexivity|]. destruct (p c) eqn:Hc; cbn; [exact IH|rewrite Hc; reflexivity]. Qed.

Lemma rstrip_existsb (p : ascii -> bool) (s : string) :
  string_existsb (fun c => negb (p c)) (rstrip_with p s) = string_existsb (fun c => negb (p c)) s.
Proof.
  induction s as [|c s IH]; cbn; [reflexivity|].
  destruct (rstrip_with p s) as [|c' r'] eqn:E.
  - cbn in IH. rewrite <- IH. destruct (p c) eqn:Hc; cbn; rewrite ?Hc; reflexivity.
  - cbn. cbn in IH. rewrite IH. reflexivity.
Qed.

Lemma lstrip_all (p : ascii -> bool) (s : string) :
  string_existsb (fun c => negb (p c)) s = false -> lstrip_with p s = EmptyString.
Proof.
  induction s as [|c s IH]; cbn; [reflexivity|].
  intros H. apply orb_false_iff in H as [Hc Hs]. apply negb_false_iff in Hc. rewrite Hc. exact (IH Hs).
Qed.

Lemma strip_existsb (s : string) :
  string_existsb (fun c => negb (is_space c)) (strip s) = string_existsb (fun c => negb (is_space c)) s.
Proof. unfold strip. rewrite rstrip_existsb, lstrip_existsb. reflexivity. Qed.

Lemma strip_empty_iff (s : string) :
  strip s = EmptyString <-> string_existsb (fun c => negb (is_space c)) s = false.
Proof.
  split.
  - intros H. rewrite <- strip_existsb, H. reflexivity.
  - intros H. unfold strip. rewrite (lstrip_all _ _ H). reflexivity.
Qed.

Lemma lstrip_idem (p : ascii -> bool) (s : string) : lstrip_with p (lstrip_with p s) = lstrip_with p s.
Proof.
  induction s as [|c s IH]; cbn; [reflexivity|].
  destruct (p c) eqn:Hc; [exact IH|]. cbn. rewrite Hc. reflexivity.
Qed.

Lemma rstrip_idem (p : ascii -> bool) (s : string) : rstrip_with p (rstrip_with p s) = rstrip_with p s.
Proof.
  induction s as [|c s IH]; [reflexivity|].
  change (rstrip_with p (String c s)) with
    (match rstrip_with p s with
     | EmptyString => if p c then EmptyString else String c EmptyString
     | r' => String c r'
     end).
  destruct (rstrip_with p s) as [|c' r'] eqn:E.
  - destruct (p c) eqn:Hc; cbn; rewrite ?Hc; reflexivity.
  - change (rstrip_with p (String c (String c' r'))) with
      (match rstrip_with p (String c' r') with
       | EmptyString => if p c then EmptyString else String c EmptyString
       | r'' => String c r''
       end).
    rewrite IH. reflexivity.
Qed.

(** A string with no leading character of [p] keeps that property under rstrip. *)
Lemma lstrip_rstrip (p : ascii -> bool) (s : string) :
  lstrip_with p s = s -> lstrip_with p (rstrip_with p s) = rstrip_with p s.
Proof.
  destruct s as [|c s]; cbn; [reflexivity|].
  destruct (p c) eqn:Hc.
  - intros H. exfalso. assert (Hl : (String.length (lstrip_with p s) <= String.length s)%nat).
    { clear H. induction s as [|d s IHs]; cbn; [lia|]. destruct (p d); cbn; lia. }
    rewrite H in Hl. cbn in Hl. lia.
  - intros _. destruct (rstrip_with p s); cbn; rewrite ?Hc; reflexivity.
Qed.

Lemma strip_idem (s : string) : strip (strip s) = strip s.
Proof.
  unfold strip. rewrite (lstrip_rstrip _ _ (lstrip_idem _ s)). apply rstrip_idem.
Qed.

(** ** PDFService.extract_text_from_pdf *)

Lemma pages_text_raises (acc : string) (pages : list Page) :
  (exists pg, In pg pages /\ page_text pg = TextRaises) -> pages_text acc pages = None.
Proof.
  revert acc. induction pages as [|pg pages IH]; intros acc (q & Hin & Hq); [destruct Hin|].
  cbn. destruct Hin as [<-|Hin].
  - rewrite Hq. reflexivity.
  - destruct (page_text pg); [| |reflexivity].
    + apply IH. eauto.
    + destruct (String.eqb s ""); apply IH; eauto.
Qed.

Lemma pages_text_content (acc : string) (pages : list Page) :
  (forall pg, In pg pages -> page_text pg <> TextRaises) ->
  exists out, pages_text acc pages = Some out /\
    string_existsb (fun c => negb (is_space c)) out =
    string_existsb (fun c => negb (is_space c)) acc ||
    existsb (fun pg => match page_text pg with
                       | TextStr s => string_existsb (fun c => negb (is_space c)) s
                       | _ => false
                       end) pages.
Proof.
  revert acc. induction pages as [|pg pages IH]; intros acc Hr.
  - exists acc. cbn. rewrite orb_false_r. split; reflexivity.
  - assert (Hr' : forall q, In q pages -> page_text q <> TextRaises) by (intros q Hq; apply Hr; right; exact Hq).
    cbn [pages_text existsb]. destruct (page_text pg) as [|s|] eqn:Ht.
    + destruct (IH acc Hr') as (out & Ho & He). exists out. split; [exact Ho|]. exact He.
    + destruct (String.eqb s "") eqn:Hs.
      * apply String.eqb_eq in Hs. subst s. destruct (IH acc Hr') as (out & Ho & He).
        exists out. split; [exact Ho|]. exact He.
      * destruct (IH (acc ++ s ++ newline) Hr') as (out & Ho & He). exists out. split; [exact Ho|].
        rewrite He, !string_existsb_app. cbn [string_existsb newline].
        replace (negb (is_space (ascii_of_nat 10))) with false by reflexivity.
        rewrite !orb_false_r, orb_assoc. reflexivity.
    + exfalso. exact (Hr pg (or_introl eq_refl) Ht).
Qed.

(** For a PDF that passes validation: a page whose text extraction raises
    gives TEXT_EXTRACTION_ERROR; otherwise extraction succeeds exactly when
    some page's text has a non-whitespace character, and fails with
    NO_TEXT_FOUND when none has. *)
Theorem extract_text_from_pdf_outcome (re_search : string -> string -> option string) (st : PdfStore)
    (file_path : string) (pages : list Page) :
  st file_path = Some (Some pages) -> lower (splitext_ext file_path) = ".pdf" -> pages <> [] ->
  let has_text := exists pg s, In pg pages /\ page_text pg = TextStr s /\
                    string_existsb (fun c => negb (is_space c)) s = true in
  ((exists pg, In pg pages /\ page_text pg = TextRaises) ->
   extract_text_from_pdf re_search st file_path
   = TextFailed (VText "Text extraction failed: {str(e)}" []) "TEXT_EXTRACTION_ERROR") /\
  ((forall pg, In pg pages -> page_text pg <> TextRaises) ->
   ((exists text sd, extract_text_from_pdf re_search st file_path = TextExtracted text sd) <-> has_text) /\
   (~ has_text ->
    extract_text_from_pdf re_search st file_path
    = TextFailed (VStr "No text content found in the PDF") "NO_TEXT_FOUND")).
Proof.
  intros Hp He Hne. cbv zeta.
  assert (Hv : validate_pdf st file_path = Ok (length pages)).
  { unfold validate_pdf. rewrite Hp, He. cbn.
    destruct pages; [congruence|]. reflexivity. }
  unfold extract_text_from_pdf. rewrite Hv, Hp. split.
  - intros Hr. rewrite (pages_text_raises "" pages Hr). reflexivity.
  - intros Hr. destruct (pages_text_content "" pages Hr) as (out & Ho & Hc). rewrite Ho.
    cbn [string_existsb orb] in Hc.
    assert (Hiff : string_existsb (fun c => negb (is_space c)) out = true <->
                   exists pg s, In pg pages /\ page_text pg = TextStr s /\
                     string_existsb (fun c => negb (is_space c)) s = true).
    { rewrite Hc, existsb_exists. split.
      - intros (pg & Hin & Hpg). destruct (page_text pg) as [|s|] eqn:Ht; try discriminate. eauto.
      - intros (pg & s & Hin & Ht & Hs). exists pg. rewrite Ht. auto. }
    destruct (String.eqb (strip out) "") eqn:Hs.
    + apply String.eqb_eq, strip_empty_iff in Hs. split.
      * split; [intros (t & sd & H); discriminate|]. intros H. apply Hiff in H. congruence.
      * intros _. reflexivity.
    + split.
      * split; [intros _; apply Hiff|intros _; eauto].
        destruct (string_existsb (fun c => negb (is_space c)) out) eqn:Hx; [reflexivity|].
        apply strip_empty_iff in Hx. rewrite Hx in Hs. discriminate.
      * intros Hn. exfalso. apply Hn, Hiff.
        destruct (string_existsb (fun c => negb (is_space c)) out) eqn:Hx; [reflexivity|].
        apply strip_empty_iff in Hx. rewrite Hx in Hs. discriminate.
Qed.

Lemma extract_text_from_pdf_outcome_witness :
  exists text sd,
    extract_text_from_pdf no_match (one_pdf "uploads/card.pdf" (Some [mkPage TextNone [] (fun _ => true);
                                                                     text_page id_card_text]))
      "uploads/card.pdf" = TextExtracted text sd.
Proof.
  pose proof (extract_text_from_pdf_outcome no_match
           (one_pdf "uploads/card.pdf" (Some [mkPage TextNone [] (fun _ => true); text_page id_card_text]))
           "uploads/card.pdf" [mkPage TextNone [] (fun _ => true); text_page id_card_text]
           eq_refl eq_refl ltac:(discriminate)) as [_ H].
  destruct H as [H _]; [intros pg [<-|[<-|[]]]; discriminate|].
  apply H.
  exists (text_page id_card_text), id_card_text. split; [right; left; reflexivity|split; reflexivity].
Defined.

(** A successful extraction returns a non-empty text with no surrounding
    whitespace, and the details parsed from that text. *)
Theorem extract_text_from_pdf_text (re_search : string -> string -> option string) (st : PdfStore)
    (file_path text : string) (sd : Dict) :
  extract_text_from_pdf re_search st file_path = TextExtracted text sd ->
  strip text = text /\ text <> "" /\ sd = parse_student_details re_search text.
Proof.
  unfold extract_text_from_pdf. destruct (validate_pdf st file_path); [discriminate|].
  destruct (st file_path) as [[pages|]|]; try discriminate.
  destruct (pages_text "" pages) as [out|]; [|discriminate].
  destruct (String.eqb (strip out) "") eqn:Hs; [discriminate|].
  intros H; injection H as <- <-. apply String.eqb_neq in Hs.
  split; [apply strip_idem|]. split; [exact Hs|reflexivity].
Qed.

Lemma extract_text_from_pdf_text_witness :
  strip id_card_text = id_card_text /\ id_card_text <> "" /\
  parse_student_details no_match id_card_text = parse_student_details no_match id_card_text.
Proof.
  exact (extract_text_from_pdf_text no_match (one_pdf "uploads/card.pdf" (Some [text_page id_card_text]))
           "uploads/card.pdf" id_card_text _ eq_refl).
Defined.

(** ** PDFService.extract_images_from_pdf *)









(** ** PDFService.parse_student_details *)

Lemma first_value_long (re_search : string -> string -> option string) (text : string) (pats : list string)
    (v : string) :
  first_value re_search text pats = Some v -> (1 < String.length v)%nat.
Proof.
  induction pats as [|pat pats IH]; cbn [first_value]; [discriminate|].
  destruct (re_search pat text) as [g|]; [|exact IH].
  destruct (Nat.ltb 1 (String.length (strip g))) eqn:Hl; [|exact IH].
  intros H. injection H as <-. apply Nat.ltb_lt. exact Hl.
Qed.

(** The details always have the seven keys of the initial dict, in that
    order; each holds the cleaned value of the first pattern of its field
    whose stripped group has at least two characters, or stays empty. *)
Theorem parse_student_details_fields (re_search : string -> string -> option string) (text : string) :
  map fst (parse_student_details re_search text) = student_detail_keys /\
  parse_student_details re_search text =
  map (fun '(field, field_patterns) =>
         (field, VStr (match first_value re_search (collapse_ws (strip text)) field_patterns with
                       | Some value => clean_value value
                       | None => ""
                       end))) patterns.
Proof.
  assert (Heq : parse_student_details re_search text =
    map (fun '(field, field_patterns) =>
           (field, VStr (match first_value re_search (collapse_ws (strip text)) field_patterns with
                         | Some value => clean_value value
                         | None => ""
                         end))) patterns).
  { unfold parse_student_details. set (t := collapse_ws (strip text)).
    cbv beta iota zeta delta [fold_left map patterns student_detail_keys].
    repeat match goal with
    | |- context [first_value re_search t ?l] =>
        let E := fresh "E" in
        destruct (first_value re_search t l) as [[|?c ?v]|] eqn:E;
        [apply first_value_long in E; cbn in E; lia| |]
    end; reflexivity. }
  split; [|exact Heq]. rewrite Heq. reflexivity.
Qed.
